(** * carp: the Worker reconciler and its template builders

    A shallow embedding of [controllers/templates.go] and of the Worker
    controller ([Reconcile] and its seven stage functions), with the
    properties of the reconciliation pipeline stated over it.

    Go values are modelled as follows.
    - [string] is a byte string (Rocq's [string]); [[]byte] is
      [list Byte.byte]; [int], [int32] and durations are [Z].
    - A struct is a record, a pointer field that may be nil is an [option],
      a Go map is a [gmap] (a missing key reads as the zero value), a slice
      is a [list].
    - Pointers to API objects that a closure can rebind are modelled with an
      explicit heap of cells ([Mem]); see [CreateOrUpdate].
    - The API servers are finite maps from (kind, namespace, name) to
      objects; every client call is appended to a call log and may fail
      with an error injected by the world's fault script. *)

From Stdlib Require Import ZArith NArith Ascii String.
From Stdlib.Strings Require Import Byte.
From stdpp Require Import base decidable option list gmap strings pretty.

Local Open Scope string_scope.
Local Open Scope list_scope.

(** ** Go strings *)

(** The double quote character, for literals that contain one. *)
Definition dq : string := String "034"%char EmptyString.

(** [fmt.Sprintf("%s<suffix>", s)] *)
Definition Sprintf_s (s suffix : string) : string := s +:+ suffix.

#[global] Instance byte_eq_dec : EqDecision Byte.byte := Byte.byte_eq_dec.

(** [m[k]] on a [map[string]string]: the zero value when [k] is absent. *)
Definition mapIndex (m : gmap string string) (k : string) : string :=
  default "" (m !! k).

(** ** k8s.io/apimachinery/pkg/apis/meta/v1 *)

Record OwnerReference := {
  owner_APIVersion : string;
  owner_Kind : string;
  owner_Name : string;
  owner_UID : string;
  owner_Controller : option bool;
  owner_BlockOwnerDeletion : option bool;
}.

(** The fields of [ObjectMeta] that identify an object or that the
    controller reads or writes. *)
Record ObjectMeta := {
  Name : string;
  Namespace : string;
  UID : string;
  ResourceVersion : string;
  Labels : gmap string string;
  Annotations : gmap string string;
  OwnerReferences : list OwnerReference;
}.

(** [metav1.ObjectMeta{Name: name}] *)
Definition metaNamed (name : string) : ObjectMeta :=
  {| Name := name; Namespace := ""; UID := ""; ResourceVersion := "";
     Labels := ∅; Annotations := ∅; OwnerReferences := [] |}.

Definition withNamespace (ns : string) (m : ObjectMeta) : ObjectMeta :=
  {| Name := Name m; Namespace := ns; UID := UID m;
     ResourceVersion := ResourceVersion m; Labels := Labels m;
     Annotations := Annotations m; OwnerReferences := OwnerReferences m |}.

Definition withOwnerReferences (refs : list OwnerReference) (m : ObjectMeta)
  : ObjectMeta :=
  {| Name := Name m; Namespace := Namespace m; UID := UID m;
     ResourceVersion := ResourceVersion m; Labels := Labels m;
     Annotations := Annotations m; OwnerReferences := refs |}.

Record LabelSelector := { MatchLabels : gmap string string }.

(** ** k8s.io/api/core/v1 *)

Record ObjectReference := {
  ref_APIVersion : string;
  ref_Kind : string;
  ref_Name : string;
}.

Record Secret := {
  sec_meta : ObjectMeta;
  sec_Data : gmap string (list Byte.byte);
  sec_StringData : gmap string string;
  sec_Type : string;
}.

Record Namespace_ := { ns_meta : ObjectMeta }.

(** ** sigs.k8s.io/cluster-api/api/v1alpha3 *)

Record NetworkRanges := { CIDRBlocks : list string }.
Record ClusterNetwork := { Pods : option NetworkRanges }.

Record ClusterSpec := {
  cl_ClusterNetwork : option ClusterNetwork;
  cl_ControlPlaneRef : option ObjectReference;
  cl_InfrastructureRef : option ObjectReference;
}.

Record Cluster := { cl_meta : ObjectMeta; cl_Spec : ClusterSpec }.

Record Bootstrap := { ConfigRef : option ObjectReference }.

Record MachineSpec := {
  ms_ClusterName : string;
  ms_Bootstrap : Bootstrap;
  ms_InfrastructureRef : ObjectReference;
  ms_Version : option string;
}.

Record MachineTemplateSpec := { mts_Spec : MachineSpec }.

Record MachineDeploymentSpec := {
  md_ClusterName : string;
  md_Replicas : option Z;
  md_Selector : LabelSelector;
  md_Template : MachineTemplateSpec;
}.

Record MachineDeployment := {
  md_meta : ObjectMeta;
  md_Spec : MachineDeploymentSpec;
}.

(** ** sigs.k8s.io/cluster-api-provider-azure/api/v1alpha3 *)

Record VnetSpec := { vnet_Name : string }.
Record NetworkSpec := { Vnet : VnetSpec }.

Record AzureClusterSpec := {
  azc_Location : string;
  azc_NetworkSpec : NetworkSpec;
  azc_ResourceGroup : string;
}.

Record AzureCluster := { azc_meta : ObjectMeta; azc_Spec : AzureClusterSpec }.

Record ManagedDisk := { StorageAccountType : string }.

Record OSDisk := {
  DiskSizeGB : Z;
  osd_ManagedDisk : ManagedDisk;
  OSType : string;
}.

Record AzureMachineSpec := {
  ams_Location : string;
  ams_OSDisk : OSDisk;
  VMSize : string;
}.

Record AzureMachineTemplateResource := { amr_Spec : AzureMachineSpec }.
Record AzureMachineTemplateSpec := { amt_Template : AzureMachineTemplateResource }.

Record AzureMachineTemplate := {
  amt_meta : ObjectMeta;
  amt_Spec : AzureMachineTemplateSpec;
}.

(** ** cluster-api bootstrap/kubeadm: types/v1beta1 and api/v1alpha3 *)

Record HostPathMount := {
  hpm_HostPath : string;
  hpm_MountPath : string;
  hpm_Name : string;
  hpm_ReadOnly : bool;
}.

Record ControlPlaneComponent := {
  ExtraArgs : gmap string string;
  ExtraVolumes : list HostPathMount;
}.

Record APIServer := {
  api_ControlPlaneComponent : ControlPlaneComponent;
  TimeoutForControlPlane : option Z;   (* nanoseconds *)
}.

Record ClusterConfiguration := {
  cc_APIServer : APIServer;
  cc_ControllerManager : ControlPlaneComponent;
}.

Record NodeRegistrationOptions := {
  KubeletExtraArgs : gmap string string;
  nr_Name : string;
}.

Record InitConfiguration := { init_NodeRegistration : NodeRegistrationOptions }.
Record JoinConfiguration := { join_NodeRegistration : NodeRegistrationOptions }.

Record File := {
  file_Owner : string;
  file_Path : string;
  file_Permissions : string;
  file_Content : string;
}.

Record KubeadmConfigSpec := {
  kcs_ClusterConfiguration : option ClusterConfiguration;
  kcs_InitConfiguration : option InitConfiguration;
  kcs_JoinConfiguration : option JoinConfiguration;
  kcs_Files : list File;
  kcs_UseExperimentalRetryJoin : bool;
}.

Record KubeadmConfigTemplateResource := { kctr_Spec : KubeadmConfigSpec }.
Record KubeadmConfigTemplateSpec := { kct_Template : KubeadmConfigTemplateResource }.

Record KubeadmConfigTemplate := {
  kct_meta : ObjectMeta;
  kct_Spec : KubeadmConfigTemplateSpec;
}.

(** ** cluster-api controlplane/kubeadm/api/v1alpha3 *)

Record KubeadmControlPlaneSpec := {
  kcp_Replicas : option Z;
  kcp_Version : string;
  kcp_InfrastructureTemplate : ObjectReference;
  kcp_KubeadmConfigSpec : KubeadmConfigSpec;
}.

Record KubeadmControlPlane := {
  kcp_meta : ObjectMeta;
  kcp_Spec : KubeadmControlPlaneSpec;
}.

(** ** github.com/juan-lee/carp/api/v1alpha1: Worker *)

Definition Time := Z.

(** Modelled from the spec: [WorkerSpec], declared in worker_types.go, which
    is missing. "location, replicas, capacity (integer), version"; the
    types are those of the uses in the controller and in
    [getMachineDeployment] ([int32], [string]). *)
Record WorkerSpec := {
  ws_Location : string;
  ws_Replicas : Z;
  ws_Capacity : Z;
  ws_Version : string;
}.

(** Modelled from the spec: the phases of a Worker, declared in the missing
    worker_types.go: "Pending", "Running" (and "Terminating", which the
    controller never sets). *)
Definition WorkerPending : string := "Pending".
Definition WorkerRunning : string := "Running".

(** Modelled from the spec: [WorkerStatus], declared in the missing
    worker_types.go: "phase, availableCapacity (nullable integer),
    lastScheduledTime (timestamp)". *)
Record WorkerStatus := {
  st_Phase : string;
  st_AvailableCapacity : option Z;
  st_LastScheduledTime : Time;
}.

(** Modelled from the spec: [Worker], declared in the missing
    worker_types.go: object metadata, spec and status. *)
Record Worker := {
  wk_meta : ObjectMeta;
  wk_Spec : WorkerSpec;
  wk_Status : WorkerStatus;
}.

(** ** Decidable equality (Go's deep equality on these values) *)

#[global] Instance OwnerReference_eq_dec : EqDecision OwnerReference.
Proof. solve_decision. Defined.
#[global] Instance ObjectMeta_eq_dec : EqDecision ObjectMeta.
Proof. solve_decision. Defined.
#[global] Instance LabelSelector_eq_dec : EqDecision LabelSelector.
Proof. solve_decision. Defined.
#[global] Instance ObjectReference_eq_dec : EqDecision ObjectReference.
Proof. solve_decision. Defined.
#[global] Instance Secret_eq_dec : EqDecision Secret.
Proof. solve_decision. Defined.
#[global] Instance Namespace_eq_dec : EqDecision Namespace_.
Proof. solve_decision. Defined.
#[global] Instance NetworkRanges_eq_dec : EqDecision NetworkRanges.
Proof. solve_decision. Defined.
#[global] Instance ClusterNetwork_eq_dec : EqDecision ClusterNetwork.
Proof. solve_decision. Defined.
#[global] Instance ClusterSpec_eq_dec : EqDecision ClusterSpec.
Proof. solve_decision. Defined.
#[global] Instance Cluster_eq_dec : EqDecision Cluster.
Proof. solve_decision. Defined.
#[global] Instance Bootstrap_eq_dec : EqDecision Bootstrap.
Proof. solve_decision. Defined.
#[global] Instance MachineSpec_eq_dec : EqDecision MachineSpec.
Proof. solve_decision. Defined.
#[global] Instance MachineTemplateSpec_eq_dec : EqDecision MachineTemplateSpec.
Proof. solve_decision. Defined.
#[global] Instance MachineDeploymentSpec_eq_dec : EqDecision MachineDeploymentSpec.
Proof. solve_decision. Defined.
#[global] Instance MachineDeployment_eq_dec : EqDecision MachineDeployment.
Proof. solve_decision. Defined.
#[global] Instance VnetSpec_eq_dec : EqDecision VnetSpec.
Proof. solve_decision. Defined.
#[global] Instance NetworkSpec_eq_dec : EqDecision NetworkSpec.
Proof. solve_decision. Defined.
#[global] Instance AzureClusterSpec_eq_dec : EqDecision AzureClusterSpec.
Proof. solve_decision. Defined.
#[global] Instance AzureCluster_eq_dec : EqDecision AzureCluster.
Proof. solve_decision. Defined.
#[global] Instance ManagedDisk_eq_dec : EqDecision ManagedDisk.
Proof. solve_decision. Defined.
#[global] Instance OSDisk_eq_dec : EqDecision OSDisk.
Proof. solve_decision. Defined.
#[global] Instance AzureMachineSpec_eq_dec : EqDecision AzureMachineSpec.
Proof. solve_decision. Defined.
#[global] Instance AzureMachineTemplateResource_eq_dec :
  EqDecision AzureMachineTemplateResource.
Proof. solve_decision. Defined.
#[global] Instance AzureMachineTemplateSpec_eq_dec :
  EqDecision AzureMachineTemplateSpec.
Proof. solve_decision. Defined.
#[global] Instance AzureMachineTemplate_eq_dec : EqDecision AzureMachineTemplate.
Proof. solve_decision. Defined.
#[global] Instance HostPathMount_eq_dec : EqDecision HostPathMount.
Proof. solve_decision. Defined.
#[global] Instance ControlPlaneComponent_eq_dec : EqDecision ControlPlaneComponent.
Proof. solve_decision. Defined.
#[global] Instance APIServer_eq_dec : EqDecision APIServer.
Proof. solve_decision. Defined.
#[global] Instance ClusterConfiguration_eq_dec : EqDecision ClusterConfiguration.
Proof. solve_decision. Defined.
#[global] Instance NodeRegistrationOptions_eq_dec :
  EqDecision NodeRegistrationOptions.
Proof. solve_decision. Defined.
#[global] Instance InitConfiguration_eq_dec : EqDecision InitConfiguration.
Proof. solve_decision. Defined.
#[global] Instance JoinConfiguration_eq_dec : EqDecision JoinConfiguration.
Proof. solve_decision. Defined.
#[global] Instance File_eq_dec : EqDecision File.
Proof. solve_decision. Defined.
#[global] Instance KubeadmConfigSpec_eq_dec : EqDecision KubeadmConfigSpec.
Proof. solve_decision. Defined.
#[global] Instance KubeadmConfigTemplateResource_eq_dec :
  EqDecision KubeadmConfigTemplateResource.
Proof. solve_decision. Defined.
#[global] Instance KubeadmConfigTemplateSpec_eq_dec :
  EqDecision KubeadmConfigTemplateSpec.
Proof. solve_decision. Defined.
#[global] Instance KubeadmConfigTemplate_eq_dec : EqDecision KubeadmConfigTemplate.
Proof. solve_decision. Defined.
#[global] Instance KubeadmControlPlaneSpec_eq_dec :
  EqDecision KubeadmControlPlaneSpec.
Proof. solve_decision. Defined.
#[global] Instance KubeadmControlPlane_eq_dec : EqDecision KubeadmControlPlane.
Proof. solve_decision. Defined.
#[global] Instance WorkerSpec_eq_dec : EqDecision WorkerSpec.
Proof. solve_decision. Defined.
#[global] Instance WorkerStatus_eq_dec : EqDecision WorkerStatus.
Proof. solve_decision. Defined.
#[global] Instance Worker_eq_dec : EqDecision Worker.
Proof. solve_decision. Defined.

(** ** Kinds and keys of API objects *)

Inductive Kind :=
  | KWorker | KCluster | KKubeadmConfigTemplate | KKubeadmControlPlane
  | KAzureMachineTemplate | KMachineDeployment | KAzureCluster
  | KSecret | KNamespace
  | KOther (apiVersion kind : string).   (* any other kind, as a manifest names it *)

#[global] Instance Kind_eq_dec : EqDecision Kind.
Proof. solve_decision. Defined.

Definition Kind_to_sum (k : Kind) : nat + string * string :=
  match k with
  | KWorker => inl 0%nat | KCluster => inl 1%nat
  | KKubeadmConfigTemplate => inl 2%nat
  | KKubeadmControlPlane => inl 3%nat | KAzureMachineTemplate => inl 4%nat
  | KMachineDeployment => inl 5%nat | KAzureCluster => inl 6%nat
  | KSecret => inl 7%nat | KNamespace => inl 8%nat
  | KOther v k => inr (v, k)
  end.

Definition Kind_of_sum (n : nat + string * string) : option Kind :=
  match n with
  | inl 0%nat => Some KWorker | inl 1%nat => Some KCluster
  | inl 2%nat => Some KKubeadmConfigTemplate
  | inl 3%nat => Some KKubeadmControlPlane
  | inl 4%nat => Some KAzureMachineTemplate
  | inl 5%nat => Some KMachineDeployment | inl 6%nat => Some KAzureCluster
  | inl 7%nat => Some KSecret | inl 8%nat => Some KNamespace
  | inl _ => None
  | inr (v, k) => Some (KOther v k)
  end.

#[global] Program Instance Kind_countable : Countable Kind :=
  inj_countable Kind_to_sum Kind_of_sum _.
Next Obligation. by intros []. Qed.

(** An object key: kind, namespace, name. *)
Abbreviation Key := (Kind * string * string)%type.

(** ** Errors

    Go [error] values: API status errors, plain messages ([fmt.Errorf]
    without [%w]) and wrapped errors ([fmt.Errorf("...: %w", err)]). *)

Inductive Error :=
  | ENotFound (k : Key)         (* API status error, reason NotFound *)
  | EAlreadyExists (k : Key)    (* API status error, reason AlreadyExists *)
  | EApi (msg : string)         (* any other error of an API call *)
  | EMsg (msg : string)         (* fmt.Errorf without %w *)
  | EWrap (msg : string) (e : Error).   (* fmt.Errorf("msg: %w", e) *)

#[global] Instance Error_eq_dec : EqDecision Error.
Proof. solve_decision. Defined.

(** ** encoding/json: how a Go string is written

    [encodeState.string] with HTML escaping, which [json.Marshal] uses:
    bytes below 0x80 are copied unless they are a control character, a
    double quote, a backslash or one of [<], [>], [&]; invalid UTF-8 becomes
    the escape of U+FFFD; U+2028 and U+2029 are escaped. *)

Definition bs : string := String "092"%char EmptyString.

Definition hexDigit (n : N) : ascii :=
  match String.get (N.to_nat n) "0123456789abcdef" with
  | Some c => c
  | None => "0"%char
  end.

Definition htmlSafeSet (b : N) : bool :=
  (32 <=? b)%N && (b <? 128)%N
  && negb ((b =? 34)%N || (b =? 92)%N || (b =? 60)%N || (b =? 62)%N || (b =? 38)%N).

Definition RuneError : N := 65533.

(** [utf8.first] for a lead byte of a multi-byte sequence: the length of the
    sequence and the range accepted for its second byte. *)
Definition first (b : N) : option (nat * N * N) :=
  if (b <? 194)%N then None
  else if (b <? 224)%N then Some (2, 128%N, 191%N)
  else if (b =? 224)%N then Some (3, 160%N, 191%N)
  else if (b <? 237)%N then Some (3, 128%N, 191%N)
  else if (b =? 237)%N then Some (3, 128%N, 159%N)
  else if (b <? 240)%N then Some (3, 128%N, 191%N)
  else if (b =? 240)%N then Some (4, 144%N, 191%N)
  else if (b <? 244)%N then Some (4, 128%N, 191%N)
  else if (b =? 244)%N then Some (4, 128%N, 143%N)
  else None.

Definition outside (lo hi b : N) : bool := (b <? lo)%N || (hi <? b)%N.

Definition maskx (b : N) : N := N.land b 63.

(** [utf8.DecodeRuneInString] *)
Definition DecodeRuneInString (s : string) : N * nat :=
  match s with
  | EmptyString => (RuneError, 0)
  | String c0 r0 =>
    let s0 := N_of_ascii c0 in
    if (s0 <? 128)%N then (s0, 1) else
    match first s0, r0 with
    | None, _ => (RuneError, 1)
    | Some _, EmptyString => (RuneError, 1)
    | Some (sz, lo, hi), String c1 r1 =>
      let s1 := N_of_ascii c1 in
      if outside lo hi s1 then (RuneError, 1)
      else if (sz <=? 2)%nat then
        (N.lor (N.shiftl (N.land s0 31) 6) (maskx s1), 2)
      else
      match r1 with
      | EmptyString => (RuneError, 1)
      | String c2 r2 =>
        let s2 := N_of_ascii c2 in
        if outside 128 191 s2 then (RuneError, 1)
        else if (sz <=? 3)%nat then
          (N.lor (N.lor (N.shiftl (N.land s0 15) 12) (N.shiftl (maskx s1) 6))
                 (maskx s2), 3)
        else
        match r2 with
        | EmptyString => (RuneError, 1)
        | String c3 _ =>
          let s3 := N_of_ascii c3 in
          if outside 128 191 s3 then (RuneError, 1)
          else
            (N.lor (N.lor (N.lor (N.shiftl (N.land s0 7) 18)
                                 (N.shiftl (maskx s1) 12))
                          (N.shiftl (maskx s2) 6))
                   (maskx s3), 4)
        end
      end
    end
  end.

Definition escapeByte (b : N) (c : ascii) : string :=
  bs +:+
  (if (b =? 92)%N || (b =? 34)%N then String c EmptyString
   else if (b =? 10)%N then "n"
   else if (b =? 13)%N then "r"
   else if (b =? 9)%N then "t"
   else "u00" +:+ String (hexDigit (N.shiftr b 4))
                         (String (hexDigit (N.land b 15)) EmptyString)).

(** The body of the string encoder. [copy] bytes of a rune already decoded
    are still to be copied, [drop] bytes of an escaped rune to be skipped. *)
Fixpoint encodeFrom (copy drop : nat) (s : string) : string :=
  match s with
  | EmptyString => EmptyString
  | String c rest =>
    match drop, copy with
    | S d, _ => encodeFrom copy d rest
    | O, S k => String c (encodeFrom k 0 rest)
    | O, O =>
      let b := N_of_ascii c in
      if (b <? 128)%N then
        if htmlSafeSet b then String c (encodeFrom 0 0 rest)
        else escapeByte b c +:+ encodeFrom 0 0 rest
      else
        let '(r, size) := DecodeRuneInString (String c rest) in
        if (r =? RuneError)%N && (size =? 1)%nat then
          bs +:+ "ufffd" +:+ encodeFrom 0 0 rest
        else if (r =? 8232)%N || (r =? 8233)%N then
          bs +:+ "u202" +:+ String (hexDigit (N.land r 15)) EmptyString
             +:+ encodeFrom 0 (size - 1) rest
        else String c (encodeFrom (size - 1) 0 rest)
    end
  end.

Definition jsonString (s : string) : string := dq +:+ encodeFrom 0 0 s +:+ dq.

Definition jsonBool (b : bool) : string := if b then "true" else "false".

Definition jsonInt (n : Z) : string := pretty n.

(** [dq name dq :] followed by an encoded value *)
Definition jsonField (name value : string) : string :=
  dq +:+ name +:+ dq +:+ ":" +:+ value.

Fixpoint joinWith (sep : string) (l : list string) : string :=
  match l with
  | [] => ""
  | [x] => x
  | x :: l' => x +:+ sep +:+ joinWith sep l'
  end.

Definition jsonObject (fields : list string) : string :=
  "{" +:+ joinWith "," fields +:+ "}".

(** ** controllers/templates.go *)

(** Names of the settings, from [go-autorest/autorest/azure/auth]. *)
Definition auth_EnvironmentName : string := "AZURE_ENVIRONMENT".
Definition auth_TenantID : string := "AZURE_TENANT_ID".
Definition auth_SubscriptionID : string := "AZURE_SUBSCRIPTION_ID".
Definition auth_ClientID : string := "AZURE_CLIENT_ID".
Definition auth_ClientSecret : string := "AZURE_CLIENT_SECRET".

Record CloudProviderConfig := {
  Cloud : string;
  TenantID : string;
  SubscriptionID : string;
  AadClientID : string;
  AadClientSecret : string;
  ResourceGroup : string;
  SecurityGroupName : string;
  Location : string;
  VMType : string;
  VnetName : string;
  VnetResourceGroup : string;
  SubnetName : string;
  RouteTableName : string;
  LoadBalancerSku : string;
  MaximumLoadBalancerRuleCount : Z;
  UseManagedIdentityExtension : bool;
  UseInstanceMetadata : bool;
}.

(** [json.Marshal] of a [CloudProviderConfig]: the fields in declaration
    order under their [json] tags. It has no failing case for this type. *)
Definition json_Marshal (c : CloudProviderConfig) : string * option Error :=
  (jsonObject
     [ jsonField "cloud" (jsonString (Cloud c));
       jsonField "tenantId" (jsonString (TenantID c));
       jsonField "subscriptionId" (jsonString (SubscriptionID c));
       jsonField "aadClientId" (jsonString (AadClientID c));
       jsonField "aadClientSecret" (jsonString (AadClientSecret c));
       jsonField "resourceGroup" (jsonString (ResourceGroup c));
       jsonField "securityGroupName" (jsonString (SecurityGroupName c));
       jsonField "location" (jsonString (Location c));
       jsonField "vmType" (jsonString (VMType c));
       jsonField "vnetName" (jsonString (VnetName c));
       jsonField "vnetResourceGroup" (jsonString (VnetResourceGroup c));
       jsonField "subnetName" (jsonString (SubnetName c));
       jsonField "routeTableName" (jsonString (RouteTableName c));
       jsonField "loadBalancerSku" (jsonString (LoadBalancerSku c));
       jsonField "maximumLoadBalancerRuleCount"
                 (jsonInt (MaximumLoadBalancerRuleCount c));
       jsonField "useManagedIdentityExtension"
                 (jsonBool (UseManagedIdentityExtension c));
       jsonField "useInstanceMetadata" (jsonBool (UseInstanceMetadata c)) ],
   None).

Definition getCloudProviderConfig (cluster location : string)
    (settings : gmap string string) : string * option Error :=
  let config :=
    {| Cloud := mapIndex settings auth_EnvironmentName;
       TenantID := mapIndex settings auth_TenantID;
       SubscriptionID := mapIndex settings auth_SubscriptionID;
       AadClientID := mapIndex settings auth_ClientID;
       AadClientSecret := mapIndex settings auth_ClientSecret;
       ResourceGroup := cluster;
       SecurityGroupName := Sprintf_s cluster "-node-nsg";
       Location := location;
       VMType := "standard";
       VnetName := Sprintf_s cluster "-vnet";
       VnetResourceGroup := cluster;
       SubnetName := Sprintf_s cluster "-node-subnet";
       RouteTableName := Sprintf_s cluster "-node-routetable";
       LoadBalancerSku := "standard";
       MaximumLoadBalancerRuleCount := 250%Z;
       UseManagedIdentityExtension := false;
       UseInstanceMetadata := true |} in
  json_Marshal config.

Definition getMachineDeployment (worker : Worker) : MachineDeployment :=
  {| md_meta := metaNamed (Name (wk_meta worker));
     md_Spec :=
       {| md_ClusterName := Name (wk_meta worker);
          md_Replicas := Some (ws_Replicas (wk_Spec worker));
          md_Selector := {| MatchLabels := ∅ |};
          md_Template :=
            {| mts_Spec :=
                 {| ms_ClusterName := Name (wk_meta worker);
                    ms_Bootstrap :=
                      {| ConfigRef :=
                           Some {| ref_APIVersion := "bootstrap.cluster.x-k8s.io/v1alpha3";
                                   ref_Name := Name (wk_meta worker);
                                   ref_Kind := "KubeadmConfigTemplate" |} |};
                    ms_InfrastructureRef :=
                      {| ref_APIVersion := "infrastructure.cluster.x-k8s.io/v1alpha3";
                         ref_Name := Name (wk_meta worker);
                         ref_Kind := "AzureMachineTemplate" |};
                    ms_Version := Some (ws_Version (wk_Spec worker)) |} |} |} |}.

Definition getMachineTemplate (cluster location : string) : AzureMachineTemplate :=
  {| amt_meta := metaNamed cluster;
     amt_Spec :=
       {| amt_Template :=
            {| amr_Spec :=
                 {| ams_Location := location;
                    ams_OSDisk :=
                      {| DiskSizeGB := 1024%Z;
                         osd_ManagedDisk := {| StorageAccountType := "Premium_LRS" |};
                         OSType := "Linux" |};
                    VMSize := "Standard_D8s_v3" |} |} |} |}.

Definition getCluster (cluster location : string) (settings : gmap string string)
  : Cluster :=
  {| cl_meta := metaNamed cluster;
     cl_Spec :=
       {| cl_ClusterNetwork :=
            Some {| Pods := Some {| CIDRBlocks := ["192.168.0.0/16"] |} |};
          cl_ControlPlaneRef :=
            Some {| ref_APIVersion := "controlplane.cluster.x-k8s.io/v1alpha3";
                    ref_Kind := "KubeadmControlPlane";
                    ref_Name := cluster |};
          cl_InfrastructureRef :=
            Some {| ref_APIVersion := "infrastructure.cluster.x-k8s.io/v1alpha3";
                    ref_Kind := "AzureCluster";
                    ref_Name := cluster |} |} |}.

Definition getAzureCluster (cluster location : string) : AzureCluster :=
  {| azc_meta := metaNamed cluster;
     azc_Spec :=
       {| azc_Location := location;
          azc_NetworkSpec := {| Vnet := {| vnet_Name := Sprintf_s cluster "-vnet" |} |};
          azc_ResourceGroup := cluster |} |}.

Definition azureJSON : string := "/etc/kubernetes/azure.json".

Definition cloudArgs : gmap string string :=
  <["cloud-config" := azureJSON]> (<["cloud-provider" := "azure"]> ∅).

Definition cloudConfigMount : HostPathMount :=
  {| hpm_HostPath := azureJSON; hpm_MountPath := azureJSON;
     hpm_Name := "cloud-config"; hpm_ReadOnly := true |}.

Definition localHostname : string :=
  "{{ ds.meta_data[" +:+ dq +:+ "local_hostname" +:+ dq +:+ "] }}".

Definition nodeRegistration : NodeRegistrationOptions :=
  {| KubeletExtraArgs := cloudArgs; nr_Name := localHostname |}.

Definition cloudConfigFile (data : string) : File :=
  {| file_Owner := "root:root"; file_Path := azureJSON;
     file_Permissions := "0644"; file_Content := data |}.

Definition getKubeadmControlPlane (cluster location : string)
    (settings : gmap string string) : Error + KubeadmControlPlane :=
  match getCloudProviderConfig cluster location settings with
  | (_, Some _) => inl (EMsg "failed to generate cloud provider config")
  | (data, None) =>
    let replicas : Z := 1%Z in
    inr
    {| kcp_meta := metaNamed cluster;
       kcp_Spec :=
         {| kcp_Replicas := Some replicas;
            kcp_Version := "v1.17.4";
            kcp_InfrastructureTemplate :=
              {| ref_APIVersion := "infrastructure.cluster.x-k8s.io/v1alpha3";
                 ref_Kind := "AzureMachineTemplate";
                 ref_Name := cluster |};
            kcp_KubeadmConfigSpec :=
              {| kcs_ClusterConfiguration :=
                   Some
                   {| cc_APIServer :=
                        {| api_ControlPlaneComponent :=
                             {| ExtraArgs := cloudArgs;
                                ExtraVolumes := [cloudConfigMount] |};
                           TimeoutForControlPlane := Some (60000000000 * 20)%Z |};
                      cc_ControllerManager :=
                        {| ExtraArgs := <["allocate-node-cidrs" := "false"]> cloudArgs;
                           ExtraVolumes := [cloudConfigMount] |} |};
                 kcs_InitConfiguration :=
                   Some {| init_NodeRegistration := nodeRegistration |};
                 kcs_JoinConfiguration :=
                   Some {| join_NodeRegistration := nodeRegistration |};
                 kcs_Files := [cloudConfigFile data];
                 kcs_UseExperimentalRetryJoin := true |} |} |}
  end.

Definition getKubeadmConfigTemplate (cluster location : string)
    (settings : gmap string string) : Error + KubeadmConfigTemplate :=
  match getCloudProviderConfig cluster location settings with
  | (_, Some _) => inl (EMsg "failed to generate cloud provider config")
  | (data, None) =>
    inr
    {| kct_meta := metaNamed cluster;
       kct_Spec :=
         {| kct_Template :=
              {| kctr_Spec :=
                   {| kcs_ClusterConfiguration := None;
                      kcs_InitConfiguration := None;
                      kcs_JoinConfiguration :=
                        Some {| join_NodeRegistration := nodeRegistration |};
                      kcs_Files := [cloudConfigFile data];
                      kcs_UseExperimentalRetryJoin := false |} |} |} |}
  end.

(** ** API objects and the [runtime.Object] interface *)

(** An object of a kind the controller has no Go type for
    ([unstructured.Unstructured]): what a manifest can hold. *)
Record Unstructured := {
  un_APIVersion : string;
  un_Kind : string;
  un_meta : ObjectMeta;
  un_content : string;   (* the rest of the object, as written *)
}.

#[global] Instance Unstructured_eq_dec : EqDecision Unstructured.
Proof. solve_decision. Defined.

Inductive Resource :=
  | RWorker (o : Worker)
  | RCluster (o : Cluster)
  | RKubeadmConfigTemplate (o : KubeadmConfigTemplate)
  | RKubeadmControlPlane (o : KubeadmControlPlane)
  | RAzureMachineTemplate (o : AzureMachineTemplate)
  | RMachineDeployment (o : MachineDeployment)
  | RAzureCluster (o : AzureCluster)
  | RSecret (o : Secret)
  | RNamespace (o : Namespace_)
  | RUnstructured (o : Unstructured).

#[global] Instance Resource_eq_dec : EqDecision Resource.
Proof. solve_decision. Defined.

(** What the controller needs of an API type: its kind, its metadata
    ([metav1.Object]) and its place among the stored objects. *)
Class Object (T : Type) `{EqDecision T} := {
  kindOf : Kind;
  GetObjectMeta : T → ObjectMeta;
  SetObjectMeta : ObjectMeta → T → T;
  toResource : T → Resource;
  ofResource : Resource → option T;
}.
Arguments kindOf T {_ _}.

#[global] Instance Worker_Object : Object Worker := {|
  kindOf := KWorker;
  GetObjectMeta := wk_meta;
  SetObjectMeta m o :=
    {| wk_meta := m; wk_Spec := wk_Spec o; wk_Status := wk_Status o |};
  toResource := RWorker;
  ofResource r := match r with RWorker o => Some o | _ => None end |}.

#[global] Instance Cluster_Object : Object Cluster := {|
  kindOf := KCluster;
  GetObjectMeta := cl_meta;
  SetObjectMeta m o := {| cl_meta := m; cl_Spec := cl_Spec o |};
  toResource := RCluster;
  ofResource r := match r with RCluster o => Some o | _ => None end |}.

#[global] Instance KubeadmConfigTemplate_Object : Object KubeadmConfigTemplate := {|
  kindOf := KKubeadmConfigTemplate;
  GetObjectMeta := kct_meta;
  SetObjectMeta m o := {| kct_meta := m; kct_Spec := kct_Spec o |};
  toResource := RKubeadmConfigTemplate;
  ofResource r := match r with RKubeadmConfigTemplate o => Some o | _ => None end |}.

#[global] Instance KubeadmControlPlane_Object : Object KubeadmControlPlane := {|
  kindOf := KKubeadmControlPlane;
  GetObjectMeta := kcp_meta;
  SetObjectMeta m o := {| kcp_meta := m; kcp_Spec := kcp_Spec o |};
  toResource := RKubeadmControlPlane;
  ofResource r := match r with RKubeadmControlPlane o => Some o | _ => None end |}.

#[global] Instance AzureMachineTemplate_Object : Object AzureMachineTemplate := {|
  kindOf := KAzureMachineTemplate;
  GetObjectMeta := amt_meta;
  SetObjectMeta m o := {| amt_meta := m; amt_Spec := amt_Spec o |};
  toResource := RAzureMachineTemplate;
  ofResource r := match r with RAzureMachineTemplate o => Some o | _ => None end |}.

#[global] Instance MachineDeployment_Object : Object MachineDeployment := {|
  kindOf := KMachineDeployment;
  GetObjectMeta := md_meta;
  SetObjectMeta m o := {| md_meta := m; md_Spec := md_Spec o |};
  toResource := RMachineDeployment;
  ofResource r := match r with RMachineDeployment o => Some o | _ => None end |}.

#[global] Instance AzureCluster_Object : Object AzureCluster := {|
  kindOf := KAzureCluster;
  GetObjectMeta := azc_meta;
  SetObjectMeta m o := {| azc_meta := m; azc_Spec := azc_Spec o |};
  toResource := RAzureCluster;
  ofResource r := match r with RAzureCluster o => Some o | _ => None end |}.

#[global] Instance Secret_Object : Object Secret := {|
  kindOf := KSecret;
  GetObjectMeta := sec_meta;
  SetObjectMeta m o :=
    {| sec_meta := m; sec_Data := sec_Data o;
       sec_StringData := sec_StringData o; sec_Type := sec_Type o |};
  toResource := RSecret;
  ofResource r := match r with RSecret o => Some o | _ => None end |}.

#[global] Instance Namespace_Object : Object Namespace_ := {|
  kindOf := KNamespace;
  GetObjectMeta := ns_meta;
  SetObjectMeta m o := {| ns_meta := m |};
  toResource := RNamespace;
  ofResource r := match r with RNamespace o => Some o | _ => None end |}.

(** [client.ObjectKeyFromObject], together with the kind of the object *)
Definition objectKey {T} `{Object T} (o : T) : Key :=
  (kindOf T, Namespace (GetObjectMeta o), Name (GetObjectMeta o)).

Definition resourceKey (r : Resource) : Key :=
  match r with
  | RWorker o => objectKey o
  | RCluster o => objectKey o
  | RKubeadmConfigTemplate o => objectKey o
  | RKubeadmControlPlane o => objectKey o
  | RAzureMachineTemplate o => objectKey o
  | RMachineDeployment o => objectKey o
  | RAzureCluster o => objectKey o
  | RSecret o => objectKey o
  | RNamespace o => objectKey o
  | RUnstructured o =>
    (KOther (un_APIVersion o) (un_Kind o), Namespace (un_meta o), Name (un_meta o))
  end.

(** [o.Namespace = ns] *)
Definition setNamespace {T} `{Object T} (ns : string) (o : T) : T :=
  SetObjectMeta (withNamespace ns (GetObjectMeta o)) o.

(** ** The two API servers and the client

    [Mgmt] is the management plane ([r.Client]), [Remote] the cluster the
    stack creates ([remoteClient]). A stored object is kept as it was sent.
    Every call is logged and takes the next entry of [script]: [Some msg]
    makes the call fail with [EApi msg] before it reaches the store.
    [manifests] holds what the URLs of manifests serve. *)

Inductive Plane := Mgmt | Remote.

#[global] Instance Plane_eq_dec : EqDecision Plane.
Proof. solve_decision. Defined.

Inductive Call :=
  | CGet (p : Plane) (k : Key)
  | CCreate (p : Plane) (o : Resource)
  | CUpdate (p : Plane) (o : Resource)
  | CStatusUpdate (o : Worker)
  | CNewClient (kubeconfig : list Byte.byte)
  | CApply (url : string).

#[global] Instance Call_eq_dec : EqDecision Call.
Proof. solve_decision. Defined.

Record World := {
  mgmt : gmap Key Resource;
  remote : gmap Key Resource;
  calls : list Call;
  script : list (option string);
  clock : Time;
  manifests : gmap string (list Resource);   (* what each URL serves *)
}.

Definition store (p : Plane) (w : World) : gmap Key Resource :=
  match p with Mgmt => mgmt w | Remote => remote w end.

Definition setStore (p : Plane) (s : gmap Key Resource) (w : World) : World :=
  match p with
  | Mgmt => {| mgmt := s; remote := remote w; calls := calls w;
               script := script w; clock := clock w;
               manifests := manifests w |}
  | Remote => {| mgmt := mgmt w; remote := s; calls := calls w;
                 script := script w; clock := clock w;
                 manifests := manifests w |}
  end.

(** A computation that reads and writes the world and may return an error. *)
Definition M (A : Type) : Type := World → (Error + A) * World.

#[global] Instance M_ret : MRet M := λ A a w, (inr a, w).

#[global] Instance M_bind : MBind M := λ A B f m w,
  match m w with
  | (inl e, w') => (inl e, w')
  | (inr a, w') => f a w'
  end.

Definition fail {A} (e : Error) : M A := λ w, (inl e, w).

(** [if err != nil { return fmt.Errorf("msg: %w", err) }] *)
Definition wrapErr {A} (msg : string) (m : M A) : M A := λ w,
  match m w with
  | (inl e, w') => (inl (EWrap msg e), w')
  | (inr a, w') => (inr a, w')
  end.

(** [if err != nil { return fmt.Errorf("msg") }] *)
Definition replaceErr {A} (msg : string) (m : M A) : M A := λ w,
  match m w with
  | (inl e, w') => (inl (EMsg msg), w')
  | (inr a, w') => (inr a, w')
  end.

(** The world after a call: the call is logged and one script entry used. *)
Definition logCall (c : Call) (w : World) : World :=
  {| mgmt := mgmt w; remote := remote w; calls := calls w ++ [c];
     script := tail (script w); clock := clock w; manifests := manifests w |}.

(** The fault the script holds for the next call, if any. *)
Definition nextFault (w : World) : option string :=
  match script w with
  | Some msg :: _ => Some msg
  | _ => None
  end.

Definition apiCall (c : Call) : M unit := λ w,
  match nextFault w with
  | Some msg => (inl (EApi msg), logCall c w)
  | None => (inr (), logCall c w)
  end.

Definition readStore (p : Plane) (k : Key) : M (option Resource) :=
  λ w, (inr (store p w !! k), w).

Definition writeStore (p : Plane) (k : Key) (r : Resource) : M unit :=
  λ w, (inr (), setStore p (<[k := r]> (store p w)) w).

Definition decodeError : Error :=
  EApi "object does not decode into the requested type".

(** [c.Get(ctx, key, obj)]: the stored object is returned, to be written
    into [obj] by the caller. *)
Definition client_Get (T : Type) `{Object T} (p : Plane) (ns name : string) : M T :=
  let k := (kindOf T, ns, name) in
  apiCall (CGet p k) ;;
  found ← readStore p k;
  match found with
  | None => fail (ENotFound k)
  | Some r =>
    match ofResource r with
    | Some o => mret o
    | None => fail decodeError
    end
  end.

(** [c.Create(ctx, obj)] *)
Definition client_Create {T} `{Object T} (p : Plane) (o : T) : M unit :=
  apiCall (CCreate p (toResource o)) ;;
  found ← readStore p (objectKey o);
  match found with
  | Some _ => fail (EAlreadyExists (objectKey o))
  | None => writeStore p (objectKey o) (toResource o)
  end.

(** [c.Update(ctx, obj)] *)
Definition client_Update {T} `{Object T} (p : Plane) (o : T) : M unit :=
  apiCall (CUpdate p (toResource o)) ;;
  found ← readStore p (objectKey o);
  match found with
  | None => fail (ENotFound (objectKey o))
  | Some _ => writeStore p (objectKey o) (toResource o)
  end.

(** [r.Status().Update(ctx, &worker)]: only the status of the stored Worker
    is replaced. *)
Definition Status_Update (worker : Worker) : M unit :=
  apiCall (CStatusUpdate worker) ;;
  found ← readStore Mgmt (objectKey worker);
  match found with
  | Some (RWorker old) =>
    writeStore Mgmt (objectKey worker)
      (RWorker {| wk_meta := wk_meta old; wk_Spec := wk_Spec old;
                  wk_Status := wk_Status worker |})
  | _ => fail (ENotFound (objectKey worker))
  end.

(** [apierrors.IsNotFound] and [client.IgnoreNotFound] *)
Definition IsNotFound (e : Error) : bool :=
  match e with ENotFound _ => true | _ => false end.

Definition IgnoreNotFound (e : Error) : option Error :=
  if IsNotFound e then None else Some e.

(** [metav1.Now()] *)
Definition metav1_Now : M Time := λ w, (inr (clock w), w).

Definition liftE {A} (r : Error + A) : M A := λ w, (r, w).

(** Run [m] and hand its error to the caller as a value ([err := ...]). *)
Definition try_ {A} (m : M A) : M (Error + A) := λ w,
  let '(r, w') := m w in (inr r, w').

(** ** Pointers and closures

    A stage holds two pointer variables, [template] and [want], to objects
    of one API type. [Mem] is that frame: the cells the pointers refer to
    and the current value of each variable ([p_template], [p_want]). The
    closure handed to [CreateOrUpdate] runs on the frame; [CreateOrUpdate]
    itself received the pointer [obj] by value when it was called. *)

Record Mem (T : Type) := {
  heap : list T;
  p_template : nat;
  p_want : nat;
}.
Arguments heap {T} _.
Arguments p_template {T} _.
Arguments p_want {T} _.

Definition MutateFn (T : Type) : Type := Mem T → Error + Mem T.

Definition nilDereference : Error :=
  EMsg "invalid memory address or nil pointer dereference".

(** [*p] *)
Definition load {T} (p : nat) (m : Mem T) : Error + T :=
  match heap m !! p with
  | Some o => inr o
  | None => inl nilDereference
  end.

(** [*p = o] *)
Definition storeAt {T} (p : nat) (o : T) (m : Mem T) : Mem T :=
  {| heap := <[p := o]> (heap m); p_template := p_template m; p_want := p_want m |}.

(** [template := t; want := template.DeepCopy()] *)
Definition newMem {T} (t : T) : Mem T :=
  {| heap := [t; t]; p_template := 0; p_want := 1 |}.

(** [func() error { template = want; return nil }] *)
Definition rebind {T} : MutateFn T := λ m,
  inr {| heap := heap m; p_template := p_want m; p_want := p_want m |}.

(** [func() error { return nil }] *)
Definition noMutation {T} : MutateFn T := λ m, inr m.

(** [func() error { *template = *want; return nil }]: a closure that writes
    through the pointer. No stage uses it; it is here for comparison. *)
Definition writeThrough {T} : MutateFn T := λ m,
  match load (p_want m) m with
  | inl e => inl e
  | inr o => inr (storeAt (p_template m) o m)
  end.

(** ** controllerutil.CreateOrUpdate

    The function of controller-runtime, the convergence primitive of every
    stage. It reads the key of [*obj], gets the stored object into [*obj],
    runs the closure and then creates [*obj] (nothing was stored) or, when
    [*obj] differs from what the [Get] returned, updates it. It never
    sees the caller's variables: what it creates or updates is the cell it
    was given. *)

Inductive OperationResult :=
  | OperationResultNone
  | OperationResultCreated
  | OperationResultUpdated.

Definition mutate {T} `{Object T} (f : MutateFn T) (key : Key) (obj : nat)
    (m : Mem T) : Error + Mem T :=
  match f m with
  | inl e => inl e
  | inr m' =>
    match load obj m' with
    | inl e => inl e
    | inr o =>
      if decide (objectKey o = key) then inr m'
      else inl (EMsg "MutateFn cannot mutate object name and/or object namespace")
    end
  end.

Definition CreateOrUpdate {T} `{Object T} (c : Plane) (obj : nat)
    (f : MutateFn T) (m : Mem T) : M (OperationResult * Mem T) :=
  o ← liftE (load obj m);
  let key := objectKey o in
  got ← try_ (client_Get T c (Namespace (GetObjectMeta o)) (Name (GetObjectMeta o)));
  match got with
  | inl err =>
    if IsNotFound err then
      m1 ← liftE (mutate f key obj m);
      o1 ← liftE (load obj m1);
      client_Create c o1 ;;
      mret (OperationResultCreated, m1)
    else fail err
  | inr live =>
    (* Get has decoded the stored object into *obj *)
    let m1 := storeAt obj live m in
    let existing := live in
    m2 ← liftE (mutate f key obj m1);
    o2 ← liftE (load obj m2);
    if decide (existing = o2) then mret (OperationResultNone, m2)
    else
      client_Update c o2 ;;
      mret (OperationResultUpdated, m2)
  end.

(** ** controllerutil.SetControllerReference *)

Record GroupVersionKind := {
  gvk_Group : string;
  gvk_Version : string;
  gvk_Kind : string;
}.

(** The kinds registered in a [runtime.Scheme]. *)
Definition Scheme : Type := gmap Kind GroupVersionKind.

(** [gvk.GroupVersion().String()] *)
Definition GroupVersion_String (g : GroupVersionKind) : string :=
  if decide (gvk_Group g = "") then gvk_Version g
  else gvk_Group g +:+ "/" +:+ gvk_Version g.

Fixpoint splitSlash (acc s : string) : list string :=
  match s with
  | EmptyString => [acc]
  | String c rest =>
    if decide (c = "/"%char) then acc :: splitSlash "" rest
    else splitSlash (acc +:+ String c EmptyString) rest
  end.

(** The group of [schema.ParseGroupVersion], [None] when it fails. *)
Definition parseGroup (gv : string) : option string :=
  if decide (gv = "") then Some ""
  else if decide (gv = "/") then Some ""
  else match splitSlash "" gv with
       | [_] => Some ""
       | [g; _] => Some g
       | _ => None
       end.

Definition referSameObject (a b : OwnerReference) : bool :=
  match parseGroup (owner_APIVersion a), parseGroup (owner_APIVersion b) with
  | Some ga, Some gb =>
    bool_decide (ga = gb) && bool_decide (owner_Kind a = owner_Kind b)
    && bool_decide (owner_Name a = owner_Name b)
  | _, _ => false
  end.

(** The loop over the existing references: the index of a reference to the
    same owner, or an error when another controller owns the object. *)
Fixpoint findOwner (ref : OwnerReference) (refs : list OwnerReference)
    (i : nat) (fi : option nat) : Error + option nat :=
  match refs with
  | [] => inr fi
  | r :: rest =>
    if referSameObject ref r then findOwner ref rest (S i) (Some i)
    else match owner_Controller r with
         | Some true => inl (EMsg "Object is already owned by another controller")
         | _ => findOwner ref rest (S i) fi
         end
  end.

Definition SetControllerReference {O T} `{Object O} `{Object T}
    (owner : O) (object : T) (scheme : Scheme) : Error + T :=
  match scheme !! kindOf O with
  | None => inl (EMsg "no kind is registered for the type of the owner")
  | Some gvk =>
    let ref := {| owner_APIVersion := GroupVersion_String gvk;
                  owner_Kind := gvk_Kind gvk;
                  owner_Name := Name (GetObjectMeta owner);
                  owner_UID := UID (GetObjectMeta owner);
                  owner_Controller := Some true;
                  owner_BlockOwnerDeletion := Some true |} in
    let existingRefs := OwnerReferences (GetObjectMeta object) in
    match findOwner ref existingRefs 0 None with
    | inl e => inl e
    | inr fi =>
      let refs := match fi with
                  | None => existingRefs ++ [ref]
                  | Some i => <[i := ref]> existingRefs
                  end in
      inr (SetObjectMeta (withOwnerReferences refs (GetObjectMeta object)) object)
    end
  end.

(** ** github.com/juan-lee/carp/internal/remote *)

(** Modelled from the spec: [remote.NewClient], of the package
    internal/remote, whose source is missing. "Construct a client bound to
    the remote API using that payload": a fallible call that yields the
    remote plane. *)
Definition remote_NewClient (data : list Byte.byte) : M Plane :=
  apiCall (CNewClient data) ;; mret Remote.

(** The objects the URL serves: none when it serves nothing. *)
Definition manifestAt (w : World) (url : string) : list Resource :=
  default [] (manifests w !! url).

(** The objects of a manifest, stored one after the other, each under its
    own key and as the manifest gives it. *)
Definition applyObjects (objs : list Resource) (s : gmap Key Resource)
  : gmap Key Resource :=
  foldl (λ s0 o, <[resourceKey o := o]> s0) s objs.

Definition applyManifest (c : Plane) (url : string) : M unit := λ w,
  (inr (), setStore c (applyObjects (manifestAt w url) (store c w)) w).

(** Modelled from the spec: [Client.Apply], of the same package.
    "Apply a fixed network-plugin manifest, fetched by URL, against the
    remote cluster"; the manifest is "applied verbatim against the remote
    API" and the pass leaves "applied manifest objects inside the remote
    cluster". A fallible call; when it succeeds, every object of the
    manifest is stored in the cluster of the client as the manifest gives
    it, whether or not an object was stored under its key. *)
Definition remote_Apply (c : Plane) (url : string) : M unit :=
  apiCall (CApply url) ;; applyManifest c url.

(** ** The Worker controller *)

Record WorkerReconciler := {
  AzureSettings : gmap string string;
  r_Scheme : Scheme;
}.

(** [secret.KubeconfigDataName] of cluster-api *)
Definition KubeconfigDataName : string := "value".

Definition calicoURL : string :=
  "https://raw.githubusercontent.com/juan-lee/cluster-api-provider-azure/hackathon/templates/addons/calico.yaml".

Definition reconcileKubeadmControlPlane (r : WorkerReconciler) (worker : Worker)
  : M unit :=
  template ← wrapErr "failed to get azure settings"
    (liftE (getKubeadmControlPlane (Name (wk_meta worker))
              (ws_Location (wk_Spec worker)) (AzureSettings r)));
  let template := setNamespace (Namespace (wk_meta worker)) template in
  let m := newMem template in
  wrapErr "failed to create/update kubeadm control plane"
    (CreateOrUpdate Mgmt (p_template m) rebind m) ;;
  mret ().

Definition reconcileKubeadmConfigTemplate (r : WorkerReconciler) (worker : Worker)
  : M unit :=
  template ← wrapErr "failed to get azure settings"
    (liftE (getKubeadmConfigTemplate (Name (wk_meta worker))
              (ws_Location (wk_Spec worker)) (AzureSettings r)));
  let template := setNamespace (Namespace (wk_meta worker)) template in
  let m := newMem template in
  wrapErr "failed to create/update kubeadm config template"
    (CreateOrUpdate Mgmt (p_template m) rebind m) ;;
  mret ().

Definition reconcileMachineTemplate (r : WorkerReconciler) (worker : Worker)
  : M unit :=
  let template := getMachineTemplate (Name (wk_meta worker))
                    (ws_Location (wk_Spec worker)) in
  let template := setNamespace (Namespace (wk_meta worker)) template in
  let m := newMem template in
  wrapErr "failed to create/update machine template"
    (CreateOrUpdate Mgmt (p_template m) rebind m) ;;
  mret ().

Definition reconcileMachineDeployment (r : WorkerReconciler) (worker : Worker)
  : M unit :=
  let template := getMachineDeployment worker in
  let template := setNamespace (Namespace (wk_meta worker)) template in
  let m := newMem template in
  wrapErr "failed to create/update machine deployment"
    (CreateOrUpdate Mgmt (p_template m) rebind m) ;;
  mret ().

Definition reconcileCluster (r : WorkerReconciler) (worker : Worker) : M unit :=
  let template := getCluster (Name (wk_meta worker))
                    (ws_Location (wk_Spec worker)) (AzureSettings r) in
  let template := setNamespace (Namespace (wk_meta worker)) template in
  let m := newMem template in
  wrapErr "failed to create/update cluster"
    (CreateOrUpdate Mgmt (p_template m) rebind m) ;;
  mret ().

(** The closure of [reconcileAzureCluster]: the controller reference is set
    on [*want], then [template] is rebound to [want]. *)
Definition bindOwner (r : WorkerReconciler) (worker : Worker)
  : MutateFn AzureCluster := λ m,
  match load (p_want m) m with
  | inl e => inl e
  | inr o =>
    match SetControllerReference worker o (r_Scheme r) with
    | inl e => inl e
    | inr o' => rebind (storeAt (p_want m) o' m)
    end
  end.

Definition reconcileAzureCluster (r : WorkerReconciler) (worker : Worker)
  : M unit :=
  let template := getAzureCluster (Name (wk_meta worker))
                    (ws_Location (wk_Spec worker)) in
  let template := setNamespace (Namespace (wk_meta worker)) template in
  let m := newMem template in
  wrapErr "failed to create/update azure cluster"
    (CreateOrUpdate Mgmt (p_template m) (bindOwner r worker) m) ;;
  mret ().

Definition azureKey_Name : string := "capz-manager-bootstrap-credentials".
Definition azureKey_Namespace : string := "capz-system".

(** The [remoteSecret] literal of [reconcileExternal]. *)
Definition newRemoteSecret (azureSecret : Secret) : Secret :=
  {| sec_meta := withNamespace azureKey_Namespace (metaNamed azureKey_Name);
     sec_Data := sec_Data azureSecret;
     sec_StringData := ∅;
     sec_Type := "" |}.

Definition reconcileExternal (r : WorkerReconciler) (worker : Worker) : M unit :=
  azureSecret ← wrapErr "failed to get azure manager secret to apply to cluster"
    (client_Get Secret Mgmt azureKey_Namespace azureKey_Name);
  kubeconfigSecret ← wrapErr "failed to get remote kubeconfig to apply to cluster"
    (client_Get Secret Mgmt (Namespace (wk_meta worker))
       (Sprintf_s (Name (wk_meta worker)) "-kubeconfig"));
  match sec_Data kubeconfigSecret !! KubeconfigDataName with
  | None =>
    fail (EMsg ("missing key " +:+ dq +:+ KubeconfigDataName +:+ dq
                +:+ " in secret data"))
  | Some data =>
    remoteClient ← wrapErr
      ("failed to create REST configuration for worker "
       +:+ Namespace (wk_meta worker) +:+ "/" +:+ Name (wk_meta worker) +:+ " ")
      (remote_NewClient data);
    let remoteNamespace := {| ns_meta := metaNamed azureKey_Namespace |} in
    replaceErr "failed to create remote azure manager namespace"
      (CreateOrUpdate remoteClient 0 noMutation
         {| heap := [remoteNamespace]; p_template := 0; p_want := 0 |}) ;;
    let m := newMem (newRemoteSecret azureSecret) in
    replaceErr "failed to create remote azure manager secret"
      (CreateOrUpdate remoteClient (p_template m) rebind m) ;;
    wrapErr "failed to apply calico config" (remote_Apply remoteClient calicoURL)
  end.

Definition reconcilers (r : WorkerReconciler) : list (Worker → M unit) :=
  [ reconcileCluster r;
    reconcileKubeadmConfigTemplate r;
    reconcileKubeadmControlPlane r;
    reconcileMachineTemplate r;
    reconcileMachineDeployment r;
    reconcileAzureCluster r;
    reconcileExternal r ].

(** The [for] loop of [Reconcile]: the first error ends it. *)
Fixpoint runReconcilers (fs : list (Worker → M unit)) (worker : Worker) : M unit :=
  match fs with
  | [] => mret ()
  | reconcileFn :: rest =>
    wrapErr "failed to execute reconcile function" (reconcileFn worker) ;;
    runReconcilers rest worker
  end.

Record Result := { Requeue : bool; RequeueAfter : Z }.

(** [ctrl.Result{}] *)
Definition emptyResult : Result := {| Requeue := false; RequeueAfter := 0 |}.

Record Request := { req_Namespace : string; req_Name : string }.

Definition setPhase (phase : string) (worker : Worker) : Worker :=
  {| wk_meta := wk_meta worker; wk_Spec := wk_Spec worker;
     wk_Status := {| st_Phase := phase;
                     st_AvailableCapacity := st_AvailableCapacity (wk_Status worker);
                     st_LastScheduledTime := st_LastScheduledTime (wk_Status worker) |} |}.

(** [if worker.Status.AvailableCapacity == nil { ... }] *)
Definition initCapacity (now : Time) (worker : Worker) : Worker :=
  match st_AvailableCapacity (wk_Status worker) with
  | None =>
    {| wk_meta := wk_meta worker; wk_Spec := wk_Spec worker;
       wk_Status := {| st_Phase := st_Phase (wk_Status worker);
                       st_AvailableCapacity := Some (ws_Capacity (wk_Spec worker));
                       st_LastScheduledTime := now |} |}
  | Some _ => worker
  end.

(** The deferred function of [Reconcile], run with the final values of
    [worker] and of the named result [reterr]; it yields the new [reterr]. *)
Definition deferredStatusUpdate (worker : Worker) (reterr : option Error)
  : World → option Error * World := λ w,
  match Status_Update worker w with
  | (inl err, w') =>
    (match reterr with None => Some err | Some _ => reterr end, w')
  | (inr _, w') => (reterr, w')
  end.

Definition Reconcile (r : WorkerReconciler) (req : Request)
  : World → (Result * option Error) * World := λ w,
  match client_Get Worker Mgmt (req_Namespace req) (req_Name req) w with
  | (inl err, w1) => ((emptyResult, IgnoreNotFound err), w1)
  | (inr worker, w1) =>
    match runReconcilers (reconcilers r) worker w1 with
    | (inl err, w2) =>
      (* returned from inside the loop; no defer statement was reached *)
      ((emptyResult, Some err), w2)
    | (inr _, w2) =>
      let worker := setPhase WorkerPending worker in
      (* defer func() { ... }() *)
      let worker := initCapacity (clock w2) worker in
      let worker := setPhase WorkerRunning worker in
      (* return ctrl.Result{}, nil *)
      let '(reterr, w3) := deferredStatusUpdate worker None w2 in
      ((emptyResult, reterr), w3)
    end
  end.

(** ** Observing a pass through the call log *)

(** The calls made between [w] and a later world [w']. *)
Definition newCalls (w w' : World) : list Call :=
  drop (length (calls w)) (calls w').

(** Each call belongs to one step of a pass: 0 is the fetch of the Worker,
    1 to 6 are the six management-plane stages in the order of
    [reconcilers], 7 is the remote bootstrap phase [reconcileExternal] and
    8 the update of the Worker's status. *)
Definition kindStage (k : Kind) : nat :=
  match k with
  | KWorker => 0
  | KCluster => 1
  | KKubeadmConfigTemplate => 2
  | KKubeadmControlPlane => 3
  | KAzureMachineTemplate => 4
  | KMachineDeployment => 5
  | KAzureCluster => 6
  | KSecret | KNamespace | KOther _ _ => 7
  end.

Definition callStage (c : Call) : nat :=
  match c with
  | CGet Mgmt k => kindStage (fst (fst k))
  | CCreate Mgmt o | CUpdate Mgmt o => kindStage (fst (fst (resourceKey o)))
  | CGet Remote _ | CCreate Remote _ | CUpdate Remote _ => 7
  | CNewClient _ | CApply _ => 7
  | CStatusUpdate _ => 8
  end.

(** Runs of equal neighbours collapsed to one element. *)
Fixpoint compress (l : list nat) : list nat :=
  match l with
  | [] => []
  | x :: l' =>
    match l' with
    | [] => [x]
    | y :: _ => if decide (x = y) then compress l' else x :: compress l'
    end
  end.

(** The steps of a pass in the order in which they made their calls. *)
Definition stagesOf (l : list Call) : list nat := compress (map callStage l).

Definition isStatusUpdate (c : Call) : bool :=
  match c with CStatusUpdate _ => true | _ => false end.

Definition isUpdate (c : Call) : bool :=
  match c with CUpdate _ _ => true | _ => false end.

Definition stageFailure (e : Error) : Error :=
  EWrap "failed to execute reconcile function" e.

(** The key under which [Reconcile] fetches the Worker. *)
Definition requestKey (req : Request) : Key :=
  (KWorker, req_Namespace req, req_Name req).

(** Frames with the variables and the number of cells of [m]. *)
Definition sameShape {T} (m m0 : Mem T) : Prop :=
  p_template m0 = p_template m ∧ p_want m0 = p_want m
  ∧ length (heap m0) = length (heap m).

(** The closure [f] never writes the cell [obj]. *)
Definition keepsCell {T} (obj : nat) (m : Mem T) (f : MutateFn T) : Prop :=
  ∀ m0 m1, sameShape m m0 → f m0 = inr m1 → heap m1 !! obj = heap m0 !! obj.

(** What a [CreateOrUpdate] can do to the world when its closure leaves
    [*obj] alone: look the object up and stop, or look it up, find nothing
    and try to create [o]. *)
Inductive Ensured (c : Plane) (k : Key) (o : Resource) (w : World) : World → Prop :=
  | Ensured_get :
      Ensured c k o w (logCall (CGet c k) w)
  | Ensured_create_failed :
      store c w !! k = None →
      Ensured c k o w (logCall (CCreate c o) (logCall (CGet c k) w))
  | Ensured_created :
      store c w !! k = None →
      Ensured c k o w
        (setStore c (<[k := o]> (store c w))
           (logCall (CCreate c o) (logCall (CGet c k) w))).

(** The effect of step [k] of a pass: it makes at least one call, all its
    calls are its own and none is an update, and it changes neither the
    clock nor any Worker. *)
Definition ownCall (k : nat) (c : Call) : Prop :=
  callStage c = k ∧ isUpdate c = false.

Definition StageEffect (k : nat) (w w' : World) : Prop :=
  ∃ l, calls w' = calls w ++ l ∧ l ≠ [] ∧ Forall (ownCall k) l
       ∧ clock w' = clock w
       ∧ ∀ ns name, mgmt w' !! (KWorker, ns, name) = mgmt w !! (KWorker, ns, name).

Definition stageOK (k : nat) (f : Worker → M unit) : Prop :=
  ∀ worker w, StageEffect k w (snd (f worker w)).

(** The calls of the remote bootstrap phase started in world [w]: they
    belong to step 7, none is an update, and a secret is only ever created
    in the remote cluster, as [newRemoteSecret] of the stored credential
    secret. *)
Definition externalCall (w : World) (c : Call) : Prop :=
  callStage c = 7 ∧ isUpdate c = false
  ∧ ∀ p s, c = CCreate p (RSecret s) →
      p = Remote
      ∧ ∃ azureSecret,
          mgmt w !! (KSecret, azureKey_Namespace, azureKey_Name)
            = Some (RSecret azureSecret)
          ∧ s = newRemoteSecret azureSecret.

(** The number of status updates among the calls made between [w] and [w']. *)
Definition statusUpdates (w w' : World) : nat :=
  length (List.filter isStatusUpdate (newCalls w w')).

(** The Worker as [Reconcile] hands it to the status update after the
    stages: phase Pending, capacity initialised at time [now], phase
    Running. *)
Definition reconciledWorker (now : Time) (worker : Worker) : Worker :=
  setPhase WorkerRunning (initCapacity now (setPhase WorkerPending worker)).

(** The world after the stages [fs] have run one after the other, each in
    the world the one before it left. *)
Definition worldAfter (fs : list (Worker → M unit)) (worker : Worker) (w : World)
  : World :=
  foldl (λ w0 f, snd (f worker w0)) w fs.

(** What stage [i] of [fs] returns when it runs after the stages before it. *)
Definition stageResult (fs : list (Worker → M unit)) (worker : Worker) (w : World)
    (i : nat) : option (Error + unit) :=
  match fs !! i with
  | Some f => Some (fst (f worker (worldAfter (take i fs) worker w)))
  | None => None
  end.

(** Stage [k] is the first to return an error, [e]. *)
Definition failsFirst (fs : list (Worker → M unit)) (worker : Worker) (w : World)
    (k : nat) (e : Error) : Prop :=
  stageResult fs worker w k = Some (inl e)
  ∧ ∀ i, (i < k)%nat → stageResult fs worker w i = Some (inr ()).

(** Every stage returns nil. *)
Definition allSucceed (fs : list (Worker → M unit)) (worker : Worker) (w : World)
  : Prop :=
  ∀ i, (i < length fs)%nat → stageResult fs worker w i = Some (inr ()).

(** ** A sample Worker and sample worlds *)

Definition exampleReconciler : WorkerReconciler :=
  {| AzureSettings :=
       <[auth_EnvironmentName := "AzurePublicCloud"]>
         (<[auth_TenantID := "tenant-1"]> (<[auth_ClientSecret := "s3cr3t"]> ∅));
     r_Scheme :=
       {[ KWorker := {| gvk_Group := "infrastructure.cluster.x-k8s.io";
                        gvk_Version := "v1alpha1";
                        gvk_Kind := "Worker" |} ]} |}.

(** A Worker that has never been reconciled. *)
Definition alpha : Worker :=
  {| wk_meta := {| Name := "alpha"; Namespace := "default"; UID := "uid-1";
                   ResourceVersion := "7"; Labels := ∅; Annotations := ∅;
                   OwnerReferences := [] |};
     wk_Spec := {| ws_Location := "westus2"; ws_Replicas := 3%Z;
                   ws_Capacity := 10%Z; ws_Version := "v1.18.2" |};
     wk_Status := {| st_Phase := ""; st_AvailableCapacity := None;
                     st_LastScheduledTime := 0%Z |} |}.

Definition alphaRequest : Request :=
  {| req_Namespace := "default"; req_Name := "alpha" |}.

Definition credentials : Secret :=
  {| sec_meta := {| Name := azureKey_Name; Namespace := azureKey_Namespace;
                    UID := "uid-2"; ResourceVersion := "3";
                    Labels := {[ "app" := "capz" ]};
                    Annotations := {[ "note" := "operator" ]};
                    OwnerReferences := [] |};
     sec_Data := {[ "client-secret" := [Byte.x73; Byte.x33] ]};
     sec_StringData := ∅;
     sec_Type := "Opaque" |}.

Definition alphaKubeconfig : Secret :=
  {| sec_meta := withNamespace "default" (metaNamed "alpha-kubeconfig");
     sec_Data := {[ KubeconfigDataName := [Byte.x6b; Byte.x38; Byte.x73] ]};
     sec_StringData := ∅;
     sec_Type := "" |}.

(** A manifest of two objects, as the URL of the network plugin serves it. *)
Definition calicoManifest : list Resource :=
  [ RUnstructured
      {| un_APIVersion := "v1"; un_Kind := "ConfigMap";
         un_meta := withNamespace "kube-system" (metaNamed "calico-config");
         un_content := "data: {typha_service_name: none}" |};
    RUnstructured
      {| un_APIVersion := "apps/v1"; un_Kind := "DaemonSet";
         un_meta := withNamespace "kube-system" (metaNamed "calico-node");
         un_content := "spec: {selector: {matchLabels: {k8s-app: calico-node}}}" |} ].

(** The Worker and the two secrets exist, none of the six objects does, the
    remote cluster is empty and no call fails. *)
Definition freshWorld : World :=
  {| mgmt := <[objectKey alpha := RWorker alpha]>
               (<[objectKey credentials := RSecret credentials]>
                  (<[objectKey alphaKubeconfig := RSecret alphaKubeconfig]> ∅));
     remote := ∅;
     calls := [];
     script := [];
     clock := 1000%Z;
     manifests := {[ calicoURL := calicoManifest ]} |}.

(** The fetch of the Worker succeeds, the next call (the [Get] of the first
    stage) fails. *)
Definition faultyWorld : World :=
  {| mgmt := mgmt freshWorld; remote := ∅; calls := [];
     script := [None; Some "connection refused"]; clock := 1000%Z;
     manifests := manifests freshWorld |}.

(** A live Cluster object whose spec someone has emptied. *)
Definition driftedCluster : Cluster :=
  {| cl_meta := {| Name := "alpha"; Namespace := "default"; UID := "uid-9";
                   ResourceVersion := "12"; Labels := ∅; Annotations := ∅;
                   OwnerReferences := [] |};
     cl_Spec := {| cl_ClusterNetwork := None; cl_ControlPlaneRef := None;
                   cl_InfrastructureRef := None |} |}.

Definition driftedWorld : World :=
  {| mgmt := <[objectKey driftedCluster := RCluster driftedCluster]> (mgmt freshWorld);
     remote := ∅; calls := []; script := []; clock := 1000%Z;
     manifests := manifests freshWorld |}.

(** A world without any Worker. *)
Definition emptyWorld : World :=
  {| mgmt := ∅; remote := ∅; calls := []; script := []; clock := 1000%Z;
     manifests := ∅ |}.

(** ** What a pass may write *)

Definition isCreate (c : Call) : bool :=
  match c with CCreate _ _ => true | _ => false end.

(** Whether a call returned without an error. *)
Definition succeeded {A} (res : Error + A) : bool :=
  match res with inr _ => true | inl _ => false end.

(** The keys [reconcileExternal] works with. *)
Definition credentialKey : Key := (KSecret, azureKey_Namespace, azureKey_Name).

Definition kubeconfigKey (worker : Worker) : Key :=
  (KSecret, Namespace (wk_meta worker), Sprintf_s (Name (wk_meta worker)) "-kubeconfig").

(** The [remoteNamespace] literal of [reconcileExternal]. *)
Definition remoteNamespace : Namespace_ := {| ns_meta := metaNamed azureKey_Namespace |}.

Definition remoteNamespaceKey : Key := (KNamespace, "", azureKey_Namespace).

(** The object a stage hands to [CreateOrUpdate]: what its builder returns,
    with the namespace of the worker. *)
Definition desiredOf {T} `{Object T} (ns : string) (built : Error + T) : list Resource :=
  match built with
  | inr t => [toResource (setNamespace ns t)]
  | inl _ => []
  end.

(** The objects of the six management-plane stages, in the order of
    [reconcilers]. *)
Definition desired (r : WorkerReconciler) (worker : Worker) : list Resource :=
  let name := Name (wk_meta worker) in
  let ns := Namespace (wk_meta worker) in
  let location := ws_Location (wk_Spec worker) in
  desiredOf ns (inr (getCluster name location (AzureSettings r)))
  ++ desiredOf ns (getKubeadmConfigTemplate name location (AzureSettings r))
  ++ desiredOf ns (getKubeadmControlPlane name location (AzureSettings r))
  ++ desiredOf ns (inr (getMachineTemplate name location))
  ++ desiredOf ns (inr (getMachineDeployment worker))
  ++ desiredOf ns (inr (getAzureCluster name location)).

(** What a [CreateOrUpdate] whose closure leaves [*obj] alone does, with
    its result: it fails after the [Get], finds the object, fails to create
    it, or creates it. *)
Inductive Outcome (c : Plane) (k : Key) (o : Resource) (w : World)
  : bool → World → Prop :=
  | Outcome_failed :
      Outcome c k o w false (logCall (CGet c k) w)
  | Outcome_found live :
      store c w !! k = Some live →
      Outcome c k o w true (logCall (CGet c k) w)
  | Outcome_create_failed :
      store c w !! k = None →
      Outcome c k o w false (logCall (CCreate c o) (logCall (CGet c k) w))
  | Outcome_created :
      store c w !! k = None →
      Outcome c k o w true
        (setStore c (<[k := o]> (store c w))
           (logCall (CCreate c o) (logCall (CGet c k) w))).

(** All the objects a pass for [worker] ensures exist. *)
Definition converged (r : WorkerReconciler) (worker : Worker) (w : World) : Prop :=
  Forall (λ o, is_Some (mgmt w !! resourceKey o)) (desired r worker)
  ∧ is_Some (remote w !! remoteNamespaceKey)
  ∧ is_Some (remote w !! credentialKey).

#[global] Instance converged_dec r worker w : Decision (converged r worker w).
Proof. unfold converged. apply _. Defined.

(** The manifest of the network plugin is stored in the remote cluster:
    applying it once more changes nothing. *)
Definition applied (w : World) : Prop :=
  applyObjects (manifestAt w calicoURL) (remote w) = remote w.

#[global] Instance applied_dec w : Decision (applied w).
Proof. unfold applied. apply _. Defined.

(** Nothing is left to do for [worker]. *)
Definition settled (r : WorkerReconciler) (worker : Worker) (w : World) : Prop :=
  converged r worker w ∧ applied w.

#[global] Instance settled_dec r worker w : Decision (settled r worker w).
Proof. unfold settled. apply _. Defined.

(** A Worker entry keeps its metadata and its spec; any other entry under a
    Worker key is left as it is. *)
Definition workerKept (before after : option Resource) : Prop :=
  match before with
  | Some (RWorker a) =>
    ∃ b, after = Some (RWorker b) ∧ wk_meta b = wk_meta a ∧ wk_Spec b = wk_Spec a
  | _ => after = before
  end.

(** How a key of the remote store fares in the steps of a pass: its entry
    is left as it is, or there was none and it is now the namespace or the
    copy of the stored credential secret, or it is now an object of the
    manifest with that key. *)
Definition remoteFate (wa wb : World) (k : Key) : Prop :=
  remote wb !! k = remote wa !! k
  ∨ (remote wa !! k = None
     ∧ ((k = remoteNamespaceKey
         ∧ remote wb !! k = Some (RNamespace remoteNamespace))
        ∨ (k = credentialKey
           ∧ ∃ a, mgmt wa !! credentialKey = Some (RSecret a)
                  ∧ remote wb !! k = Some (RSecret (newRemoteSecret a)))))
  ∨ (∃ o, o ∈ manifestAt wa calicoURL ∧ resourceKey o = k
          ∧ remote wb !! k = Some o).

(** How the steps of a pass for [worker] relate the world before to the
    world after. Outside the Worker keys the management store only gains
    objects of [desired], each under its own key. The remote store changes
    as [remoteFate] says. When nothing is left to do, the stores stay as
    they are (Workers apart) and no create or update is sent. The
    manifests are never written. *)
Definition Related (r : WorkerReconciler) (worker : Worker) (wa wb : World) : Prop :=
  (∀ k, fst (fst k) ≠ KWorker →
        mgmt wb !! k = mgmt wa !! k
        ∨ (mgmt wa !! k = None
           ∧ ∃ o, o ∈ desired r worker ∧ k = resourceKey o ∧ mgmt wb !! k = Some o))
  ∧ (∀ k, fst (fst k) = KWorker → workerKept (mgmt wa !! k) (mgmt wb !! k))
  ∧ (∀ k, remoteFate wa wb k)
  ∧ (settled r worker wa →
     remote wb = remote wa
     ∧ (∀ k, fst (fst k) ≠ KWorker → mgmt wb !! k = mgmt wa !! k)
     ∧ ∃ l, calls wb = calls wa ++ l
            ∧ Forall (λ c, isCreate c = false ∧ isUpdate c = false) l)
  ∧ manifests wb = manifests wa.

(** What the remote bootstrap phase, started in [w], has done when it
    returns [res] in the world [w']. *)
Definition PhaseSummary (worker : Worker) (w : World) (res : Error + unit)
    (w' : World) : Prop :=
  ∃ l,
    calls w' = calls w ++ l
    ∧ mgmt w' = mgmt w
    ∧ manifests w' = manifests w
    ∧ (∀ k, remoteFate w w' k)
    ∧ (is_Some (remote w !! remoteNamespaceKey) →
       is_Some (remote w !! credentialKey) →
       applied w →
       remote w' = remote w
       ∧ Forall (λ c, isCreate c = false ∧ isUpdate c = false) l)
    ∧ Forall (λ c, ∀ data, c = CNewClient data →
                ∃ ks, mgmt w !! kubeconfigKey worker = Some (RSecret ks)
                      ∧ sec_Data ks !! KubeconfigDataName = Some data) l
    ∧ (succeeded res = true →
       is_Some (remote w' !! remoteNamespaceKey)
       ∧ is_Some (remote w' !! credentialKey)
       ∧ applied w'
       ∧ ∃ a ks, mgmt w !! credentialKey = Some (RSecret a)
                 ∧ mgmt w !! kubeconfigKey worker = Some (RSecret ks)
                 ∧ is_Some (sec_Data ks !! KubeconfigDataName))
    ∧ (Forall (λ c, ∀ s, c ≠ CCreate Remote (RSecret s)) l
       ∨ is_Some (remote w' !! remoteNamespaceKey)).

(** The struct literal of [getCloudProviderConfig], before it is marshalled. *)
Definition cloudProviderConfig (cluster location : string)
    (settings : gmap string string) : CloudProviderConfig :=
  {| Cloud := mapIndex settings auth_EnvironmentName;
     TenantID := mapIndex settings auth_TenantID;
     SubscriptionID := mapIndex settings auth_SubscriptionID;
     AadClientID := mapIndex settings auth_ClientID;
     AadClientSecret := mapIndex settings auth_ClientSecret;
     ResourceGroup := cluster;
     SecurityGroupName := Sprintf_s cluster "-node-nsg";
     Location := location;
     VMType := "standard";
     VnetName := Sprintf_s cluster "-vnet";
     VnetResourceGroup := cluster;
     SubnetName := Sprintf_s cluster "-node-subnet";
     RouteTableName := Sprintf_s cluster "-node-routetable";
     LoadBalancerSku := "standard";
     MaximumLoadBalancerRuleCount := 250%Z;
     UseManagedIdentityExtension := false;
     UseInstanceMetadata := true |}.

(** No call of the rest of the run meets a fault. *)
Definition noFaults (w : World) : Prop := Forall (λ x, x = None) (script w).

(** Every object is stored under the key its own kind and metadata give,
    as an API server keeps it. *)
Definition wellKeyed (s : gmap Key Resource) : Prop :=
  map_Forall (λ k o, resourceKey o = k) s.

(** An older copy of the credentials and an older ConfigMap of the network
    plugin, as an earlier installation may have left them in the remote
    cluster. *)
Definition staleSecret : Secret :=
  {| sec_meta := withNamespace azureKey_Namespace (metaNamed azureKey_Name);
     sec_Data := {[ "client-secret" := [Byte.x6f; Byte.x6c; Byte.x64] ]};
     sec_StringData := ∅;
     sec_Type := "" |}.

Definition staleConfig : Unstructured :=
  {| un_APIVersion := "v1"; un_Kind := "ConfigMap";
     un_meta := withNamespace "kube-system" (metaNamed "calico-config");
     un_content := "data: {typha_service_name: calico-typha}" |}.

Definition staleWorld : World :=
  {| mgmt := mgmt freshWorld;
     remote := <[credentialKey := RSecret staleSecret]>
                 (<[resourceKey (RUnstructured staleConfig)
                    := RUnstructured staleConfig]> ∅);
     calls := []; script := []; clock := 1000%Z;
     manifests := manifests freshWorld |}.

(** The world of [freshWorld] before cluster-api has written the
    kubeconfig secret of the new cluster. *)
Definition waitingWorld : World :=
  {| mgmt := delete (objectKey alphaKubeconfig) (mgmt freshWorld);
     remote := ∅; calls := []; script := []; clock := 1000%Z;
     manifests := manifests freshWorld |}.

(** The world a first pass over [freshWorld] leaves. *)
Definition settledWorld : World :=
  snd (Reconcile exampleReconciler alphaRequest freshWorld).

(** ** The kubeconfig of the new cluster *)

(** A call of a pass for [worker] started in [w]: it is no status update,
    and a remote client is only ever built from the bytes stored under
    [KubeconfigDataName] in the kubeconfig secret of the worker. *)
Definition usesKubeconfig (worker : Worker) (w : World) (c : Call) : Prop :=
  isStatusUpdate c = false
  ∧ ∀ data, c = CNewClient data →
      ∃ ks, mgmt w !! kubeconfigKey worker = Some (RSecret ks)
            ∧ sec_Data ks !! KubeconfigDataName = Some data.

(** No secret with a kubeconfig is stored for [worker]. *)
Definition noKubeconfig (worker : Worker) (w : World) : Prop :=
  ∀ ks, mgmt w !! kubeconfigKey worker = Some (RSecret ks) →
        sec_Data ks !! KubeconfigDataName = None.

(** What the stages of a pass for [worker] let one observe: they leave the
    Workers and the secrets of the management plane alone, their calls are
    as [usesKubeconfig] says, and without a kubeconfig they leave the
    remote cluster alone. *)
Definition Observed (worker : Worker) (w w' : World) : Prop :=
  (∀ k, fst (fst k) = KWorker ∨ fst (fst k) = KSecret →
        mgmt w' !! k = mgmt w !! k)
  ∧ (∃ l, calls w' = calls w ++ l ∧ Forall (usesKubeconfig worker w) l)
  ∧ (noKubeconfig worker w → remote w' = remote w).

(** ** References between the objects of a stack *)

(** The API version and the kind under which the libraries register the
    types of the six objects. *)
Definition typeMeta (k : Kind) : option (string * string) :=
  match k with
  | KCluster => Some ("cluster.x-k8s.io/v1alpha3", "Cluster")
  | KMachineDeployment => Some ("cluster.x-k8s.io/v1alpha3", "MachineDeployment")
  | KKubeadmConfigTemplate =>
    Some ("bootstrap.cluster.x-k8s.io/v1alpha3", "KubeadmConfigTemplate")
  | KKubeadmControlPlane =>
    Some ("controlplane.cluster.x-k8s.io/v1alpha3", "KubeadmControlPlane")
  | KAzureMachineTemplate =>
    Some ("infrastructure.cluster.x-k8s.io/v1alpha3", "AzureMachineTemplate")
  | KAzureCluster =>
    Some ("infrastructure.cluster.x-k8s.io/v1alpha3", "AzureCluster")
  | _ => None
  end.

(** The object references an object carries. *)
Definition references (o : Resource) : list ObjectReference :=
  match o with
  | RCluster c =>
    option_list (cl_ControlPlaneRef (cl_Spec c))
    ++ option_list (cl_InfrastructureRef (cl_Spec c))
  | RMachineDeployment d =>
    let ms := mts_Spec (md_Template (md_Spec d)) in
    option_list (ConfigRef (ms_Bootstrap ms)) ++ [ms_InfrastructureRef ms]
  | RKubeadmControlPlane cp => [kcp_InfrastructureTemplate (kcp_Spec cp)]
  | _ => []
  end.

(** Settings that differ from those of [exampleReconciler] outside the five
    names the builders read. *)
Definition noisySettings : gmap string string :=
  <["AZURE_CLIENT_ID" := ""]>
    (<["HTTP_PROXY" := "http://proxy:3128"]> (AzureSettings exampleReconciler)).

(** A reconciler whose scheme does not know the Worker type. *)
Definition bareReconciler : WorkerReconciler :=
  {| AzureSettings := AzureSettings exampleReconciler; r_Scheme := ∅ |}.

(** * Properties *)

(** ** The client *)

Ltac unfold_M :=
  unfold mbind, M_bind, mret, M_ret, fail, liftE, try_, wrapErr, replaceErr in *.

Lemma store_logCall p c w : store p (logCall c w) = store p w.
Proof. by destruct p. Qed.

Lemma store_setStore p s w : store p (setStore p s w) = s.
Proof. by destruct p. Qed.

Lemma store_setStore_ne p q s w : p ≠ q → store q (setStore p s w) = store q w.
Proof. by destruct p, q. Qed.

Lemma calls_setStore p s w : calls (setStore p s w) = calls w.
Proof. by destruct p. Qed.

Lemma clock_setStore p s w : clock (setStore p s w) = clock w.
Proof. by destruct p. Qed.

(** The outcomes of a [Get]: an injected fault, not found, a stored object
    of another type, or the stored object. In each the world is the old one
    with the call logged. *)
Lemma client_Get_eq T `{Object T} p ns name w :
  client_Get T p ns name w =
  (match nextFault w with
   | Some msg => inl (EApi msg)
   | None =>
     match store p w !! (kindOf T, ns, name) with
     | None => inl (ENotFound (kindOf T, ns, name))
     | Some r => match ofResource r with
                 | Some o => inr o
                 | None => inl decodeError
                 end
     end
   end, logCall (CGet p (kindOf T, ns, name)) w).
Proof.
  unfold client_Get, apiCall, readStore. unfold_M.
  destruct (nextFault w); [done|].
  rewrite store_logCall.
  destruct (store p w !! _) as [r|]; [|done].
  by destruct (ofResource r).
Qed.

Lemma client_Create_eq {T} `{Object T} p (o : T) w :
  client_Create p o w =
  let w1 := logCall (CCreate p (toResource o)) w in
  match nextFault w with
  | Some msg => (inl (EApi msg), w1)
  | None =>
    match store p w !! objectKey o with
    | Some _ => (inl (EAlreadyExists (objectKey o)), w1)
    | None => (inr (), setStore p (<[objectKey o := toResource o]> (store p w)) w1)
    end
  end.
Proof.
  unfold client_Create, apiCall, readStore, writeStore. unfold_M. simpl.
  destruct (nextFault w); [done|].
  rewrite store_logCall.
  by destruct (store p w !! _).
Qed.

(** ** [CreateOrUpdate] under a closure that leaves [*obj] alone *)

Lemma sameShape_refl {T} (m : Mem T) : sameShape m m.
Proof. done. Qed.

Lemma sameShape_storeAt {T} (m : Mem T) p o : sameShape m (storeAt p o m).
Proof. repeat split. simpl. by rewrite length_insert. Qed.

Lemma load_Some {T} (m : Mem T) p o : load p m = inr o → heap m !! p = Some o.
Proof. unfold load. destruct (heap m !! p); naive_solver. Qed.

Lemma rebind_keepsCell {T} obj (m : Mem T) : keepsCell obj m rebind.
Proof. intros m0 m1 _ [= <-]. done. Qed.

Lemma noMutation_keepsCell {T} obj (m : Mem T) : keepsCell obj m noMutation.
Proof. intros m0 m1 _ [= <-]. done. Qed.

Lemma CreateOrUpdate_Ensured {T} `{Object T} c obj (f : MutateFn T) m o w res w' :
  load obj m = inr o →
  keepsCell obj m f →
  CreateOrUpdate c obj f m w = (res, w') →
  Ensured c (objectKey o) (toResource o) w w'.
Proof.
  intros Hload Hf. unfold CreateOrUpdate. unfold_M. rewrite Hload.
  rewrite client_Get_eq. fold (objectKey o).
  destruct (nextFault w) as [msg|] eqn:Hfault; simpl.
  { intros [= <- <-]. constructor. }
  destruct (store c w !! _) as [r|] eqn:Hget in |- *; simpl.
  - (* the object exists *)
    destruct (ofResource r) as [live|]; simpl.
    2:{ intros [= <- <-]. constructor. }
    unfold mutate.
    destruct (f (storeAt obj live m)) as [e|m2] eqn:Hfm; simpl.
    { intros [= <- <-]. constructor. }
    assert (heap m2 !! obj = Some live) as Hcell.
    { rewrite (Hf _ _ (sameShape_storeAt m obj live) Hfm). simpl.
      apply list_lookup_insert_eq. apply load_Some in Hload.
      by eapply lookup_lt_Some. }
    unfold load. rewrite Hcell.
    destruct (decide (objectKey live = objectKey o)); simpl.
    2:{ intros [= <- <-]. constructor. }
    rewrite Hcell. rewrite decide_True by done.
    intros [= <- <-]. constructor.
  - (* it does not *)
    unfold mutate.
    destruct (f m) as [e|m1] eqn:Hfm; simpl.
    { intros [= <- <-]. constructor. }
    assert (heap m1 !! obj = Some o) as Hcell.
    { rewrite (Hf _ _ (sameShape_refl m) Hfm). by apply load_Some. }
    unfold load. rewrite Hcell. rewrite decide_True by done. simpl.
    rewrite Hcell, client_Create_eq. cbv zeta.
    rewrite !store_logCall, Hget.
    destruct (nextFault (logCall _ w)); intros [= <- <-].
    + by apply Ensured_create_failed.
    + by apply Ensured_created.
Qed.

(** ** The six management-plane stages *)

Lemma newMem_load {T} (t : T) : load (p_template (newMem t)) (newMem t) = inr t.
Proof. done. Qed.

(** The shape all six stages share. *)
Lemma ensure_Ensured {T} `{Object T} msg (f : MutateFn T) (t : T) w :
  keepsCell 0 (newMem t) f →
  Ensured Mgmt (objectKey t) (toResource t) w
    (snd ((wrapErr msg (CreateOrUpdate Mgmt (p_template (newMem t)) f (newMem t)) ;;
           mret ()) w)).
Proof.
  intros Hf. unfold_M.
  destruct (CreateOrUpdate _ _ _ _ w) as [res w'] eqn:Hcou.
  eapply CreateOrUpdate_Ensured in Hcou; [|apply newMem_load|exact Hf].
  by destruct res.
Qed.

Lemma bindOwner_keepsCell r worker t : keepsCell 0 (newMem t) (bindOwner r worker).
Proof.
  intros m0 m1 (_ & Hwant & _). unfold bindOwner. simpl in Hwant.
  destruct (load _ m0) as [|o]; [done|].
  destruct (SetControllerReference _ _ _) as [|o']; [done|].
  intros [= <-]. simpl. rewrite Hwant. by apply list_lookup_insert_ne.
Qed.

Lemma getCloudProviderConfig_ok cluster location settings :
  snd (getCloudProviderConfig cluster location settings) = None.
Proof. done. Qed.

Lemma getKubeadmControlPlane_ok cluster location settings :
  ∃ cp, getKubeadmControlPlane cluster location settings = inr cp
        ∧ Name (kcp_meta cp) = cluster ∧ Namespace (kcp_meta cp) = "".
Proof.
  unfold getKubeadmControlPlane.
  pose proof (getCloudProviderConfig_ok cluster location settings) as Hok.
  destruct (getCloudProviderConfig _ _ _) as [data [e|]]; [done|].
  by eexists.
Qed.

Lemma getKubeadmConfigTemplate_ok cluster location settings :
  ∃ t, getKubeadmConfigTemplate cluster location settings = inr t
       ∧ Name (kct_meta t) = cluster ∧ Namespace (kct_meta t) = "".
Proof.
  unfold getKubeadmConfigTemplate.
  pose proof (getCloudProviderConfig_ok cluster location settings) as Hok.
  destruct (getCloudProviderConfig _ _ _) as [data [e|]]; [done|].
  by eexists.
Qed.

Lemma Ensured_StageEffect (kind : Kind) ns name o w w' :
  kind ≠ KWorker →
  fst (fst (resourceKey o)) = kind →
  Ensured Mgmt (kind, ns, name) o w w' →
  StageEffect (kindStage kind) w w'.
Proof.
  intros Hk Ho.
  assert (ownCall (kindStage kind) (CGet Mgmt (kind, ns, name))) as Hg by done.
  assert (ownCall (kindStage kind) (CCreate Mgmt o)) as Hc.
  { split; [|done]. simpl. by rewrite Ho. }
  intros [].
  - exists [CGet Mgmt (kind, ns, name)]. split_and!; try done.
    by apply Forall_cons_2.
  - exists [CGet Mgmt (kind, ns, name); CCreate Mgmt o]. split_and!; simpl.
    + by rewrite <- app_assoc.
    + done.
    + by repeat apply Forall_cons_2.
    + done.
    + done.
  - exists [CGet Mgmt (kind, ns, name); CCreate Mgmt o]. split_and!; simpl.
    + by rewrite <- app_assoc.
    + done.
    + by repeat apply Forall_cons_2.
    + done.
    + intros ns' name'. apply lookup_insert_ne. congruence.
Qed.

Ltac stage_ensured f :=
  lazymatch goal with
  | |- Ensured _ _ (_ ?t) _ _ =>
    exact (ensure_Ensured _ f t _
             ltac:(first [apply rebind_keepsCell | apply bindOwner_keepsCell]))
  end.

Lemma reconcileCluster_Ensured r worker w :
  Ensured Mgmt (KCluster, Namespace (wk_meta worker), Name (wk_meta worker))
    (RCluster (setNamespace (Namespace (wk_meta worker))
                 (getCluster (Name (wk_meta worker)) (ws_Location (wk_Spec worker))
                    (AzureSettings r))))
    w (snd (reconcileCluster r worker w)).
Proof. stage_ensured (@rebind Cluster). Qed.

Lemma reconcileMachineTemplate_Ensured r worker w :
  Ensured Mgmt (KAzureMachineTemplate, Namespace (wk_meta worker), Name (wk_meta worker))
    (RAzureMachineTemplate
       (setNamespace (Namespace (wk_meta worker))
          (getMachineTemplate (Name (wk_meta worker)) (ws_Location (wk_Spec worker)))))
    w (snd (reconcileMachineTemplate r worker w)).
Proof. stage_ensured (@rebind AzureMachineTemplate). Qed.

Lemma reconcileMachineDeployment_Ensured r worker w :
  Ensured Mgmt (KMachineDeployment, Namespace (wk_meta worker), Name (wk_meta worker))
    (RMachineDeployment
       (setNamespace (Namespace (wk_meta worker)) (getMachineDeployment worker)))
    w (snd (reconcileMachineDeployment r worker w)).
Proof. stage_ensured (@rebind MachineDeployment). Qed.

Lemma reconcileAzureCluster_Ensured r worker w :
  Ensured Mgmt (KAzureCluster, Namespace (wk_meta worker), Name (wk_meta worker))
    (RAzureCluster
       (setNamespace (Namespace (wk_meta worker))
          (getAzureCluster (Name (wk_meta worker)) (ws_Location (wk_Spec worker)))))
    w (snd (reconcileAzureCluster r worker w)).
Proof. stage_ensured (bindOwner r worker). Qed.

Lemma reconcileKubeadmControlPlane_Ensured r worker w :
  ∃ cp, getKubeadmControlPlane (Name (wk_meta worker)) (ws_Location (wk_Spec worker))
          (AzureSettings r) = inr cp
  ∧ Ensured Mgmt (KKubeadmControlPlane, Namespace (wk_meta worker), Name (wk_meta worker))
      (RKubeadmControlPlane (setNamespace (Namespace (wk_meta worker)) cp))
      w (snd (reconcileKubeadmControlPlane r worker w)).
Proof.
  destruct (getKubeadmControlPlane_ok (Name (wk_meta worker))
              (ws_Location (wk_Spec worker)) (AzureSettings r)) as (cp & Hcp & Hn & _).
  exists cp. split; [done|].
  unfold reconcileKubeadmControlPlane. rewrite Hcp.
  pose proof (ensure_Ensured "failed to create/update kubeadm control plane" rebind
                (setNamespace (Namespace (wk_meta worker)) cp) w
                (rebind_keepsCell _ _)) as He.
  unfold objectKey in He. simpl in He. by rewrite Hn in He.
Qed.

Lemma reconcileKubeadmConfigTemplate_Ensured r worker w :
  ∃ t, getKubeadmConfigTemplate (Name (wk_meta worker)) (ws_Location (wk_Spec worker))
         (AzureSettings r) = inr t
  ∧ Ensured Mgmt (KKubeadmConfigTemplate, Namespace (wk_meta worker), Name (wk_meta worker))
      (RKubeadmConfigTemplate (setNamespace (Namespace (wk_meta worker)) t))
      w (snd (reconcileKubeadmConfigTemplate r worker w)).
Proof.
  destruct (getKubeadmConfigTemplate_ok (Name (wk_meta worker))
              (ws_Location (wk_Spec worker)) (AzureSettings r)) as (t & Ht & Hn & _).
  exists t. split; [done|].
  unfold reconcileKubeadmConfigTemplate. rewrite Ht.
  pose proof (ensure_Ensured "failed to create/update kubeadm config template" rebind
                (setNamespace (Namespace (wk_meta worker)) t) w
                (rebind_keepsCell _ _)) as He.
  unfold objectKey in He. simpl in He. by rewrite Hn in He.
Qed.

(** ** The remote bootstrap phase *)

Lemma apiCall_eq c w :
  apiCall c w = (match nextFault w with
                 | Some msg => inl (EApi msg)
                 | None => inr ()
                 end, logCall c w).
Proof. unfold apiCall. by destruct (nextFault w). Qed.

Lemma reconcileExternal_effect r worker w :
  ∃ l, calls (snd (reconcileExternal r worker w)) = calls w ++ l
       ∧ l ≠ []
       ∧ Forall (externalCall w) l
       ∧ clock (snd (reconcileExternal r worker w)) = clock w
       ∧ mgmt (snd (reconcileExternal r worker w)) = mgmt w.
Proof.
  unfold reconcileExternal, remote_NewClient, remote_Apply. unfold_M.
  rewrite client_Get_eq. change (kindOf Secret) with KSecret.
  assert (∀ ns name, externalCall w (CGet Mgmt (KSecret, ns, name))) as Hget1
    by (by intros; split_and!).
  assert (∀ k, externalCall w (CGet Remote k)) as Hget2 by (by intros; split_and!).
  assert (∀ o, externalCall w (CCreate Remote (RNamespace o))) as Hns
    by (by intros; split_and!).
  assert (∀ d, externalCall w (CNewClient d)) as Hnc by (by intros; split_and!).
  assert (∀ u, externalCall w (CApply u)) as Hap by (by intros; split_and!).
  set (g1 := CGet Mgmt (KSecret, azureKey_Namespace, azureKey_Name)) in *.
  set (g2 := CGet Mgmt (KSecret, Namespace (wk_meta worker),
                        Sprintf_s (Name (wk_meta worker)) "-kubeconfig")).
  assert (externalCall w g1 ∧ externalCall w g2) as [Hg1 Hg2] by (split; apply Hget1).
  destruct (nextFault w).
  { exists [g1]. split_and!; try done. by repeat constructor. }
  destruct (mgmt w !! (KSecret, azureKey_Namespace, azureKey_Name))
    as [rs|] eqn:Hcred; simpl store; rewrite ?Hcred.
  2:{ exists [g1]. split_and!; try done. by repeat constructor. }
  destruct rs as [| | | | | | |azureSecret| |]; simpl;
    try (exists [g1]; split_and!; try done; by repeat constructor).
  assert (externalCall w (CCreate Remote (RSecret (newRemoteSecret azureSecret))))
    as Hcs.
  { split_and!; try done. intros p s [= <- <-]; eauto. }
  rewrite client_Get_eq. change (kindOf Secret) with KSecret. fold g1 g2.
  assert (Forall (externalCall w) [g1; g2]) as Hl1 by (by repeat constructor).
  destruct (nextFault (logCall _ w)).
  { exists [g1; g2]. split_and!; simpl; rewrite <- ?app_assoc; done. }
  simpl store.
  destruct (mgmt w !! (KSecret, Namespace (wk_meta worker), _)) as [rk|].
  2:{ exists [g1; g2]. split_and!; simpl; rewrite <- ?app_assoc; done. }
  destruct rk as [| | | | | | |kubeconfigSecret| |]; simpl;
    try (exists [g1; g2]; split_and!; simpl; rewrite <- ?app_assoc; done).
  destruct (sec_Data kubeconfigSecret !! KubeconfigDataName) as [data|]; simpl.
  2:{ exists [g1; g2]. split_and!; simpl; rewrite <- ?app_assoc; done. }
  rewrite apiCall_eq.
  set (w2 := logCall (CNewClient data) _).
  assert (calls w2 = calls w ++ [g1; g2; CNewClient data]) as Hc2.
  { subst w2. simpl. by rewrite <- !app_assoc. }
  assert (clock w2 = clock w ∧ mgmt w2 = mgmt w) as [Hk2 Hm2] by done.
  assert (Forall (externalCall w) [g1; g2; CNewClient data]) as Hl2
    by (by repeat constructor).
  destruct (nextFault (logCall _ (logCall _ w))).
  { exists [g1; g2; CNewClient data]. by split_and!. }
  (* the remote namespace *)
  destruct (CreateOrUpdate Remote 0 noMutation _ w2) as [res3 w3] eqn:Hcou3.
  eapply CreateOrUpdate_Ensured in Hcou3;
    [|reflexivity|apply noMutation_keepsCell].
  assert (∃ l3, calls w3 = calls w2 ++ l3 ∧ Forall (externalCall w) l3
                ∧ clock w3 = clock w2 ∧ mgmt w3 = mgmt w2) as (l3 & Hc3 & Hl3 & Hk3 & Hm3).
  { destruct Hcou3.
    - eexists [_]. split_and!; try done. by apply Forall_cons_2.
    - eexists [_; _]. split_and!; simpl; rewrite <- ?app_assoc; try done.
      apply Forall_cons_2; [apply Hget2|]. by apply Forall_cons_2.
    - eexists [_; _]. split_and!; simpl; rewrite <- ?app_assoc; try done.
      apply Forall_cons_2; [apply Hget2|]. by apply Forall_cons_2. }
  destruct res3 as [e3|[op3 m3]].
  { exists ([g1; g2; CNewClient data] ++ l3).
    simpl snd. rewrite Hc3, Hc2, Hk3, Hm3, <- app_assoc.
    split_and!; try done. by apply Forall_app. }
  (* the remote secret *)
  destruct (CreateOrUpdate Remote _ rebind _ w3) as [res4 w4] eqn:Hcou4.
  eapply CreateOrUpdate_Ensured in Hcou4;
    [|apply newMem_load|apply rebind_keepsCell].
  assert (∃ l4, calls w4 = calls w3 ++ l4 ∧ Forall (externalCall w) l4
                ∧ clock w4 = clock w3 ∧ mgmt w4 = mgmt w3) as (l4 & Hc4 & Hl4 & Hk4 & Hm4).
  { destruct Hcou4.
    - eexists [_]. split_and!; try done. by apply Forall_cons_2.
    - eexists [_; _]. split_and!; simpl; rewrite <- ?app_assoc; try done.
      apply Forall_cons_2; [apply Hget2|]. by apply Forall_cons_2.
    - eexists [_; _]. split_and!; simpl; rewrite <- ?app_assoc; try done.
      apply Forall_cons_2; [apply Hget2|]. by apply Forall_cons_2. }
  destruct res4 as [e4|[op4 m4]].
  { exists ([g1; g2; CNewClient data] ++ l3 ++ l4).
    simpl snd. rewrite Hc4, Hc3, Hc2, Hk4, Hk3, Hm4, Hm3, <- !app_assoc.
    split_and!; try done. by rewrite !Forall_app. }
  rewrite apiCall_eq.
  exists ([g1; g2; CNewClient data] ++ l3 ++ l4 ++ [CApply calicoURL]).
  assert (Forall (externalCall w) [CApply calicoURL]) as Hl5
    by (by repeat constructor).
  destruct (nextFault w4); simpl;
    rewrite Hc4, Hc3, Hc2, Hk4, Hk3, Hm4, Hm3, <- !app_assoc;
    (split_and!; try done);
    (apply (Forall_app_2 _ [g1; g2; CNewClient data]); [done|]);
    by rewrite !Forall_app.
Qed.

(** ** The pipeline *)

Lemma compress_cons_eq k l : compress (k :: k :: l) = compress (k :: l).
Proof. simpl. by rewrite decide_True. Qed.

Lemma compress_block k l1 l2 :
  l1 ≠ [] → Forall (λ x, x = k) l1 → Forall (λ x, x ≠ k) l2 →
  compress (l1 ++ l2) = k :: compress l2.
Proof.
  intros Hne Hl1 Hl2. induction Hl1 as [|x l1 -> Hl1 IH]; [done|].
  destruct l1 as [|y l1].
  - destruct l2 as [|z l2]; [done|].
    apply Forall_cons_1 in Hl2 as [Hz _]. simpl. by rewrite decide_False.
  - apply Forall_cons_1 in Hl1 as [-> Hl1].
    change ((k :: k :: l1) ++ l2) with (k :: k :: (l1 ++ l2)).
    rewrite compress_cons_eq. by apply IH.
Qed.

Lemma stagesOf_block k l1 l2 :
  l1 ≠ [] → Forall (ownCall k) l1 → Forall (λ c, callStage c ≠ k) l2 →
  stagesOf (l1 ++ l2) = k :: stagesOf l2.
Proof.
  intros Hne Hl1 Hl2. unfold stagesOf. rewrite map_app.
  apply compress_block.
  - by destruct l1.
  - apply Forall_map. eapply Forall_impl; [exact Hl1|]. by intros c [].
  - by apply Forall_map.
Qed.

Lemma reconcilers_stageOK r i f :
  reconcilers r !! i = Some f → stageOK (1 + i) f.
Proof.
  intros Hi worker w.
  destruct i as [|[|[|[|[|[|[|i]]]]]]]; simpl in Hi; [injection Hi as <- ..|done].
  - by eapply (Ensured_StageEffect KCluster), reconcileCluster_Ensured.
  - destruct (reconcileKubeadmConfigTemplate_Ensured r worker w) as (t & _ & He).
    by eapply (Ensured_StageEffect KKubeadmConfigTemplate), He.
  - destruct (reconcileKubeadmControlPlane_Ensured r worker w) as (t & _ & He).
    by eapply (Ensured_StageEffect KKubeadmControlPlane), He.
  - by eapply (Ensured_StageEffect KAzureMachineTemplate),
         reconcileMachineTemplate_Ensured.
  - by eapply (Ensured_StageEffect KMachineDeployment),
         reconcileMachineDeployment_Ensured.
  - by eapply (Ensured_StageEffect KAzureCluster), reconcileAzureCluster_Ensured.
  - destruct (reconcileExternal_effect r worker w) as (l & Hc & Hne & Hl & Hk & Hm).
    exists l. split_and!; try done.
    + eapply Forall_impl; [exact Hl|]. by intros c (? & ? & _).
    + intros. by rewrite Hm.
Qed.

(** The loop runs the stages from the first on, each in the world the one
    before it left, and stops at the first that fails. *)
Lemma runReconcilers_trace fs : ∀ base worker w,
  (∀ i f, fs !! i = Some f → stageOK (base + i) f) →
  ∃ l, calls (snd (runReconcilers fs worker w)) = calls w ++ l
     ∧ Forall (λ c, (base ≤ callStage c < base + length fs)%nat
                    ∧ isUpdate c = false) l
     ∧ clock (snd (runReconcilers fs worker w)) = clock w
     ∧ (∀ ns name, mgmt (snd (runReconcilers fs worker w)) !! (KWorker, ns, name)
                   = mgmt w !! (KWorker, ns, name))
     ∧ match fst (runReconcilers fs worker w) with
       | inr _ => stagesOf l = seq base (length fs)
       | inl err =>
         ∃ i f e w1, fs !! i = Some f
                     ∧ f worker w1 = (inl e, snd (runReconcilers fs worker w))
                     ∧ err = stageFailure e
                     ∧ stagesOf l = seq base (S i)
       end.
Proof.
  induction fs as [|f fs IH]; intros base worker w Hfs.
  { exists []. simpl. split_and!; try done. by rewrite app_nil_r. }
  destruct (Hfs 0 f eq_refl worker w) as (l1 & Hc1 & Hne1 & Hl1 & Hk1 & Hm1).
  rewrite Nat.add_0_r in Hl1.
  assert (stagesOf l1 = [base]) as Hs1.
  { rewrite <- (app_nil_r l1). by rewrite (stagesOf_block base). }
  assert (Forall (λ c, (base ≤ callStage c < base + length (f :: fs))%nat
                       ∧ isUpdate c = false) l1) as Hb1.
  { eapply Forall_impl; [exact Hl1|]. intros c [<- ?]. simpl. split; [lia|done]. }
  simpl runReconcilers. unfold_M.
  destruct (f worker w) as [[e|[]] w1] eqn:Hf; simpl in Hc1, Hk1, Hm1; simpl fst; simpl snd.
  - exists l1. split_and!; try done. by exists 0, f, e, w.
  - destruct (IH (S base) worker w1) as (l2 & Hc2 & Hl2 & Hk2 & Hm2 & Hres).
    { intros i g Hg. rewrite Nat.add_succ_comm. by apply (Hfs (S i)). }
    exists (l1 ++ l2). split_and!.
    + by rewrite Hc2, Hc1, app_assoc.
    + apply Forall_app; split; [done|].
      eapply Forall_impl; [exact Hl2|]. intros c [? ?]. simpl. split; [lia|done].
    + by rewrite Hk2.
    + intros. by rewrite Hm2.
    + assert (stagesOf (l1 ++ l2) = base :: stagesOf l2) as Hs.
      { apply stagesOf_block; try done.
        eapply Forall_impl; [exact Hl2|]. intros c [? _]. lia. }
      destruct (fst (runReconcilers fs worker w1)) as [err|].
      * destruct Hres as (i & g & e & w2 & Hg & Hrun & -> & Hs2).
        exists (S i), g, e, w2. split_and!; try done. by rewrite Hs, Hs2.
      * by rewrite Hs, Hres.
Qed.

Lemma compress_cons2 x y l :
  compress (x :: y :: l)
  = if decide (x = y) then compress (y :: l) else x :: compress (y :: l).
Proof. done. Qed.

Lemma compress_snoc x l :
  Forall (λ y, y ≠ x) l → compress (l ++ [x]) = compress l ++ [x].
Proof.
  induction l as [|y [|z l] IH]; intros Hl; [done| |].
  - apply Forall_cons_1 in Hl as [Hy _]. simpl. by rewrite decide_False.
  - apply Forall_cons_1 in Hl as [Hy Hl]. specialize (IH Hl).
    change ((y :: z :: l) ++ [x]) with (y :: (z :: l) ++ [x]).
    change ((z :: l) ++ [x]) with (z :: (l ++ [x])) in *.
    rewrite !compress_cons2. rewrite IH.
    by destruct (decide (y = z)).
Qed.

Lemma newCalls_app w w' l : calls w' = calls w ++ l → newCalls w w' = l.
Proof. intros Hc. unfold newCalls. by rewrite Hc, drop_app_length. Qed.

Lemma Status_Update_calls worker w :
  calls (snd (Status_Update worker w)) = calls w ++ [CStatusUpdate worker].
Proof.
  unfold Status_Update, readStore, writeStore. unfold_M. rewrite apiCall_eq.
  destruct (nextFault w); [done|]. simpl.
  destruct (mgmt w !! objectKey worker) as [[]|]; done.
Qed.

Lemma deferredStatusUpdate_calls worker reterr w :
  calls (snd (deferredStatusUpdate worker reterr w))
  = calls w ++ [CStatusUpdate worker].
Proof.
  unfold deferredStatusUpdate.
  pose proof (Status_Update_calls worker w) as Hc.
  by destruct (Status_Update worker w) as [[] ?].
Qed.

(** An error of the status update is never a wrapped stage error. *)
Lemma deferredStatusUpdate_error worker w e :
  fst (deferredStatusUpdate worker None w) ≠ Some (stageFailure e).
Proof.
  unfold deferredStatusUpdate, Status_Update, readStore, writeStore. unfold_M.
  rewrite apiCall_eq. destruct (nextFault w); [done|]. simpl.
  destruct (mgmt w !! objectKey worker) as [[]|]; done.
Qed.

(** [Reconcile] once the Worker has been fetched. *)
Lemma Reconcile_fetched r req w worker :
  nextFault w = None →
  mgmt w !! requestKey req = Some (RWorker worker) →
  Reconcile r req w =
  match runReconcilers (reconcilers r) worker
          (logCall (CGet Mgmt (requestKey req)) w) with
  | (inl err, w2) => ((emptyResult, Some err), w2)
  | (inr _, w2) =>
    let '(reterr, w3) :=
      deferredStatusUpdate
        (setPhase WorkerRunning
           (initCapacity (clock w2) (setPhase WorkerPending worker))) None w2 in
    ((emptyResult, reterr), w3)
  end.
Proof.
  intros Hf Hw. unfold Reconcile. rewrite client_Get_eq, Hf.
  change (kindOf Worker, req_Namespace req, req_Name req) with (requestKey req).
  simpl store. by rewrite Hw.
Qed.

(** A pass that fetched the Worker: the fetch, then the stages in the world
    it left, then, only if no stage failed, the deferred status update. *)
Lemma Reconcile_pass r req w worker :
  nextFault w = None →
  mgmt w !! requestKey req = Some (RWorker worker) →
  ∃ res w2 l,
    runReconcilers (reconcilers r) worker (logCall (CGet Mgmt (requestKey req)) w)
    = (res, w2)
    ∧ calls w2 = calls w ++ CGet Mgmt (requestKey req) :: l
    ∧ Forall (λ c, (1 ≤ callStage c < 8)%nat ∧ isUpdate c = false) l
    ∧ clock w2 = clock w
    ∧ (∀ ns name, mgmt w2 !! (KWorker, ns, name) = mgmt w !! (KWorker, ns, name))
    ∧ match res with
      | inl err =>
        Reconcile r req w = ((emptyResult, Some err), w2)
        ∧ ∃ i f e w1, reconcilers r !! i = Some f ∧ f worker w1 = (inl e, w2)
                      ∧ err = stageFailure e ∧ stagesOf l = seq 1 (S i)
      | inr _ =>
        stagesOf l = seq 1 7
        ∧ Reconcile r req w
          = ((emptyResult,
              fst (deferredStatusUpdate (reconciledWorker (clock w) worker) None w2)),
             snd (deferredStatusUpdate (reconciledWorker (clock w) worker) None w2))
      end.
Proof.
  intros Hf Hw. rewrite (Reconcile_fetched r req w worker Hf Hw).
  destruct (runReconcilers_trace (reconcilers r) 1 worker
              (logCall (CGet Mgmt (requestKey req)) w))
    as (l & Hc & Hl & Hk & Hm & Hres).
  { intros i f. apply reconcilers_stageOK. }
  change (calls (logCall ?c w)) with (calls w ++ [c]) in Hc.
  rewrite <- app_assoc in Hc.
  change ([?c] ++ l) with (c :: l) in Hc.
  change (clock (logCall _ w)) with (clock w) in Hk.
  change (mgmt (logCall _ w)) with (mgmt w) in Hm.
  set (out := runReconcilers _ _ _) in *. clearbody out.
  destruct out as [res w2]; simpl fst in *; simpl snd in *.
  exists res, w2, l. split_and!; try done.
  destruct res as [err|[]]; [done|].
  split; [done|]. rewrite Hk. unfold reconciledWorker.
  by destruct (deferredStatusUpdate _ _ _).
Qed.

Lemma Status_Update_eq worker w :
  Status_Update worker w =
  let w1 := logCall (CStatusUpdate worker) w in
  match nextFault w with
  | Some msg => (inl (EApi msg), w1)
  | None =>
    match mgmt w !! objectKey worker with
    | Some (RWorker old) =>
      (inr (),
       setStore Mgmt
         (<[objectKey worker :=
              RWorker {| wk_meta := wk_meta old; wk_Spec := wk_Spec old;
                         wk_Status := wk_Status worker |}]> (mgmt w)) w1)
    | _ => (inl (ENotFound (objectKey worker)), w1)
    end
  end.
Proof.
  unfold Status_Update, readStore, writeStore. unfold_M. rewrite apiCall_eq.
  destruct (nextFault w); [done|]. simpl.
  destruct (mgmt w !! objectKey worker) as [[]|]; done.
Qed.

Lemma filter_isStatusUpdate_stages l :
  Forall (λ c, (1 ≤ callStage c < 8)%nat ∧ isUpdate c = false) l →
  List.filter isStatusUpdate l = [].
Proof.
  induction 1 as [|c l [Hc _] _ IH]; [done|].
  simpl. rewrite IH. destruct c; try done. simpl in Hc. lia.
Qed.

Lemma stagesOf_fetch req l :
  Forall (λ c, callStage c ≠ 0) l →
  stagesOf (CGet Mgmt (requestKey req) :: l) = 0 :: stagesOf l.
Proof. intros Hl. by apply (stagesOf_block 0 [_]); [|repeat constructor|]. Qed.

Lemma stages_not_fetch l :
  Forall (λ c, (1 ≤ callStage c < 8)%nat ∧ isUpdate c = false) l →
  Forall (λ c, callStage c ≠ 0) l.
Proof. intros Hl. eapply Forall_impl; [exact Hl|]. intros c [? _]. lia. Qed.

Lemma stagesOf_status worker l :
  Forall (λ c, (1 ≤ callStage c < 8)%nat ∧ isUpdate c = false) l →
  stagesOf (l ++ [CStatusUpdate worker]) = stagesOf l ++ [8].
Proof.
  intros Hl. unfold stagesOf. rewrite map_app. apply compress_snoc.
  apply Forall_map. eapply Forall_impl; [exact Hl|]. intros c [? _]. simpl. lia.
Qed.

(** ** The template builders *)

Example jsonString_escapes :
  jsonString ("a<b" +:+ dq) = dq +:+ "a" +:+ bs +:+ "u003cb" +:+ bs +:+ dq +:+ dq.
Proof. reflexivity. Qed.

Example jsonObject_layout :
  jsonObject [jsonField "n" (jsonInt 250); jsonField "b" (jsonBool true)]
  = "{" +:+ dq +:+ "n" +:+ dq +:+ ":250," +:+ dq +:+ "b" +:+ dq +:+ ":true}".
Proof. reflexivity. Qed.

(** The payload names the worker as resource group and carries the fixed
    policy constants. *)
Example cloud_config_of_alpha :
  fst (getCloudProviderConfig "alpha" "westus2" ∅)
  = jsonObject
      [ jsonField "cloud" (dq +:+ dq); jsonField "tenantId" (dq +:+ dq);
        jsonField "subscriptionId" (dq +:+ dq);
        jsonField "aadClientId" (dq +:+ dq);
        jsonField "aadClientSecret" (dq +:+ dq);
        jsonField "resourceGroup" (dq +:+ "alpha" +:+ dq);
        jsonField "securityGroupName" (dq +:+ "alpha-node-nsg" +:+ dq);
        jsonField "location" (dq +:+ "westus2" +:+ dq);
        jsonField "vmType" (dq +:+ "standard" +:+ dq);
        jsonField "vnetName" (dq +:+ "alpha-vnet" +:+ dq);
        jsonField "vnetResourceGroup" (dq +:+ "alpha" +:+ dq);
        jsonField "subnetName" (dq +:+ "alpha-node-subnet" +:+ dq);
        jsonField "routeTableName" (dq +:+ "alpha-node-routetable" +:+ dq);
        jsonField "loadBalancerSku" (dq +:+ "standard" +:+ dq);
        jsonField "maximumLoadBalancerRuleCount" "250";
        jsonField "useManagedIdentityExtension" "false";
        jsonField "useInstanceMetadata" "true" ].
Proof. vm_compute; reflexivity. Qed.

(** C9. The Cluster object that [getCluster] builds depends on the name
    only: any two locations and any two settings maps give the same
    object. *)
Theorem getCluster_ignores_location_and_settings
    (cluster location1 location2 : string) (settings1 settings2 : gmap string string) :
  getCluster cluster location1 settings1 = getCluster cluster location2 settings2.
Proof. reflexivity. Qed.

(** C7. For every name, location and settings map both builders succeed,
    and the file that carries the cloud-provider config is the same in the
    KubeadmConfigTemplate and in the KubeadmControlPlane: one file whose
    content is the string [getCloudProviderConfig] returns. *)
Theorem cloud_config_identical
    (cluster location : string) (settings : gmap string string) :
  ∃ kct kcp,
    getKubeadmConfigTemplate cluster location settings = inr kct
    ∧ getKubeadmControlPlane cluster location settings = inr kcp
    ∧ kcs_Files (kctr_Spec (kct_Template (kct_Spec kct)))
      = [cloudConfigFile (fst (getCloudProviderConfig cluster location settings))]
    ∧ kcs_Files (kcp_KubeadmConfigSpec (kcp_Spec kcp))
      = [cloudConfigFile (fst (getCloudProviderConfig cluster location settings))]
    ∧ file_Content <$> kcs_Files (kctr_Spec (kct_Template (kct_Spec kct)))
      = file_Content <$> kcs_Files (kcp_KubeadmConfigSpec (kcp_Spec kcp)).
Proof.
  unfold getKubeadmConfigTemplate, getKubeadmControlPlane.
  pose proof (getCloudProviderConfig_ok cluster location settings) as Hok.
  destruct (getCloudProviderConfig _ _ _) as [data [e|]]; [done|].
  by do 2 eexists.
Qed.

(** C4, a counterexample. For the Worker [alpha], which asks for 3 replicas
    of version v1.18.2, the control plane that is built has neither that
    replica count nor that version. *)
Lemma controlPlane_ignores_worker_spec :
  ∃ cp, getKubeadmControlPlane (Name (wk_meta alpha)) (ws_Location (wk_Spec alpha))
          (AzureSettings exampleReconciler) = inr cp
        ∧ kcp_Replicas (kcp_Spec cp) ≠ Some (ws_Replicas (wk_Spec alpha))
        ∧ kcp_Version (kcp_Spec cp) ≠ ws_Version (wk_Spec alpha).
Proof. eexists. split; [reflexivity|]. by split. Qed.

(** C4, amended. The control plane built for a worker has the fixed replica
    count 1 and the fixed version v1.17.4, whatever the worker's spec; the
    worker's replicas and version are the replica count and the machine
    version of the MachineDeployment (the node pool). *)
Theorem worker_replicas_and_version_consumers
    (worker : Worker) (settings : gmap string string) :
  (∃ cp, getKubeadmControlPlane (Name (wk_meta worker))
           (ws_Location (wk_Spec worker)) settings = inr cp
         ∧ kcp_Replicas (kcp_Spec cp) = Some 1%Z
         ∧ kcp_Version (kcp_Spec cp) = "v1.17.4")
  ∧ md_Replicas (md_Spec (getMachineDeployment worker))
    = Some (ws_Replicas (wk_Spec worker))
  ∧ ms_Version (mts_Spec (md_Template (md_Spec (getMachineDeployment worker))))
    = Some (ws_Version (wk_Spec worker)).
Proof.
  split; [|done].
  unfold getKubeadmControlPlane.
  pose proof (getCloudProviderConfig_ok (Name (wk_meta worker))
                (ws_Location (wk_Spec worker)) settings) as Hok.
  destruct (getCloudProviderConfig _ _ _) as [data [e|]]; [done|].
  by eexists.
Qed.

(** ** The convergence calls of the stages *)

(** Where the object of a stage exists, the stage does nothing but look
    it up. *)
Lemma Ensured_existing c k o w w' live :
  store c w !! k = Some live → Ensured c k o w w' → w' = logCall (CGet c k) w.
Proof. intros Hlive []; [done|congruence..]. Qed.

(** For comparison: with a closure that writes through the pointer the same
    call does send an update, and the desired spec is stored. *)
Example writeThrough_updates_drifted_object :
  let desired := setNamespace "default"
                   (getCluster "alpha" "westus2" (AzureSettings exampleReconciler)) in
  let out := CreateOrUpdate Mgmt 0 writeThrough (newMem desired) driftedWorld in
  (∃ m, fst out = inr (OperationResultUpdated, m))
  ∧ mgmt (snd out) !! (KCluster, "default", "alpha") = Some (RCluster desired)
  ∧ newCalls driftedWorld (snd out)
    = [CGet Mgmt (KCluster, "default", "alpha"); CUpdate Mgmt (RCluster desired)].
Proof. split_and!; [eexists|..]; vm_compute; reflexivity. Qed.

(** C1, at a failing input. The Cluster object of [alpha] exists with an
    emptied spec. [reconcileCluster] succeeds after a single [Get]: no
    update is sent, and the stored object is still the drifted one, whose
    spec is not the spec of the desired object. *)
Theorem reconcileCluster_keeps_drifted_object :
  reconcileCluster exampleReconciler alpha driftedWorld
  = (inr (), logCall (CGet Mgmt (KCluster, "default", "alpha")) driftedWorld)
  ∧ mgmt (snd (reconcileCluster exampleReconciler alpha driftedWorld))
      !! (KCluster, "default", "alpha") = Some (RCluster driftedCluster)
  ∧ cl_Spec driftedCluster
    ≠ cl_Spec (getCluster "alpha" "westus2" (AzureSettings exampleReconciler)).
Proof. split_and!; [vm_compute; reflexivity..|done]. Qed.

(** C2, at a failing input. After a pass over the fresh world, which
    returns no error, the AzureCluster object that was created has no owner
    reference; the closure did put the controller reference on the cell
    [want] points to, which is not the cell that was sent. *)
Theorem fresh_pass_AzureCluster_without_owner :
  snd (fst (Reconcile exampleReconciler alphaRequest freshWorld)) = None
  ∧ (∃ ac, mgmt (snd (Reconcile exampleReconciler alphaRequest freshWorld))
             !! (KAzureCluster, "default", "alpha") = Some (RAzureCluster ac)
           ∧ OwnerReferences (azc_meta ac) = [])
  ∧ (∃ m sent wanted,
       bindOwner exampleReconciler alpha
         (newMem (setNamespace "default" (getAzureCluster "alpha" "westus2")))
       = inr m
       ∧ heap m !! 0 = Some sent ∧ OwnerReferences (azc_meta sent) = []
       ∧ heap m !! 1 = Some wanted
       ∧ owner_Name <$> OwnerReferences (azc_meta wanted) = ["alpha"]).
Proof.
  split_and!.
  - vm_compute; reflexivity.
  - eexists. split; vm_compute; reflexivity.
  - do 3 eexists. split_and!; vm_compute; reflexivity.
Qed.

(** ** The entry point *)

(** C10. When the fetch of the Worker fails, [Reconcile] returns the empty
    result at once: nothing but the [Get] has happened. A not-found error,
    which is the error of a Worker that does not exist, is turned into
    success; every other error is returned as it is. *)
Theorem Reconcile_worker_fetch_error
    (r : WorkerReconciler) (req : Request) (w w1 : World) (err : Error) :
  client_Get Worker Mgmt (req_Namespace req) (req_Name req) w = (inl err, w1) →
  Reconcile r req w
  = ((emptyResult, if IsNotFound err then None else Some err), w1)
  ∧ w1 = logCall (CGet Mgmt (requestKey req)) w
  ∧ (IsNotFound err = true
     ↔ nextFault w = None ∧ mgmt w !! requestKey req = None).
Proof.
  intros Hget. split.
  { unfold Reconcile. by rewrite Hget. }
  rewrite client_Get_eq in Hget.
  change (kindOf Worker, req_Namespace req, req_Name req) with (requestKey req) in Hget.
  change (store Mgmt w) with (mgmt w) in Hget.
  revert Hget. destruct (nextFault w).
  { intros [= <- <-]. split; [done|]. split; [done|by intros []]. }
  destruct (mgmt w !! requestKey req) as [res|].
  - destruct (@ofResource Worker _ _ res) as [o|]; [by intros [=]|].
    intros [= <- <-]. split; [done|]. split; [done|by intros []].
  - by intros [= <- <-].
Qed.

(** In the world without any Worker the pass succeeds after one [Get]. *)
Lemma Reconcile_worker_fetch_error_witness :
  client_Get Worker Mgmt "default" "alpha" emptyWorld
  = (inl (ENotFound (KWorker, "default", "alpha")),
     logCall (CGet Mgmt (KWorker, "default", "alpha")) emptyWorld)
  ∧ Reconcile exampleReconciler alphaRequest emptyWorld
    = ((emptyResult, None),
       logCall (CGet Mgmt (KWorker, "default", "alpha")) emptyWorld).
Proof.
  split; [reflexivity|].
  apply (Reconcile_worker_fetch_error exampleReconciler alphaRequest emptyWorld
           _ (ENotFound (KWorker, "default", "alpha"))).
  reflexivity.
Defined.

(** C8. Whenever the remote bootstrap phase creates a secret, it creates it
    in the remote cluster, and the secret sent has the fixed name and
    namespace of the credential secret (those of the stored credential
    secret, when that is stored under its own name), the data of the stored
    credential secret, and nothing else: no uid, no resource version, no
    labels, annotations or owners, no string data and no type. *)
Theorem remote_secret_copies_only_data
    (r : WorkerReconciler) (worker : Worker) (w : World)
    (i : nat) (p : Plane) (s : Secret) :
  newCalls w (snd (reconcileExternal r worker w)) !! i
  = Some (CCreate p (RSecret s)) →
  p = Remote
  ∧ ∃ azureSecret,
      mgmt w !! (KSecret, azureKey_Namespace, azureKey_Name)
      = Some (RSecret azureSecret)
      ∧ Name (sec_meta s) = azureKey_Name
      ∧ Namespace (sec_meta s) = azureKey_Namespace
      ∧ (objectKey azureSecret = (KSecret, azureKey_Namespace, azureKey_Name) →
         Name (sec_meta s) = Name (sec_meta azureSecret)
         ∧ Namespace (sec_meta s) = Namespace (sec_meta azureSecret))
      ∧ sec_Data s = sec_Data azureSecret
      ∧ UID (sec_meta s) = ""
      ∧ ResourceVersion (sec_meta s) = ""
      ∧ Labels (sec_meta s) = ∅
      ∧ Annotations (sec_meta s) = ∅
      ∧ OwnerReferences (sec_meta s) = []
      ∧ sec_StringData s = ∅
      ∧ sec_Type s = "".
Proof.
  intros Hi.
  destruct (reconcileExternal_effect r worker w) as (l & Hc & _ & Hl & _).
  rewrite (newCalls_app _ _ _ Hc) in Hi.
  eapply Forall_lookup_1 in Hl; [|exact Hi].
  destruct Hl as (_ & _ & Hs).
  destruct (Hs p s eq_refl) as (-> & azureSecret & Hcred & ->).
  split; [done|]. exists azureSecret. split_and!; try done.
  intros [= Hns Hn]. simpl. by rewrite Hns, Hn.
Qed.

(** In the fresh world the seventh call of the phase creates the remote
    secret: the uid and the type of the stored credential secret are gone. *)
Lemma remote_secret_copies_only_data_witness :
  newCalls freshWorld (snd (reconcileExternal exampleReconciler alpha freshWorld)) !! 6
  = Some (CCreate Remote (RSecret (newRemoteSecret credentials)))
  ∧ UID (sec_meta credentials) = "uid-2"
  ∧ sec_Type credentials = "Opaque"
  ∧ sec_Data (newRemoteSecret credentials) = sec_Data credentials
  ∧ UID (sec_meta (newRemoteSecret credentials)) = ""
  ∧ sec_Type (newRemoteSecret credentials) = "".
Proof.
  assert (newCalls freshWorld
            (snd (reconcileExternal exampleReconciler alpha freshWorld)) !! 6
          = Some (CCreate Remote (RSecret (newRemoteSecret credentials)))) as Hi
    by (vm_compute; reflexivity).
  split; [exact Hi|].
  destruct (remote_secret_copies_only_data exampleReconciler alpha freshWorld
              6 Remote (newRemoteSecret credentials) Hi)
    as (_ & a & _ & _ & _ & _ & _ & Huid & _ & _ & _ & _ & _ & Hty).
  split_and!; [reflexivity|reflexivity|reflexivity|exact Huid|exact Hty].
Defined.

(** ** The stages, one after the other *)

Lemma stageResult_0 f fs worker w :
  stageResult (f :: fs) worker w 0 = Some (fst (f worker w)).
Proof. done. Qed.

Lemma stageResult_S f fs worker w i :
  stageResult (f :: fs) worker w (S i) = stageResult fs worker (snd (f worker w)) i.
Proof. done. Qed.

(** The loop stops at the first stage that fails, with its error, in the
    world that stage left. *)
Lemma runReconcilers_first_failure fs : ∀ worker w k e,
  failsFirst fs worker w k e →
  runReconcilers fs worker w
  = (inl (stageFailure e), worldAfter (take (S k) fs) worker w).
Proof.
  induction fs as [|f fs IH]; intros worker w k e [Hk Hlt]; [done|].
  simpl runReconcilers. unfold_M.
  destruct k as [|k].
  - rewrite stageResult_0 in Hk. injection Hk as Hk.
    change (worldAfter (take 1 (f :: fs)) worker w) with (snd (f worker w)).
    by destruct (f worker w) as [[e'|[]] w1]; simpl in *; [injection Hk as ->|].
  - pose proof (Hlt 0%nat ltac:(lia)) as H0. rewrite stageResult_0 in H0.
    injection H0 as H0. rewrite stageResult_S in Hk.
    change (take (S (S k)) (f :: fs)) with (f :: take (S k) fs).
    change (worldAfter (f :: ?l) worker w)
      with (worldAfter l worker (snd (f worker w))).
    assert (failsFirst fs worker (snd (f worker w)) k e) as Hrest.
    { split; [done|]. intros i Hi. rewrite <- stageResult_S. apply Hlt. lia. }
    specialize (IH worker (snd (f worker w)) k e Hrest).
    by destruct (f worker w) as [[e'|[]] w1]; simpl in *.
Qed.

(** It runs every stage when none fails. *)
Lemma runReconcilers_all_succeed fs : ∀ worker w,
  allSucceed fs worker w →
  runReconcilers fs worker w = (inr (), worldAfter fs worker w).
Proof.
  induction fs as [|f fs IH]; intros worker w Hall; [done|].
  simpl runReconcilers. unfold_M.
  pose proof (Hall 0%nat ltac:(simpl; lia)) as H0. rewrite stageResult_0 in H0.
  injection H0 as H0.
  change (worldAfter (f :: fs) worker w)
    with (worldAfter fs worker (snd (f worker w))).
  assert (allSucceed fs worker (snd (f worker w))) as Hrest.
  { intros i Hi. rewrite <- stageResult_S. apply Hall. simpl. lia. }
  specialize (IH worker (snd (f worker w)) Hrest).
  by destruct (f worker w) as [[e'|[]] w1]; simpl in *.
Qed.

Lemma stages_succeed_or_fail fs : ∀ worker w,
  allSucceed fs worker w ∨ ∃ k e, failsFirst fs worker w k e.
Proof.
  induction fs as [|f fs IH]; intros worker w.
  { left. intros i Hi. simpl in Hi. lia. }
  destruct (fst (f worker w)) as [e|[]] eqn:Hf.
  - right. exists 0%nat, e. split; [by rewrite stageResult_0, Hf|].
    intros i Hi. lia.
  - destruct (IH worker (snd (f worker w))) as [Hall|(k & e & Hk & Hlt)].
    + left. intros [|i] Hi; [by rewrite stageResult_0, Hf|].
      rewrite stageResult_S. apply Hall. simpl in Hi. lia.
    + right. exists (S k), e. split; [by rewrite stageResult_S|].
      intros [|i] Hi; [by rewrite stageResult_0, Hf|].
      rewrite stageResult_S. apply Hlt. lia.
Qed.

(** The calls of the stages [fs] when they run one after the other. *)
Lemma worldAfter_trace fs : ∀ base worker w,
  (∀ i f, fs !! i = Some f → stageOK (base + i) f) →
  ∃ l, calls (worldAfter fs worker w) = calls w ++ l
     ∧ Forall (λ c, (base ≤ callStage c < base + length fs)%nat
                    ∧ isUpdate c = false) l
     ∧ stagesOf l = seq base (length fs)
     ∧ clock (worldAfter fs worker w) = clock w
     ∧ (∀ ns name, mgmt (worldAfter fs worker w) !! (KWorker, ns, name)
                   = mgmt w !! (KWorker, ns, name)).
Proof.
  induction fs as [|f fs IH]; intros base worker w Hfs.
  { exists []. simpl. split_and!; try done. by rewrite app_nil_r. }
  destruct (Hfs 0%nat f eq_refl worker w) as (l1 & Hc1 & Hne1 & Hl1 & Hk1 & Hm1).
  rewrite Nat.add_0_r in Hl1.
  change (worldAfter (f :: fs) worker w)
    with (worldAfter fs worker (snd (f worker w))).
  destruct (IH (S base) worker (snd (f worker w)))
    as (l2 & Hc2 & Hl2 & Hs2 & Hk2 & Hm2).
  { intros i g Hg. rewrite Nat.add_succ_comm. by apply (Hfs (S i)). }
  exists (l1 ++ l2). split_and!.
  - by rewrite Hc2, Hc1, app_assoc.
  - apply Forall_app; split.
    + eapply Forall_impl; [exact Hl1|]. intros c [<- ?]. simpl. split; [lia|done].
    + eapply Forall_impl; [exact Hl2|]. intros c [? ?]. simpl. split; [lia|done].
  - rewrite (stagesOf_block base); try done; [by rewrite Hs2|].
    eapply Forall_impl; [exact Hl2|]. intros c [? _]. lia.
  - by rewrite Hk2.
  - intros. by rewrite Hm2.
Qed.

Lemma reconcilers_take_trace r k worker w :
  (k ≤ 7)%nat →
  ∃ l, calls (worldAfter (take k (reconcilers r)) worker w) = calls w ++ l
     ∧ Forall (λ c, (1 ≤ callStage c < 8)%nat ∧ isUpdate c = false) l
     ∧ stagesOf l = seq 1 k
     ∧ clock (worldAfter (take k (reconcilers r)) worker w) = clock w
     ∧ (∀ ns name,
          mgmt (worldAfter (take k (reconcilers r)) worker w) !! (KWorker, ns, name)
          = mgmt w !! (KWorker, ns, name)).
Proof.
  intros Hk.
  destruct (worldAfter_trace (take k (reconcilers r)) 1 worker w)
    as (l & Hc & Hl & Hs & Hcl & Hm).
  { intros i f [Hi _]%lookup_take_Some. by apply (reconcilers_stageOK r). }
  rewrite length_take in Hl, Hs.
  replace (k `min` length (reconcilers r)) with k in Hl, Hs by (simpl; lia).
  exists l. split_and!; try done.
  eapply Forall_impl; [exact Hl|]. intros c [? ?]. split; [lia|done].
Qed.

(** A pass in which stage [k] is the first to fail. *)
Lemma Reconcile_failing_stage r req w worker k e :
  nextFault w = None →
  mgmt w !! requestKey req = Some (RWorker worker) →
  failsFirst (reconcilers r) worker (logCall (CGet Mgmt (requestKey req)) w) k e →
  Reconcile r req w
  = ((emptyResult, Some (stageFailure e)),
     worldAfter (take (S k) (reconcilers r)) worker
       (logCall (CGet Mgmt (requestKey req)) w))
  ∧ (∃ l, newCalls w (snd (Reconcile r req w)) = CGet Mgmt (requestKey req) :: l
          ∧ Forall (λ c, (1 ≤ callStage c < 8)%nat ∧ isUpdate c = false) l
          ∧ stagesOf l = seq 1 (S k))
  ∧ mgmt (snd (Reconcile r req w)) !! requestKey req = mgmt w !! requestKey req.
Proof.
  intros Hf Hw Hfail.
  assert (k < 7)%nat as Hk.
  { destruct Hfail as [Hk _]. unfold stageResult in Hk.
    destruct (reconcilers r !! k) eqn:Hlk; [|done].
    apply lookup_lt_Some in Hlk. simpl in Hlk. lia. }
  rewrite (Reconcile_fetched r req w worker Hf Hw).
  rewrite (runReconcilers_first_failure _ _ _ _ _ Hfail).
  destruct (reconcilers_take_trace r (S k) worker
              (logCall (CGet Mgmt (requestKey req)) w) ltac:(lia))
    as (l & Hc & Hl & Hs & _ & Hm).
  split_and!; [done| |apply Hm].
  exists l. split_and!; try done.
  apply newCalls_app. cbn [snd]. rewrite Hc. simpl. by rewrite <- app_assoc.
Qed.

(** A pass in which every stage succeeds. *)
Lemma Reconcile_succeeding_stages r req w worker :
  nextFault w = None →
  mgmt w !! requestKey req = Some (RWorker worker) →
  allSucceed (reconcilers r) worker (logCall (CGet Mgmt (requestKey req)) w) →
  Reconcile r req w
  = ((emptyResult,
      fst (deferredStatusUpdate (reconciledWorker (clock w) worker) None
             (worldAfter (reconcilers r) worker
                (logCall (CGet Mgmt (requestKey req)) w)))),
     snd (deferredStatusUpdate (reconciledWorker (clock w) worker) None
            (worldAfter (reconcilers r) worker
               (logCall (CGet Mgmt (requestKey req)) w))))
  ∧ ∃ l, newCalls w (snd (Reconcile r req w))
         = (CGet Mgmt (requestKey req) :: l)
           ++ [CStatusUpdate (reconciledWorker (clock w) worker)]
         ∧ Forall (λ c, (1 ≤ callStage c < 8)%nat ∧ isUpdate c = false) l
         ∧ stagesOf l = seq 1 7.
Proof.
  intros Hf Hw Hall.
  rewrite (Reconcile_fetched r req w worker Hf Hw).
  rewrite (runReconcilers_all_succeed _ _ _ Hall).
  destruct (reconcilers_take_trace r 7 worker
              (logCall (CGet Mgmt (requestKey req)) w) ltac:(lia))
    as (l & Hc & Hl & Hs & Hcl & _).
  change (take 7 (reconcilers r)) with (reconcilers r) in Hc, Hcl.
  rewrite Hcl. simpl clock. fold (reconciledWorker (clock w) worker).
  split; [by destruct (deferredStatusUpdate _ _ _)|].
  exists l. split_and!; try done.
  apply newCalls_app.
  destruct (deferredStatusUpdate _ None _) as [reterr w3] eqn:Hd. simpl snd.
  replace w3 with (snd (deferredStatusUpdate (reconciledWorker (clock w) worker) None
                          (worldAfter (reconcilers r) worker
                             (logCall (CGet Mgmt (requestKey req)) w))))
    by (by rewrite Hd).
  rewrite deferredStatusUpdate_calls, Hc. simpl. by rewrite <- !app_assoc.
Qed.

(** C3, a counterexample. In [faultyWorld] the Worker exists and the first
    stage fails. The pass returns the error of that stage, and no status
    update is among its calls. *)
Lemma stage_error_skips_status_update :
  mgmt faultyWorld !! requestKey alphaRequest = Some (RWorker alpha)
  ∧ snd (fst (Reconcile exampleReconciler alphaRequest faultyWorld))
    = Some (stageFailure (EWrap "failed to create/update cluster"
                            (EApi "connection refused")))
  ∧ statusUpdates faultyWorld
      (snd (Reconcile exampleReconciler alphaRequest faultyWorld)) = 0.
Proof. split_and!; vm_compute; reflexivity. Qed.

(** C3, amended. In a pass that fetched the Worker the status update is
    deferred only once all stages have succeeded. When a stage returns an
    error (the first to do so, run after the stages before it), the pass
    returns that error, wrapped, no status update is executed and the
    stored Worker is as before. When all stages succeed, the status update
    is executed exactly once, and the pass returns its error, if it has
    one. One of the two is the case. The deferred function never replaces
    an error that is already set, and with none set it returns the error of
    the status update, if there is one. *)
Theorem status_update_only_after_stages
    (r : WorkerReconciler) (req : Request) (w : World) (worker : Worker) :
  nextFault w = None →
  mgmt w !! requestKey req = Some (RWorker worker) →
  (∀ k e,
     failsFirst (reconcilers r) worker (logCall (CGet Mgmt (requestKey req)) w) k e →
     snd (fst (Reconcile r req w)) = Some (stageFailure e)
     ∧ statusUpdates w (snd (Reconcile r req w)) = 0
     ∧ mgmt (snd (Reconcile r req w)) !! requestKey req = mgmt w !! requestKey req)
  ∧ (allSucceed (reconcilers r) worker (logCall (CGet Mgmt (requestKey req)) w) →
     statusUpdates w (snd (Reconcile r req w)) = 1
     ∧ snd (fst (Reconcile r req w))
       = match fst (Status_Update (reconciledWorker (clock w) worker)
                      (worldAfter (reconcilers r) worker
                         (logCall (CGet Mgmt (requestKey req)) w))) with
         | inl e => Some e
         | inr _ => None
         end)
  ∧ (allSucceed (reconcilers r) worker (logCall (CGet Mgmt (requestKey req)) w)
     ∨ ∃ k e, failsFirst (reconcilers r) worker
                (logCall (CGet Mgmt (requestKey req)) w) k e)
  ∧ (∀ wk e w0, fst (deferredStatusUpdate wk (Some e) w0) = Some e)
  ∧ (∀ wk w0, fst (deferredStatusUpdate wk None w0)
              = match fst (Status_Update wk w0) with
                | inl e => Some e
                | inr _ => None
                end).
Proof.
  intros Hf Hw. split_and!.
  - intros k e Hfail.
    destruct (Reconcile_failing_stage r req w worker k e Hf Hw Hfail)
      as (Heq & (l & Hcalls & Hl & _) & Hm).
    split_and!; [by rewrite Heq| |done].
    unfold statusUpdates. rewrite Hcalls. simpl.
    by rewrite (filter_isStatusUpdate_stages l Hl).
  - intros Hall.
    destruct (Reconcile_succeeding_stages r req w worker Hf Hw Hall)
      as (Heq & l & Hcalls & Hl & _).
    split.
    + unfold statusUpdates. rewrite Hcalls. simpl.
      by rewrite List.filter_app, (filter_isStatusUpdate_stages l Hl).
    + rewrite Heq. unfold deferredStatusUpdate.
      by destruct (Status_Update _ _) as [[] ?].
  - apply stages_succeed_or_fail.
  - intros wk e w0. unfold deferredStatusUpdate.
    by destruct (Status_Update wk w0) as [[] ?].
  - intros wk w0. unfold deferredStatusUpdate.
    by destruct (Status_Update wk w0) as [[] ?].
Qed.

(** The world in which the first stage fails. *)
Lemma status_update_only_after_stages_witness :
  nextFault faultyWorld = None
  ∧ mgmt faultyWorld !! requestKey alphaRequest = Some (RWorker alpha)
  ∧ failsFirst (reconcilers exampleReconciler) alpha
      (logCall (CGet Mgmt (requestKey alphaRequest)) faultyWorld) 0
      (EWrap "failed to create/update cluster" (EApi "connection refused"))
  ∧ snd (fst (Reconcile exampleReconciler alphaRequest faultyWorld))
    = Some (stageFailure (EWrap "failed to create/update cluster"
                            (EApi "connection refused")))
  ∧ statusUpdates faultyWorld
      (snd (Reconcile exampleReconciler alphaRequest faultyWorld)) = 0
  ∧ mgmt (snd (Reconcile exampleReconciler alphaRequest faultyWorld))
      !! requestKey alphaRequest
    = mgmt faultyWorld !! requestKey alphaRequest.
Proof.
  assert (nextFault faultyWorld = None) as Hf by reflexivity.
  assert (mgmt faultyWorld !! requestKey alphaRequest = Some (RWorker alpha)) as Hw
    by (vm_compute; reflexivity).
  assert (failsFirst (reconcilers exampleReconciler) alpha
            (logCall (CGet Mgmt (requestKey alphaRequest)) faultyWorld) 0
            (EWrap "failed to create/update cluster" (EApi "connection refused")))
    as Hfail by (split; [vm_compute; reflexivity|intros i Hi; lia]).
  split; [exact Hf|]. split; [exact Hw|]. split; [exact Hfail|].
  exact (proj1 (status_update_only_after_stages exampleReconciler alphaRequest
                  faultyWorld alpha Hf Hw) _ _ Hfail).
Defined.

(** C5. In a pass that fetched the Worker the steps make their calls in the
    fixed order: the fetch (0), Cluster (1), KubeadmConfigTemplate (2),
    KubeadmControlPlane (3), AzureMachineTemplate (4), MachineDeployment
    (5), AzureCluster (6), the remote bootstrap phase (7), the status update
    (8). When stage [k] of the list is the first to return an error, [e],
    the pass ends there: the world it leaves is the one that stage left, so
    no later stage has run and nothing else is recorded, the steps that ran
    are exactly 0 to [k + 1], the stored Worker is as before, and the pass
    returns [e] wrapped as a stage failure. When every stage returns nil,
    all nine steps ran, in order, and the world is the one the status
    update left after the last stage. One of the two is the case. *)
Theorem Reconcile_stages_in_order
    (r : WorkerReconciler) (req : Request) (w : World) (worker : Worker) :
  nextFault w = None →
  mgmt w !! requestKey req = Some (RWorker worker) →
  (∀ k e,
     failsFirst (reconcilers r) worker (logCall (CGet Mgmt (requestKey req)) w) k e →
     Reconcile r req w
     = ((emptyResult, Some (stageFailure e)),
        worldAfter (take (S k) (reconcilers r)) worker
          (logCall (CGet Mgmt (requestKey req)) w))
     ∧ stagesOf (newCalls w (snd (Reconcile r req w))) = seq 0 (S (S k))
     ∧ mgmt (snd (Reconcile r req w)) !! requestKey req = mgmt w !! requestKey req)
  ∧ (allSucceed (reconcilers r) worker (logCall (CGet Mgmt (requestKey req)) w) →
     stagesOf (newCalls w (snd (Reconcile r req w))) = [0; 1; 2; 3; 4; 5; 6; 7; 8]
     ∧ snd (Reconcile r req w)
       = snd (Status_Update (reconciledWorker (clock w) worker)
                (worldAfter (reconcilers r) worker
                   (logCall (CGet Mgmt (requestKey req)) w))))
  ∧ (allSucceed (reconcilers r) worker (logCall (CGet Mgmt (requestKey req)) w)
     ∨ ∃ k e, (k < 7)%nat
              ∧ failsFirst (reconcilers r) worker
                  (logCall (CGet Mgmt (requestKey req)) w) k e).
Proof.
  intros Hf Hw. split_and!.
  - intros k e Hfail.
    destruct (Reconcile_failing_stage r req w worker k e Hf Hw Hfail)
      as (Heq & (l & Hcalls & Hl & Hs) & Hm).
    split_and!; [done| |done].
    rewrite Hcalls, stagesOf_fetch, Hs; [done|]. by apply stages_not_fetch.
  - intros Hall.
    destruct (Reconcile_succeeding_stages r req w worker Hf Hw Hall)
      as (Heq & l & Hcalls & Hl & Hs).
    split.
    + rewrite Hcalls.
      change ((CGet Mgmt (requestKey req) :: l) ++ ?x)
        with (CGet Mgmt (requestKey req) :: (l ++ x)).
      rewrite stagesOf_fetch, stagesOf_status, Hs; [done..|].
      apply Forall_app. split; [by apply stages_not_fetch|by repeat constructor].
    + rewrite Heq. unfold deferredStatusUpdate.
      by destruct (Status_Update _ _) as [[] ?].
  - destruct (stages_succeed_or_fail (reconcilers r) worker
                (logCall (CGet Mgmt (requestKey req)) w)) as [?|(k & e & Hfail)];
      [by left|right].
    exists k, e. split; [|done].
    destruct Hfail as [Hk _]. unfold stageResult in Hk.
    destruct (reconcilers r !! k) eqn:Hlk; [|done].
    apply lookup_lt_Some in Hlk. simpl in Hlk. lia.
Qed.

(** The world in which the first stage fails. *)
Lemma Reconcile_stages_in_order_witness :
  nextFault faultyWorld = None
  ∧ mgmt faultyWorld !! requestKey alphaRequest = Some (RWorker alpha)
  ∧ failsFirst (reconcilers exampleReconciler) alpha
      (logCall (CGet Mgmt (requestKey alphaRequest)) faultyWorld) 0
      (EWrap "failed to create/update cluster" (EApi "connection refused"))
  ∧ Reconcile exampleReconciler alphaRequest faultyWorld
    = ((emptyResult,
        Some (stageFailure (EWrap "failed to create/update cluster"
                              (EApi "connection refused")))),
       worldAfter (take 1 (reconcilers exampleReconciler)) alpha
         (logCall (CGet Mgmt (requestKey alphaRequest)) faultyWorld))
  ∧ stagesOf (newCalls faultyWorld
                (snd (Reconcile exampleReconciler alphaRequest faultyWorld)))
    = [0; 1]
  ∧ mgmt (snd (Reconcile exampleReconciler alphaRequest faultyWorld))
      !! requestKey alphaRequest
    = mgmt faultyWorld !! requestKey alphaRequest.
Proof.
  assert (nextFault faultyWorld = None) as Hf by reflexivity.
  assert (mgmt faultyWorld !! requestKey alphaRequest = Some (RWorker alpha)) as Hw
    by (vm_compute; reflexivity).
  assert (failsFirst (reconcilers exampleReconciler) alpha
            (logCall (CGet Mgmt (requestKey alphaRequest)) faultyWorld) 0
            (EWrap "failed to create/update cluster" (EApi "connection refused")))
    as Hfail by (split; [vm_compute; reflexivity|intros i Hi; lia]).
  split; [exact Hf|]. split; [exact Hw|]. split; [exact Hfail|].
  exact (proj1 (Reconcile_stages_in_order exampleReconciler alphaRequest
                  faultyWorld alpha Hf Hw) _ _ Hfail).
Defined.

Lemma reconciledWorker_key now worker :
  objectKey (reconciledWorker now worker) = objectKey worker.
Proof. unfold reconciledWorker, initCapacity. by destruct (st_AvailableCapacity _). Qed.

(** C6. In a pass over a stored Worker in which every stage succeeds, the
    Worker handed to the status update, which is the last call of the pass,
    has phase Running; if its available capacity had never been set, it is
    now the declared capacity and the last scheduled time is the time of the
    pass; if it had been set, it and the last scheduled time are as they
    were. Metadata and spec are untouched, and when the pass returns no
    error this Worker is the stored one. *)
Theorem Reconcile_capacity_initialization
    (r : WorkerReconciler) (req : Request) (w : World) (worker : Worker) :
  nextFault w = None →
  mgmt w !! requestKey req = Some (RWorker worker) →
  objectKey worker = requestKey req →
  fst (runReconcilers (reconcilers r) worker
         (logCall (CGet Mgmt (requestKey req)) w)) = inr () →
  ∃ worker',
    last (newCalls w (snd (Reconcile r req w))) = Some (CStatusUpdate worker')
    ∧ wk_meta worker' = wk_meta worker
    ∧ wk_Spec worker' = wk_Spec worker
    ∧ st_Phase (wk_Status worker') = WorkerRunning
    ∧ match st_AvailableCapacity (wk_Status worker) with
      | None =>
        st_AvailableCapacity (wk_Status worker') = Some (ws_Capacity (wk_Spec worker))
        ∧ st_LastScheduledTime (wk_Status worker') = clock w
      | Some c =>
        st_AvailableCapacity (wk_Status worker') = Some c
        ∧ st_LastScheduledTime (wk_Status worker')
          = st_LastScheduledTime (wk_Status worker)
      end
    ∧ (snd (fst (Reconcile r req w)) = None →
       mgmt (snd (Reconcile r req w)) !! requestKey req = Some (RWorker worker')).
Proof.
  intros Hf Hw Hkey Hok.
  destruct (Reconcile_pass r req w worker Hf Hw)
    as (res & w2 & l & Hrun & Hc & _ & _ & Hm & Hres).
  rewrite Hrun in Hok. simpl in Hok. subst res.
  destruct Hres as [_ ->]. simpl fst. simpl snd.
  exists (reconciledWorker (clock w) worker). split_and!.
  - erewrite newCalls_app.
    2:{ rewrite deferredStatusUpdate_calls, Hc, <- app_assoc. reflexivity. }
    by rewrite last_snoc.
  - unfold reconciledWorker, initCapacity.
    by destruct (st_AvailableCapacity _).
  - unfold reconciledWorker, initCapacity.
    by destruct (st_AvailableCapacity _).
  - done.
  - unfold reconciledWorker, initCapacity. simpl.
    destruct (st_AvailableCapacity (wk_Status worker)) eqn:Hcap; simpl;
      by rewrite ?Hcap.
  - assert (mgmt w2 !! requestKey req = Some (RWorker worker)) as Hw2.
    { unfold requestKey. rewrite Hm. exact Hw. }
    unfold deferredStatusUpdate. rewrite Status_Update_eq. cbv zeta.
    destruct (nextFault w2); [done|].
    rewrite reconciledWorker_key, Hkey, !Hw2.
    intros _. simpl snd. simpl mgmt. rewrite lookup_insert_eq.
    unfold reconciledWorker, initCapacity. simpl.
    by destruct worker as [? ? [? [] ?]].
Qed.

(** The fresh world: the first pass sets the capacity to 10 at time 1000. *)
Lemma Reconcile_capacity_initialization_witness :
  nextFault freshWorld = None
  ∧ mgmt freshWorld !! requestKey alphaRequest = Some (RWorker alpha)
  ∧ objectKey alpha = requestKey alphaRequest
  ∧ fst (runReconcilers (reconcilers exampleReconciler) alpha
           (logCall (CGet Mgmt (requestKey alphaRequest)) freshWorld)) = inr ()
  ∧ ∃ worker',
      last (newCalls freshWorld
              (snd (Reconcile exampleReconciler alphaRequest freshWorld)))
      = Some (CStatusUpdate worker')
      ∧ st_Phase (wk_Status worker') = WorkerRunning
      ∧ st_AvailableCapacity (wk_Status worker') = Some 10%Z
      ∧ st_LastScheduledTime (wk_Status worker') = 1000%Z.
Proof.
  assert (nextFault freshWorld = None) as Hf by reflexivity.
  assert (mgmt freshWorld !! requestKey alphaRequest = Some (RWorker alpha)) as Hw
    by (vm_compute; reflexivity).
  assert (objectKey alpha = requestKey alphaRequest) as Hkey by reflexivity.
  assert (fst (runReconcilers (reconcilers exampleReconciler) alpha
                 (logCall (CGet Mgmt (requestKey alphaRequest)) freshWorld))
          = inr ()) as Hok by (vm_compute; reflexivity).
  split_and!; [exact Hf|exact Hw|exact Hkey|exact Hok|].
  destruct (Reconcile_capacity_initialization exampleReconciler alphaRequest
              freshWorld alpha Hf Hw Hkey Hok)
    as (worker' & Hlast & _ & _ & Hphase & [Hcap Htime] & _).
  exists worker'. by split_and!.
Defined.

(** A second pass: the Worker that the first pass stored has its capacity
    set, and another pass that succeeds leaves it and the time alone. *)
Example second_pass_keeps_capacity :
  let w1 := snd (Reconcile exampleReconciler alphaRequest freshWorld) in
  let w1' := {| mgmt := mgmt w1; remote := remote w1; calls := calls w1;
                script := script w1; clock := 2000%Z;
                manifests := manifests w1 |} in
  snd (fst (Reconcile exampleReconciler alphaRequest w1')) = None
  ∧ ∃ worker', mgmt (snd (Reconcile exampleReconciler alphaRequest w1'))
                 !! requestKey alphaRequest = Some (RWorker worker')
               ∧ st_AvailableCapacity (wk_Status worker') = Some 10%Z
               ∧ st_LastScheduledTime (wk_Status worker') = 1000%Z.
Proof.
  split; [vm_compute; reflexivity|].
  eexists. split_and!; vm_compute; reflexivity.
Qed.

(** No pass ever sends an update of an object: the stages only look their
    objects up and create the ones that are missing. *)
Lemma Reconcile_never_updates r req w :
  Forall (λ c, isUpdate c = false) (newCalls w (snd (Reconcile r req w))).
Proof.
  destruct (client_Get Worker Mgmt (req_Namespace req) (req_Name req) w)
    as [[err|worker] w1] eqn:Hget.
  - unfold Reconcile. rewrite Hget. simpl snd.
    rewrite client_Get_eq in Hget. injection Hget as _ <-.
    rewrite (newCalls_app _ _ [CGet Mgmt (requestKey req)]) by done.
    by repeat constructor.
  - assert (nextFault w = None ∧ mgmt w !! requestKey req = Some (RWorker worker))
      as [Hf Hw].
    { rewrite client_Get_eq in Hget. revert Hget.
      change (store Mgmt w) with (mgmt w).
      change (kindOf Worker, req_Namespace req, req_Name req) with (requestKey req).
      destruct (nextFault w); [by intros [=]|].
      destruct (mgmt w !! requestKey req) as [[]|]; try by intros [=].
      by intros [= -> _]. }
    destruct (Reconcile_pass r req w worker Hf Hw)
      as (res & w2 & l & _ & Hc & Hl & _ & _ & Hres).
    assert (Forall (λ c, isUpdate c = false) l) as Hl'.
    { eapply Forall_impl; [exact Hl|]. by intros c [_ ?]. }
    destruct res as [err|[]].
    + destruct Hres as [-> _]. simpl snd. rewrite (newCalls_app _ _ _ Hc).
      by constructor.
    + destruct Hres as [_ ->]. simpl snd.
      erewrite newCalls_app.
      2:{ rewrite deferredStatusUpdate_calls, Hc, <- app_assoc. reflexivity. }
      constructor; [done|]. apply Forall_app. split; [done|by repeat constructor].
Qed.

(** Where the Cluster object exists, [reconcileCluster] leaves both stores
    as they are, whatever the stored object is. *)
Lemma reconcileCluster_leaves_existing r worker w live :
  mgmt w !! (KCluster, Namespace (wk_meta worker), Name (wk_meta worker)) = Some live →
  mgmt (snd (reconcileCluster r worker w)) = mgmt w
  ∧ remote (snd (reconcileCluster r worker w)) = remote w.
Proof.
  intros Hlive.
  by rewrite (Ensured_existing Mgmt _ _ w _ live Hlive
                (reconcileCluster_Ensured r worker w)).
Qed.

(** The AzureCluster object that [reconcileAzureCluster] sends never has an
    owner reference. *)
Lemma reconcileAzureCluster_sends_no_owner r worker w i p o :
  newCalls w (snd (reconcileAzureCluster r worker w)) !! i
  = Some (CCreate p (RAzureCluster o)) →
  OwnerReferences (azc_meta o) = [].
Proof.
  intros Hi.
  destruct (reconcileAzureCluster_Ensured r worker w);
    [erewrite (newCalls_app _ _ [_]) in Hi by done
    |erewrite (newCalls_app _ _ [_; _]) in Hi
       by (simpl; rewrite <- app_assoc; done)..].
  - by destruct i as [|[]].
  - destruct i as [|[|[]]]; try done. by injection Hi as _ <-.
  - destruct i as [|[|[]]]; try done. by injection Hi as _ <-.
Qed.

(** * Further properties of the controller *)

(** ** The convergence call, with its result *)

Lemma CreateOrUpdate_Outcome {T} `{Object T} c obj (f : MutateFn T) m o w res w' :
  load obj m = inr o →
  keepsCell obj m f →
  CreateOrUpdate c obj f m w = (res, w') →
  Outcome c (objectKey o) (toResource o) w (succeeded res) w'.
Proof.
  intros Hload Hf. unfold CreateOrUpdate. unfold_M. rewrite Hload.
  rewrite client_Get_eq. fold (objectKey o).
  destruct (nextFault w) as [msg|] eqn:Hfault; simpl.
  { intros [= <- <-]. constructor. }
  destruct (store c w !! _) as [r|] eqn:Hget in |- *; simpl.
  - destruct (ofResource r) as [live|]; simpl.
    2:{ intros [= <- <-]. constructor. }
    unfold mutate.
    destruct (f (storeAt obj live m)) as [e|m2] eqn:Hfm; simpl.
    { intros [= <- <-]. constructor. }
    assert (heap m2 !! obj = Some live) as Hcell.
    { rewrite (Hf _ _ (sameShape_storeAt m obj live) Hfm). simpl.
      apply list_lookup_insert_eq. apply load_Some in Hload.
      by eapply lookup_lt_Some. }
    unfold load. rewrite Hcell.
    destruct (decide (objectKey live = objectKey o)); simpl.
    2:{ intros [= <- <-]. constructor. }
    rewrite Hcell. rewrite decide_True by done.
    intros [= <- <-]. by eapply Outcome_found.
  - unfold mutate.
    destruct (f m) as [e|m1] eqn:Hfm; simpl.
    { intros [= <- <-]. constructor. }
    assert (heap m1 !! obj = Some o) as Hcell.
    { rewrite (Hf _ _ (sameShape_refl m) Hfm). by apply load_Some. }
    unfold load. rewrite Hcell. rewrite decide_True by done. simpl.
    rewrite Hcell, client_Create_eq. cbv zeta.
    rewrite !store_logCall, Hget.
    destruct (nextFault (logCall _ w)); intros [= <- <-].
    + by apply Outcome_create_failed.
    + by apply Outcome_created.
Qed.

(** The shape all six stages share, with its result. *)
Lemma ensure_Outcome {T} `{Object T} msg (f : MutateFn T) (t : T) w :
  keepsCell 0 (newMem t) f →
  Outcome Mgmt (objectKey t) (toResource t) w
    (succeeded (fst ((wrapErr msg (CreateOrUpdate Mgmt (p_template (newMem t)) f (newMem t)) ;;
                      mret ()) w)))
    (snd ((wrapErr msg (CreateOrUpdate Mgmt (p_template (newMem t)) f (newMem t)) ;;
           mret ()) w)).
Proof.
  intros Hf. unfold_M.
  destruct (CreateOrUpdate _ _ _ _ w) as [res w'] eqn:Hcou.
  eapply CreateOrUpdate_Outcome in Hcou; [|apply newMem_load|exact Hf].
  by destruct res.
Qed.

Lemma desired_eq r worker :
  ∃ t cp,
    getKubeadmConfigTemplate (Name (wk_meta worker)) (ws_Location (wk_Spec worker))
      (AzureSettings r) = inr t
    ∧ Name (kct_meta t) = Name (wk_meta worker)
    ∧ getKubeadmControlPlane (Name (wk_meta worker)) (ws_Location (wk_Spec worker))
        (AzureSettings r) = inr cp
    ∧ Name (kcp_meta cp) = Name (wk_meta worker)
    ∧ desired r worker
      = [ RCluster (setNamespace (Namespace (wk_meta worker))
                      (getCluster (Name (wk_meta worker))
                         (ws_Location (wk_Spec worker)) (AzureSettings r)));
          RKubeadmConfigTemplate (setNamespace (Namespace (wk_meta worker)) t);
          RKubeadmControlPlane (setNamespace (Namespace (wk_meta worker)) cp);
          RAzureMachineTemplate
            (setNamespace (Namespace (wk_meta worker))
               (getMachineTemplate (Name (wk_meta worker))
                  (ws_Location (wk_Spec worker))));
          RMachineDeployment
            (setNamespace (Namespace (wk_meta worker)) (getMachineDeployment worker));
          RAzureCluster
            (setNamespace (Namespace (wk_meta worker))
               (getAzureCluster (Name (wk_meta worker))
                  (ws_Location (wk_Spec worker)))) ].
Proof.
  destruct (getKubeadmConfigTemplate_ok (Name (wk_meta worker))
              (ws_Location (wk_Spec worker)) (AzureSettings r)) as (t & Ht & Hnt & _).
  destruct (getKubeadmControlPlane_ok (Name (wk_meta worker))
              (ws_Location (wk_Spec worker)) (AzureSettings r)) as (cp & Hcp & Hncp & _).
  exists t, cp. split_and!; try done.
  unfold desired. by rewrite Ht, Hcp.
Qed.

(** The kinds of the six stages, in the order of [reconcilers]. *)
Lemma desired_keys r worker i o :
  desired r worker !! i = Some o →
  resourceKey o
  = (fst (fst (resourceKey o)), Namespace (wk_meta worker), Name (wk_meta worker))
  ∧ [KCluster; KKubeadmConfigTemplate; KKubeadmControlPlane;
     KAzureMachineTemplate; KMachineDeployment; KAzureCluster] !! i
    = Some (fst (fst (resourceKey o))).
Proof.
  destruct (desired_eq r worker) as (t & cp & _ & Hnt & _ & Hncp & ->).
  destruct i as [|[|[|[|[|[|i]]]]]]; simpl; [intros [= <-]..|by destruct i];
    simpl; unfold objectKey; simpl; by rewrite ?Hnt, ?Hncp.
Qed.

Lemma desired_kind r worker o :
  o ∈ desired r worker →
  fst (fst (resourceKey o)) ≠ KWorker ∧ fst (fst (resourceKey o)) ≠ KSecret
  ∧ snd (fst (resourceKey o)) = Namespace (wk_meta worker)
  ∧ snd (resourceKey o) = Name (wk_meta worker).
Proof.
  intros [i Hi]%list_elem_of_lookup.
  destruct (desired_keys r worker i o Hi) as [Hk Hkind].
  rewrite Hk. simpl.
  destruct i as [|[|[|[|[|[|i]]]]]]; simpl in Hkind; [..|done];
    injection Hkind as <-; done.
Qed.

(** Each of the six stages is a convergence call for its entry of
    [desired]. *)
Lemma stage_Outcome r worker i f o w :
  reconcilers r !! i = Some f →
  desired r worker !! i = Some o →
  Outcome Mgmt (resourceKey o) o w
    (succeeded (fst (f worker w))) (snd (f worker w)).
Proof.
  destruct (desired_eq r worker) as (t & cp & Ht & Hnt & Hcp & Hncp & ->).
  destruct i as [|[|[|[|[|[|i]]]]]]; simpl;
    [intros [= <-] [= <-]..|intros _ Hd; by destruct i].
  - exact (ensure_Outcome _ rebind _ w (rebind_keepsCell _ _)).
  - unfold reconcileKubeadmConfigTemplate. rewrite Ht.
    exact (ensure_Outcome _ rebind _ w (rebind_keepsCell _ _)).
  - unfold reconcileKubeadmControlPlane. rewrite Hcp.
    exact (ensure_Outcome _ rebind _ w (rebind_keepsCell _ _)).
  - exact (ensure_Outcome _ rebind _ w (rebind_keepsCell _ _)).
  - exact (ensure_Outcome _ rebind _ w (rebind_keepsCell _ _)).
  - exact (ensure_Outcome _ (bindOwner r worker) _ w (bindOwner_keepsCell _ _ _)).
Qed.

Lemma Outcome_manifests c k o w ok w' :
  Outcome c k o w ok w' → manifests w' = manifests w.
Proof. intros []; by destruct c. Qed.

Lemma Outcome_remote k o w ok w' :
  Outcome Remote k o w ok w' →
  mgmt w' = mgmt w
  ∧ (remote w' = remote w ∨ (remote w !! k = None ∧ remote w' = <[k := o]> (remote w)))
  ∧ (ok = true → is_Some (remote w' !! k))
  ∧ ∃ l, calls w' = calls w ++ l
         ∧ Forall (λ x, x = CGet Remote k ∨ x = CCreate Remote o) l
         ∧ (is_Some (remote w !! k) → remote w' = remote w ∧ l = [CGet Remote k]).
Proof.
  intros []; simpl.
  - split_and!; [done|by left|done|]. exists [CGet Remote k].
    split_and!; [done|by repeat constructor; left|done].
  - split_and!; [done|by left|done|]. exists [CGet Remote k].
    split_and!; [done|by repeat constructor; left|done].
  - split_and!; [done|by left|done|]. exists [CGet Remote k; CCreate Remote o].
    split_and!; [by rewrite <- app_assoc| |].
    + apply Forall_cons_2; [by left|]. apply Forall_cons_2; [by right|done].
    + intros [? Hs]. simpl in *. congruence.
  - split_and!; [done|by right|intros _; by rewrite lookup_insert_eq|].
    exists [CGet Remote k; CCreate Remote o].
    split_and!; [by rewrite <- app_assoc| |].
    + apply Forall_cons_2; [by left|]. apply Forall_cons_2; [by right|done].
    + intros [? Hs]. simpl in *. congruence.
Qed.

Lemma is_Some_grown (s s' : gmap Key Resource) k k' o :
  is_Some (s !! k) →
  s' = s ∨ (s !! k' = None ∧ s' = <[k' := o]> s) →
  is_Some (s' !! k).
Proof.
  intros Hk [->|[_ ->]]; [done|].
  rewrite lookup_insert_is_Some. destruct (decide (k' = k)); auto.
Qed.

(** ** The remote bootstrap phase, in full *)

Lemma remote_created_chain (w : World) (s s1 s2 : gmap Key Resource) a :
  mgmt w !! credentialKey = Some (RSecret a) →
  s1 = s ∨ (s !! remoteNamespaceKey = None
            ∧ s1 = <[remoteNamespaceKey := RNamespace remoteNamespace]> s) →
  s2 = s1 ∨ (s1 !! credentialKey = None
             ∧ s2 = <[credentialKey := RSecret (newRemoteSecret a)]> s1) →
  ∀ k, s2 !! k = s !! k
       ∨ (s !! k = None
          ∧ ((k = remoteNamespaceKey ∧ s2 !! k = Some (RNamespace remoteNamespace))
             ∨ (k = credentialKey
                ∧ ∃ a, mgmt w !! credentialKey = Some (RSecret a)
                       ∧ s2 !! k = Some (RSecret (newRemoteSecret a))))).
Proof.
  intros Ha [->|[Hn ->]] [->|[Hc ->]] k; [by left|..].
  - destruct (decide (k = credentialKey)) as [->|Hk].
    + right. split; [done|]. right. split; [done|]. exists a.
      by rewrite lookup_insert_eq.
    + left. by rewrite lookup_insert_ne.
  - destruct (decide (k = remoteNamespaceKey)) as [->|Hk].
    + right. split; [done|]. left. by rewrite lookup_insert_eq.
    + left. by rewrite lookup_insert_ne.
  - rewrite lookup_insert_ne in Hc by done.
    destruct (decide (k = credentialKey)) as [->|Hk].
    + right. split; [done|]. right. split; [done|]. exists a.
      by rewrite lookup_insert_eq.
    + rewrite (lookup_insert_ne _ credentialKey) by done.
      destruct (decide (k = remoteNamespaceKey)) as [->|Hk'].
      * right. split; [done|]. left. by rewrite lookup_insert_eq.
      * left. by rewrite lookup_insert_ne.
Qed.

(** Everything the phase can do, on every path through it. *)
Lemma applyObjects_cons o objs s :
  applyObjects (o :: objs) s = applyObjects objs (<[resourceKey o := o]> s).
Proof. done. Qed.

(** What applying a manifest leaves under a key: the entry as it was, when
    no object of the manifest has the key, or else one of these objects,
    whatever was stored. *)
Lemma applyObjects_spec objs k :
  ((∀ o, o ∈ objs → resourceKey o ≠ k) ∧ ∀ s, applyObjects objs s !! k = s !! k)
  ∨ ∃ o, o ∈ objs ∧ resourceKey o = k ∧ ∀ s, applyObjects objs s !! k = Some o.
Proof.
  induction objs as [|o objs IH].
  - left. split; [|done]. intros o Ho. by apply elem_of_nil in Ho.
  - destruct IH as [[Hno Hsame]|(o' & Ho' & Hk & Hall)].
    + destruct (decide (resourceKey o = k)) as [Hk|Hk].
      * right. exists o. split; [by left|]. split; [done|]. intros s.
        rewrite applyObjects_cons, Hsame, <- Hk. apply lookup_insert_eq.
      * left. split.
        -- intros o1 [->|?]%elem_of_cons; auto.
        -- intros s. rewrite applyObjects_cons, Hsame. by apply lookup_insert_ne.
    + right. exists o'. split; [by right|]. split; [done|]. intros s.
      by rewrite applyObjects_cons.
Qed.

Lemma applyObjects_idem objs s :
  applyObjects objs (applyObjects objs s) = applyObjects objs s.
Proof.
  apply map_eq. intros k.
  destruct (applyObjects_spec objs k) as [[_ H]|(o & _ & _ & H)];
    [by rewrite H|by rewrite !H].
Qed.

Lemma applyObjects_is_Some objs s k :
  is_Some (s !! k) → is_Some (applyObjects objs s !! k).
Proof.
  destruct (applyObjects_spec objs k) as [[_ H]|(o & _ & _ & H)]; rewrite H;
    [done|by eexists].
Qed.

Lemma remoteFate_applied (w w5 wl : World) :
  manifests wl = manifests w →
  remote wl = applyObjects (manifestAt wl calicoURL) (remote w5) →
  (∀ k, remoteFate w w5 k) → ∀ k, remoteFate w wl k.
Proof.
  intros Hm Hr H5 k. unfold remoteFate, manifestAt in *. rewrite Hr, Hm.
  destruct (applyObjects_spec (default [] (manifests w !! calicoURL)) k)
    as [[_ H]|(o & Ho & Hk & H)]; rewrite H; [apply H5|].
  right. right. by exists o.
Qed.

Lemma reconcileExternal_summary r worker w res w' :
  reconcileExternal r worker w = (res, w') →
  PhaseSummary worker w res w'.
Proof.
  unfold reconcileExternal, remote_NewClient, remote_Apply. unfold_M.
  rewrite client_Get_eq. change (kindOf Secret) with KSecret.
  change (store Mgmt w) with (mgmt w).
  change (KSecret, azureKey_Namespace, azureKey_Name) with credentialKey.
  change (KSecret, Namespace (wk_meta worker),
          Sprintf_s (Name (wk_meta worker)) "-kubeconfig")
    with (kubeconfigKey worker).
  assert (∀ l : list Call,
            Forall (λ c, (∃ k, c = CGet Mgmt k) ∨ (∃ d, c = CNewClient d
                          ∧ ∃ ks, mgmt w !! kubeconfigKey worker = Some (RSecret ks)
                                  ∧ sec_Data ks !! KubeconfigDataName = Some d)) l →
            Forall (λ c, isCreate c = false ∧ isUpdate c = false) l
            ∧ Forall (λ c, ∀ data, c = CNewClient data →
                        ∃ ks, mgmt w !! kubeconfigKey worker = Some (RSecret ks)
                              ∧ sec_Data ks !! KubeconfigDataName = Some data) l
            ∧ Forall (λ c, ∀ s, c ≠ CCreate Remote (RSecret s)) l) as Hprefix.
  { intros l Hl. split_and!; (eapply Forall_impl; [exact Hl|]); simpl.
    - by intros c [[k ->]|(d & -> & _)].
    - intros c [[k ->]|(d & -> & Hd)] data; [done|]. by intros [= <-].
    - by intros c [[k ->]|(d & -> & _)] s. }
  assert (∀ k o (l : list Call),
            Forall (λ x, x = CGet Remote k ∨ x = CCreate Remote o) l →
            Forall (λ c, ∀ data, c = CNewClient data →
                      ∃ ks, mgmt w !! kubeconfigKey worker = Some (RSecret ks)
                            ∧ sec_Data ks !! KubeconfigDataName = Some data) l)
    as Hnonc.
  { intros k o l Hl. eapply Forall_impl; [exact Hl|]. simpl.
    by intros c [->| ->] data. }
  (* the early exits share one argument *)
  assert (∀ (l : list Call) e wl,
            calls wl = calls w ++ l → mgmt wl = mgmt w → remote wl = remote w →
            manifests wl = manifests w →
            Forall (λ c, (∃ k, c = CGet Mgmt k) ∨ (∃ d, c = CNewClient d
                          ∧ ∃ ks, mgmt w !! kubeconfigKey worker = Some (RSecret ks)
                                  ∧ sec_Data ks !! KubeconfigDataName = Some d)) l →
            (inl e, wl) = (res, w') →
            PhaseSummary worker w res w') as Hearly.
  { intros l e wl Hc Hm Hr Hmf Hl [= <- <-].
    destruct (Hprefix l Hl) as (H1 & H2 & H3).
    exists l. split_and!; try done.
    - intros k. left. by rewrite Hr.
    - by left. }
  destruct (nextFault w).
  { eapply (Hearly [_]); try done. apply Forall_cons_2; [left; by eexists|done]. }
  destruct (mgmt w !! credentialKey) as [rs|] eqn:Hcred.
  2:{ eapply (Hearly [_]); try done. apply Forall_cons_2; [left; by eexists|done]. }
  destruct rs as [| | | | | | |azureSecret| |]; simpl;
    try (eapply (Hearly [_]); try done;
         apply Forall_cons_2; [left; by eexists|done]).
  rewrite client_Get_eq. change (kindOf Secret) with KSecret.
  change (KSecret, Namespace (wk_meta worker),
          Sprintf_s (Name (wk_meta worker)) "-kubeconfig")
    with (kubeconfigKey worker).
  change (store Mgmt (logCall ?c w)) with (mgmt w).
  assert (∀ wl, calls wl = (calls w ++ [CGet Mgmt credentialKey])
                           ++ [CGet Mgmt (kubeconfigKey worker)] →
                calls wl = calls w ++ [CGet Mgmt credentialKey;
                                       CGet Mgmt (kubeconfigKey worker)]) as Hc2.
  { intros wl ->. by rewrite <- app_assoc. }
  assert (Forall (λ c, (∃ k, c = CGet Mgmt k) ∨ (∃ d, c = CNewClient d
                          ∧ ∃ ks, mgmt w !! kubeconfigKey worker = Some (RSecret ks)
                                  ∧ sec_Data ks !! KubeconfigDataName = Some d))
            [CGet Mgmt credentialKey; CGet Mgmt (kubeconfigKey worker)]) as Hl2.
  { apply Forall_cons_2; [left; by eexists|].
    apply Forall_cons_2; [left; by eexists|done]. }
  destruct (nextFault (logCall _ w)).
  { eapply (Hearly [_; _]); try done. by apply Hc2. }
  destruct (mgmt w !! kubeconfigKey worker) as [rk|] eqn:Hkc.
  2:{ eapply (Hearly [_; _]); try done. by apply Hc2. }
  destruct rk as [| | | | | | |kubeconfigSecret| |]; simpl;
    try (eapply (Hearly [_; _]); try done; by apply Hc2).
  try rewrite <- Hkc in Hprefix. try rewrite <- Hkc in Hnonc.
  try rewrite <- Hkc in Hearly. try rewrite <- Hkc in Hl2. try rewrite <- Hkc.
  destruct (sec_Data kubeconfigSecret !! KubeconfigDataName) as [data|] eqn:Hdata;
    simpl.
  2:{ eapply (Hearly [_; _]); try done. by apply Hc2. }
  rewrite apiCall_eq.
  set (w3 := logCall (CNewClient data) _).
  set (pre := [CGet Mgmt credentialKey; CGet Mgmt (kubeconfigKey worker);
               CNewClient data]).
  assert (calls w3 = calls w ++ pre) as Hc3.
  { subst w3 pre. simpl. by rewrite <- !app_assoc. }
  assert (mgmt w3 = mgmt w ∧ remote w3 = remote w ∧ manifests w3 = manifests w)
    as (Hm3 & Hr3 & Hf3) by done.
  assert (Forall (λ c, (∃ k, c = CGet Mgmt k) ∨ (∃ d, c = CNewClient d
                          ∧ ∃ ks, mgmt w !! kubeconfigKey worker = Some (RSecret ks)
                                  ∧ sec_Data ks !! KubeconfigDataName = Some d)) pre)
    as Hl3.
  { apply Forall_cons_2; [left; by eexists|].
    apply Forall_cons_2; [left; by eexists|].
    apply Forall_cons_2; [|done]. right. exists data. split; [done|].
    by exists kubeconfigSecret. }
  destruct (Hprefix pre Hl3) as (Hp1 & Hp2 & Hp3).
  destruct (nextFault (logCall _ (logCall _ w))).
  { by apply (Hearly pre). }
  (* the remote namespace *)
  destruct (CreateOrUpdate Remote 0 noMutation _ w3) as [res4 w4] eqn:Hcou4.
  eapply CreateOrUpdate_Outcome in Hcou4;
    [|reflexivity|apply noMutation_keepsCell].
  change (objectKey {| ns_meta := metaNamed azureKey_Namespace |})
    with remoteNamespaceKey in Hcou4.
  change (toResource {| ns_meta := metaNamed azureKey_Namespace |})
    with (RNamespace remoteNamespace) in Hcou4.
  pose proof (Outcome_manifests _ _ _ _ _ _ Hcou4) as Hf4.
  apply Outcome_remote in Hcou4 as (Hm4 & Hs4 & Hok4 & l4 & Hc4 & Hl4 & Hex4).
  rewrite Hr3 in Hs4, Hex4.
  assert (Forall (λ c, isCreate c = false ∧ isUpdate c = false)
            [CGet Remote remoteNamespaceKey]) as Hg4 by (by repeat constructor).
  assert (Forall (λ c, ∀ s, c ≠ CCreate Remote (RSecret s)) l4) as Hns4.
  { eapply Forall_impl; [exact Hl4|]. simpl. by intros c [->| ->] s. }
  destruct res4 as [e4|[op4 m4]]; simpl.
  { intros [= <- <-]. exists (pre ++ l4).
    split_and!.
    - by rewrite Hc4, Hc3, app_assoc.
    - by rewrite Hm4.
    - by rewrite Hf4.
    - intros k. unfold remoteFate.
      destruct (remote_created_chain w _ _ (remote w4) azureSecret Hcred Hs4
                  (or_introl eq_refl) k) as [?|?]; [by left|right; by left].
    - intros Hn _ _. destruct (Hex4 Hn) as [-> ->]. split; [done|].
      by apply Forall_app.
    - apply Forall_app. split; [done|]. by eapply Hnonc.
    - done.
    - left. by apply Forall_app. }
  specialize (Hok4 eq_refl).
  (* the remote secret *)
  destruct (CreateOrUpdate Remote _ rebind _ w4) as [res5 w5] eqn:Hcou5.
  eapply CreateOrUpdate_Outcome in Hcou5;
    [|apply newMem_load|apply rebind_keepsCell].
  change (objectKey (newRemoteSecret azureSecret)) with credentialKey in Hcou5.
  change (toResource (newRemoteSecret azureSecret))
    with (RSecret (newRemoteSecret azureSecret)) in Hcou5.
  pose proof (Outcome_manifests _ _ _ _ _ _ Hcou5) as Hf5.
  apply Outcome_remote in Hcou5 as (Hm5 & Hs5 & Hok5 & l5 & Hc5 & Hl5 & Hex5).
  assert (is_Some (remote w5 !! remoteNamespaceKey)) as Hn5
    by (by eapply is_Some_grown).
  assert (Forall (λ c, isCreate c = false ∧ isUpdate c = false)
            [CGet Remote credentialKey]) as Hg5 by (by repeat constructor).
  assert (is_Some (remote w !! remoteNamespaceKey) →
          is_Some (remote w !! credentialKey) →
          remote w5 = remote w
          ∧ Forall (λ c, isCreate c = false ∧ isUpdate c = false)
              (pre ++ l4 ++ l5)) as Hsame.
  { intros Hn Hc. destruct (Hex4 Hn) as [Hr4 ->].
    rewrite Hr4 in Hex5. destruct (Hex5 Hc) as [-> ->].
    split; [done|]. by rewrite !Forall_app. }
  assert (Forall (λ c, ∀ data, c = CNewClient data →
                    ∃ ks, mgmt w !! kubeconfigKey worker = Some (RSecret ks)
                          ∧ sec_Data ks !! KubeconfigDataName = Some data)
            (pre ++ l4 ++ l5)) as Hnc5.
  { rewrite !Forall_app. split_and!; [done|..];
      by eapply Hnonc. }
  assert (∀ k, remoteFate w w5 k) as Hfate5.
  { intros k. unfold remoteFate.
    destruct (remote_created_chain w _ _ (remote w5) azureSecret Hcred Hs4 Hs5 k)
      as [?|?]; [by left|right; by left]. }
  destruct res5 as [e5|[op5 m5]]; simpl.
  { intros [= <- <-]. exists (pre ++ l4 ++ l5).
    split_and!; try done.
    - by rewrite Hc5, Hc4, Hc3, !app_assoc.
    - by rewrite Hm5, Hm4.
    - by rewrite Hf5, Hf4.
    - intros Hn Hc _. by apply Hsame.
    - by right. }
  specialize (Hok5 eq_refl).
  rewrite apiCall_eq.
  assert (calls (logCall (CApply calicoURL) w5)
          = calls w ++ (pre ++ l4 ++ l5) ++ [CApply calicoURL]) as Hc6.
  { change (calls (logCall ?c w5)) with (calls w5 ++ [c]).
    by rewrite Hc5, Hc4, Hc3, <- !app_assoc. }
  assert (manifests w5 = manifests w) as Hf5' by (by rewrite Hf5, Hf4).
  destruct (nextFault w5).
  - (* the manifest is not applied *)
    intros [= <- <-]. exists ((pre ++ l4 ++ l5) ++ [CApply calicoURL]).
    split_and!; try done.
    + simpl. by rewrite Hm5, Hm4.
    + intros Hn Hc _. destruct (Hsame Hn Hc) as [Hr Hl]. split; [done|].
      apply Forall_app. split; [done|]. by repeat constructor.
    + apply Forall_app. split; [done|]. by repeat constructor.
    + by right.
  - (* it is *)
    unfold applyManifest. intros [= <- <-].
    exists ((pre ++ l4 ++ l5) ++ [CApply calicoURL]).
    split_and!; try done.
    + simpl. by rewrite Hm5, Hm4.
    + eapply (remoteFate_applied w w5); [exact Hf5'|reflexivity|exact Hfate5].
    + intros Hn Hc Happ. destruct (Hsame Hn Hc) as [Hr Hl]. split.
      * simpl. unfold manifestAt. simpl. rewrite Hf5', Hr. exact Happ.
      * apply Forall_app. split; [done|]. by repeat constructor.
    + apply Forall_app. split; [done|]. by repeat constructor.
    + intros _. split_and!.
      * by apply applyObjects_is_Some.
      * by apply applyObjects_is_Some.
      * unfold applied. simpl. apply applyObjects_idem.
      * exists azureSecret, kubeconfigSecret. by rewrite Hdata.
    + right. by apply applyObjects_is_Some.
Qed.

(** ** What the steps of a pass may write *)

Lemma workerKept_refl x : workerKept x x.
Proof. destruct x as [[]|]; simpl; eauto. Qed.

Lemma workerKept_trans x y z : workerKept x y → workerKept y z → workerKept x z.
Proof.
  destruct x as [[a|?|?|?|?|?|?|?|?|?]|]; simpl; try (by intros ->).
  intros (b & -> & Hm & Hs) (c & -> & Hm' & Hs'). exists c.
  split_and!; congruence.
Qed.

Lemma converged_same r worker wa wb :
  remote wb = remote wa →
  (∀ k, fst (fst k) ≠ KWorker → mgmt wb !! k = mgmt wa !! k) →
  converged r worker wa → converged r worker wb.
Proof.
  intros Hr Hm (Hd & Hn & Hc). split_and!; rewrite ?Hr; try done.
  apply Forall_forall. intros o Ho.
  rewrite Hm; [by eapply Forall_forall in Hd|].
  by destruct (desired_kind r worker o Ho).
Qed.

Lemma settled_same r worker wa wb :
  remote wb = remote wa →
  (∀ k, fst (fst k) ≠ KWorker → mgmt wb !! k = mgmt wa !! k) →
  manifests wb = manifests wa →
  settled r worker wa → settled r worker wb.
Proof.
  intros Hr Hm Hf [Hconv Happ]. split; [by eapply converged_same|].
  unfold applied, manifestAt in *. by rewrite Hf, Hr.
Qed.

Lemma remoteFate_trans wa wb wc k :
  mgmt wb !! credentialKey = mgmt wa !! credentialKey →
  manifests wb = manifests wa →
  remoteFate wa wb k → remoteFate wb wc k → remoteFate wa wc k.
Proof.
  intros Hcred Hf H1 H2. unfold remoteFate, manifestAt in *.
  rewrite Hcred, Hf in H2.
  destruct H1 as [E1|[(N1 & C1)|(o1 & Ho1 & Hk1 & S1)]],
           H2 as [E2|[(N2 & C2)|(o2 & Ho2 & Hk2 & S2)]].
  - left. congruence.
  - right. left. split; [congruence|done].
  - right. right. by exists o2.
  - right. left. split; [done|]. by rewrite E2.
  - destruct C1 as [[_ ?]|(_ & a & _ & ?)]; congruence.
  - right. right. by exists o2.
  - right. right. exists o1. split_and!; congruence.
  - congruence.
  - right. right. by exists o2.
Qed.

Lemma Related_refl r worker w : Related r worker w w.
Proof.
  split_and!; try by left.
  - intros. apply workerKept_refl.
  - intros _. split_and!; try done. exists []. by rewrite app_nil_r.
  - done.
Qed.

Lemma Related_credential r worker wa wb :
  Related r worker wa wb → mgmt wb !! credentialKey = mgmt wa !! credentialKey.
Proof.
  intros (HA & _). destruct (HA credentialKey) as [?|(_ & o & Ho & Hk & _)]; try done.
  destruct (desired_kind r worker o Ho) as (_ & Hs & _). by rewrite <- Hk in Hs.
Qed.

Lemma Related_trans r worker wa wb wc :
  Related r worker wa wb → Related r worker wb wc → Related r worker wa wc.
Proof.
  intros H1 H2. pose proof (Related_credential _ _ _ _ H1) as Hcred.
  destruct H1 as (HA1 & HB1 & HC1 & HD1 & HM1), H2 as (HA2 & HB2 & HC2 & HD2 & HM2).
  split_and!.
  - intros k Hk.
    destruct (HA1 k Hk) as [E1|(N1 & o1 & ? & ? & S1)],
             (HA2 k Hk) as [E2|(N2 & o2 & ? & ? & S2)].
    + left. congruence.
    + right. split; [congruence|]. by exists o2.
    + right. split; [done|]. exists o1. split_and!; congruence.
    + congruence.
  - intros k Hk. exact (workerKept_trans _ _ _ (HB1 k Hk) (HB2 k Hk)).
  - intros k. by eapply remoteFate_trans.
  - intros Hset. destruct (HD1 Hset) as (Hr1 & Hm1 & l1 & Hc1 & Hl1).
    destruct (HD2 (settled_same _ _ _ _ Hr1 Hm1 HM1 Hset))
      as (Hr2 & Hm2 & l2 & Hc2 & Hl2).
    split_and!.
    + congruence.
    + intros k Hk. by rewrite Hm2, Hm1.
    + exists (l1 ++ l2). split; [by rewrite Hc2, Hc1, app_assoc|].
      by apply Forall_app.
  - congruence.
Qed.

Lemma Related_logCall r worker c w :
  isCreate c = false → isUpdate c = false →
  Related r worker w (logCall c w).
Proof.
  intros Hc Hu. split_and!; try by left.
  - intros. apply workerKept_refl.
  - intros _. split_and!; try done. exists [c]. split; [done|].
    by repeat constructor.
  - done.
Qed.

Lemma Related_Outcome r worker o w ok w' :
  o ∈ desired r worker →
  Outcome Mgmt (resourceKey o) o w ok w' →
  Related r worker w w'.
Proof.
  intros Ho Hout. destruct (desired_kind r worker o Ho) as (Hkw & _).
  assert (Related r worker w (logCall (CGet Mgmt (resourceKey o)) w)) as Hget
    by (by apply Related_logCall).
  destruct Hout as [|live Hlive|Hnone|Hnone]; try done.
  - (* the create failed *)
    split_and!; try by left.
    + intros. apply workerKept_refl.
    + intros [(Hd & _) _]. eapply Forall_forall in Hd; [|exact Ho].
      simpl in Hnone. rewrite Hnone in Hd. by destruct Hd.
    + done.
  - (* created *)
    split_and!; simpl.
    + intros k Hk. destruct (decide (k = resourceKey o)) as [->|Hne].
      * right. split; [done|]. exists o. by rewrite lookup_insert_eq.
      * left. by rewrite lookup_insert_ne.
    + intros k Hk. rewrite lookup_insert_ne by congruence.
      apply workerKept_refl.
    + by left.
    + intros [(Hd & _) _]. eapply Forall_forall in Hd; [|exact Ho].
      simpl in Hnone. rewrite Hnone in Hd. by destruct Hd.
    + done.
Qed.

Lemma Related_reconcileExternal r worker w :
  Related r worker w (snd (reconcileExternal r worker w)).
Proof.
  destruct (reconcileExternal r worker w) as [res w'] eqn:Hrun.
  destruct (reconcileExternal_summary _ _ _ _ _ Hrun)
    as (l & Hc & Hm & Hf & Hr & Hsame & _). simpl.
  split_and!.
  - intros k _. left. by rewrite Hm.
  - intros k _. rewrite Hm. apply workerKept_refl.
  - exact Hr.
  - intros [(_ & Hn & Hs) Happ]. destruct (Hsame Hn Hs Happ) as [Hr' Hl].
    split_and!; try done.
    + intros. by rewrite Hm.
    + by exists l.
  - done.
Qed.

Lemma Related_Status_Update r worker wk w :
  Related r worker w (snd (Status_Update wk w)).
Proof.
  rewrite Status_Update_eq. cbv zeta.
  assert (Related r worker w (logCall (CStatusUpdate wk) w)) as Hlog
    by (by apply Related_logCall).
  destruct (nextFault w); [done|].
  destruct (mgmt w !! objectKey wk) as [[old| | | | | | | | |]|] eqn:Hold; try done.
  simpl. split_and!; simpl.
  - intros k Hk. left. apply lookup_insert_ne. intros <-. by apply Hk.
  - intros k Hk. destruct (decide (k = objectKey wk)) as [->|Hne].
    + rewrite lookup_insert_eq, Hold. simpl. by eexists.
    + rewrite lookup_insert_ne by done. apply workerKept_refl.
  - by left.
  - intros _. split_and!; try done.
    + intros k Hk. apply lookup_insert_ne. intros <-. by apply Hk.
    + exists [CStatusUpdate wk]. split; [done|]. by repeat constructor.
  - done.
Qed.

Lemma reconcilers_Related r worker f w :
  f ∈ reconcilers r → Related r worker w (snd (f worker w)).
Proof.
  intros [i Hi]%list_elem_of_lookup.
  destruct (decide (i = 6)) as [->|Hne].
  - injection Hi as <-. apply Related_reconcileExternal.
  - destruct (desired_eq r worker) as (t & cp & _ & _ & _ & _ & Hd).
    assert (∃ o, desired r worker !! i = Some o) as [o Ho].
    { rewrite Hd. destruct i as [|[|[|[|[|[|[|i]]]]]]]; simpl; eauto; done. }
    eapply Related_Outcome; [by eapply list_elem_of_lookup_2|].
    by eapply stage_Outcome.
Qed.

Lemma runReconcilers_Related r worker fs :
  (∀ f, f ∈ fs → ∀ w, Related r worker w (snd (f worker w))) →
  ∀ w, Related r worker w (snd (runReconcilers fs worker w)).
Proof.
  induction fs as [|f fs IH]; intros Hfs w; [apply Related_refl|].
  simpl. unfold_M.
  pose proof (Hfs f ltac:(left) w) as Hf.
  destruct (f worker w) as [[e|[]] w1]; [done|].
  eapply Related_trans; [exact Hf|]. apply IH.
  intros g Hg. apply Hfs. by right.
Qed.

(** A pass that fetched the Worker. *)
Lemma Reconcile_Related r req w worker :
  nextFault w = None →
  mgmt w !! requestKey req = Some (RWorker worker) →
  Related r worker w (snd (Reconcile r req w)).
Proof.
  intros Hf Hw. rewrite (Reconcile_fetched r req w worker Hf Hw).
  pose proof (runReconcilers_Related r worker (reconcilers r)
                (λ f Hin w0, reconcilers_Related r worker f w0 Hin)
                (logCall (CGet Mgmt (requestKey req)) w)) as Hrun.
  eapply Related_trans; [by apply (Related_logCall r worker (CGet Mgmt (requestKey req)))|].
  destruct (runReconcilers _ _ _) as [[e|[]] w2]; [done|].
  eapply Related_trans; [exact Hrun|].
  unfold deferredStatusUpdate.
  pose proof (Related_Status_Update r worker
                (setPhase WorkerRunning
                   (initCapacity (clock w2) (setPhase WorkerPending worker))) w2) as Hs.
  by destruct (Status_Update _ w2) as [[] ?].
Qed.

(** A pass that did not: the [Get] is all that happened. *)
Lemma Reconcile_not_fetched r req w :
  (∃ worker, nextFault w = None ∧ mgmt w !! requestKey req = Some (RWorker worker))
  ∨ snd (Reconcile r req w) = logCall (CGet Mgmt (requestKey req)) w.
Proof.
  unfold Reconcile. rewrite client_Get_eq.
  change (store Mgmt w) with (mgmt w).
  change (kindOf Worker, req_Namespace req, req_Name req) with (requestKey req).
  destruct (nextFault w); [by right|].
  destruct (mgmt w !! requestKey req) as [[worker| | | | | | | | |]|];
    try by right.
  left. by exists worker.
Qed.

(** ** What a pass writes *)

Lemma Reconcile_step r req w :
  (∃ worker, mgmt w !! requestKey req = Some (RWorker worker)
             ∧ Related r worker w (snd (Reconcile r req w)))
  ∨ snd (Reconcile r req w) = logCall (CGet Mgmt (requestKey req)) w.
Proof.
  destruct (Reconcile_not_fetched r req w) as [(worker & Hf & Hw)|?];
    [left|by right].
  exists worker. split; [done|]. by apply Reconcile_Related.
Qed.

Lemma Related_secret r worker wa wb k :
  Related r worker wa wb → fst (fst k) = KSecret →
  mgmt wb !! k = mgmt wa !! k.
Proof.
  intros (HA & _) Hk.
  destruct (HA k) as [?|(_ & o & Ho & -> & _)]; try done.
  - by rewrite Hk.
  - by destruct (desired_kind r worker o Ho) as (_ & Hs & _).
Qed.

Lemma Related_is_Some_mgmt r worker wa wb k :
  Related r worker wa wb → fst (fst k) ≠ KWorker →
  is_Some (mgmt wa !! k) → is_Some (mgmt wb !! k).
Proof.
  intros (HA & _) Hk [x Hx].
  destruct (HA k Hk) as [->|(Hn & _)]; [by eexists|congruence].
Qed.

Lemma Related_is_Some_remote r worker wa wb k :
  Related r worker wa wb →
  is_Some (remote wa !! k) → is_Some (remote wb !! k).
Proof.
  intros (_ & _ & HC & _) [x Hx].
  destruct (HC k) as [->|[(Hn & _)|(o & _ & _ & ->)]];
    [by eexists|congruence|by eexists].
Qed.

Lemma converged_Related r worker wa wb :
  Related r worker wa wb → converged r worker wa → converged r worker wb.
Proof.
  intros HR (Hd & Hn & Hs). split_and!.
  - apply Forall_forall. intros o Ho.
    eapply Related_is_Some_mgmt; [exact HR| |by eapply Forall_forall in Hd].
    by destruct (desired_kind r worker o Ho).
  - by eapply Related_is_Some_remote.
  - by eapply Related_is_Some_remote.
Qed.

(** X1. A pass never deletes a stored object, in either cluster, under any
    faults. In the management plane it changes no stored object but
    Workers. In the remote cluster the only stored objects it replaces are
    those under the key of an object of the manifest it applies, and what
    is stored there afterwards is that object of the manifest. *)
Theorem Reconcile_keeps_existing_objects r req w p k o :
  (p, fst (fst k)) ≠ (Mgmt, KWorker) →
  store p w !! k = Some o →
  store p (snd (Reconcile r req w)) !! k = Some o
  ∨ (p = Remote
     ∧ ∃ o', o' ∈ manifestAt w calicoURL ∧ resourceKey o' = k
             ∧ store p (snd (Reconcile r req w)) !! k = Some o').
Proof.
  intros Hk Ho.
  destruct (Reconcile_step r req w) as [(worker & _ & HA & _ & HC & _)| ->].
  - destruct p; simpl in *.
    + left. destruct (HA k) as [->|(Hn & _)]; [congruence|done|congruence].
    + destruct (HC k) as [->|[(Hn & _)|(o' & Ho' & Hk' & Hs)]];
        [by left|congruence|].
      right. split; [done|]. by exists o'.
  - left. by rewrite store_logCall.
Qed.

(** In [staleWorld] the remote cluster holds an old copy of the
    credentials and an old ConfigMap of the network plugin. The pass keeps
    the first and replaces the second by the ConfigMap of the manifest. *)
Lemma Reconcile_keeps_existing_objects_witness :
  (Remote, fst (fst credentialKey)) ≠ (Mgmt, KWorker)
  ∧ store Remote staleWorld !! credentialKey = Some (RSecret staleSecret)
  ∧ store Remote (snd (Reconcile exampleReconciler alphaRequest staleWorld))
      !! credentialKey = Some (RSecret staleSecret)
  ∧ store Remote staleWorld !! resourceKey (RUnstructured staleConfig)
    = Some (RUnstructured staleConfig)
  ∧ (store Remote (snd (Reconcile exampleReconciler alphaRequest staleWorld))
       !! resourceKey (RUnstructured staleConfig)
     = Some (RUnstructured staleConfig)
     ∨ (Remote = Remote
        ∧ ∃ o', o' ∈ manifestAt staleWorld calicoURL
                ∧ resourceKey o' = resourceKey (RUnstructured staleConfig)
                ∧ store Remote
                    (snd (Reconcile exampleReconciler alphaRequest staleWorld))
                    !! resourceKey (RUnstructured staleConfig)
                  = Some o')).
Proof.
  assert ((Remote, fst (fst credentialKey)) ≠ (Mgmt, KWorker)) as Hk
    by (vm_compute; discriminate).
  assert (store Remote staleWorld !! credentialKey = Some (RSecret staleSecret))
    as Hs by (vm_compute; reflexivity).
  assert (store Remote (snd (Reconcile exampleReconciler alphaRequest staleWorld))
            !! credentialKey = Some (RSecret staleSecret)) as Hs'
    by (vm_compute; reflexivity).
  assert (store Remote staleWorld !! resourceKey (RUnstructured staleConfig)
          = Some (RUnstructured staleConfig)) as Ho by (vm_compute; reflexivity).
  split; [exact Hk|]. split; [exact Hs|]. split; [exact Hs'|]. split; [exact Ho|].
  apply (Reconcile_keeps_existing_objects exampleReconciler alphaRequest
           staleWorld Remote _ _); [vm_compute; discriminate|exact Ho].
Defined.

(** X2. Whatever a pass adds to the management plane is one of the six
    objects built for the Worker it fetched, stored under that object's own
    key, which carries the namespace and the name of the Worker. *)
Theorem Reconcile_creates_only_desired r req w k o :
  mgmt w !! k = None →
  mgmt (snd (Reconcile r req w)) !! k = Some o →
  ∃ worker, mgmt w !! requestKey req = Some (RWorker worker)
            ∧ o ∈ desired r worker
            ∧ resourceKey o = k
            ∧ k = (fst (fst k), Namespace (wk_meta worker), Name (wk_meta worker)).
Proof.
  intros Hn Ho.
  destruct (Reconcile_step r req w) as [(worker & Hw & HA & HB & _)|Heq].
  - exists worker. split; [done|].
    destruct (decide (fst (fst k) = KWorker)) as [Hk|Hk].
    + specialize (HB k Hk). rewrite Hn in HB. simpl in HB. congruence.
    + destruct (HA k Hk) as [E|(_ & o' & Hin & -> & Ho')]; [congruence|].
      assert (o' = o) as -> by congruence.
      destruct (desired_kind r worker o Hin) as (_ & _ & Hns & Hname).
      split_and!; try done.
      destruct (resourceKey o) as [[kd ns] name]; simpl in *. congruence.
  - rewrite Heq in Ho. simpl in Ho. congruence.
Qed.

(** The first pass over [freshWorld] stores the Cluster object built for
    [alpha] under (Cluster, default, alpha). *)
Lemma Reconcile_creates_only_desired_witness :
  mgmt freshWorld !! (KCluster, "default", "alpha") = None
  ∧ mgmt (snd (Reconcile exampleReconciler alphaRequest freshWorld))
      !! (KCluster, "default", "alpha")
    = Some (RCluster (setNamespace "default"
                        (getCluster "alpha" "westus2" (AzureSettings exampleReconciler))))
  ∧ ∃ worker, mgmt freshWorld !! requestKey alphaRequest = Some (RWorker worker)
              ∧ RCluster (setNamespace "default"
                            (getCluster "alpha" "westus2"
                               (AzureSettings exampleReconciler)))
                ∈ desired exampleReconciler worker
              ∧ resourceKey
                  (RCluster (setNamespace "default"
                               (getCluster "alpha" "westus2"
                                  (AzureSettings exampleReconciler))))
                = (KCluster, "default", "alpha")
              ∧ (KCluster, "default", "alpha")
                = (fst (fst (KCluster, "default", "alpha")),
                   Namespace (wk_meta worker), Name (wk_meta worker)).
Proof.
  assert (mgmt freshWorld !! (KCluster, "default", "alpha") = None) as Hn
    by (vm_compute; reflexivity).
  assert (mgmt (snd (Reconcile exampleReconciler alphaRequest freshWorld))
            !! (KCluster, "default", "alpha")
          = Some (RCluster (setNamespace "default"
                              (getCluster "alpha" "westus2"
                                 (AzureSettings exampleReconciler))))) as Ho
    by (vm_compute; reflexivity).
  split; [exact Hn|]. split; [exact Ho|].
  exact (Reconcile_creates_only_desired exampleReconciler alphaRequest
           freshWorld _ _ Hn Ho).
Defined.

(** X3. Whatever a pass adds to the remote cluster is the namespace
    capz-system, or, under the key of the credential secret, the copy
    [newRemoteSecret] of the credential secret stored in the management
    plane when the pass began, or an object of the manifest it applies,
    under that object's own key. *)
Theorem Reconcile_remote_writes r req w k o :
  remote w !! k = None →
  remote (snd (Reconcile r req w)) !! k = Some o →
  (k = remoteNamespaceKey ∧ o = RNamespace remoteNamespace)
  ∨ (k = credentialKey
     ∧ ∃ a, mgmt w !! credentialKey = Some (RSecret a)
            ∧ o = RSecret (newRemoteSecret a))
  ∨ (o ∈ manifestAt w calicoURL ∧ resourceKey o = k).
Proof.
  intros Hn Ho.
  destruct (Reconcile_step r req w) as [(worker & _ & _ & _ & HC & _)|Heq].
  - destruct (HC k) as [E|[[_ [[Hk Hv]|[Hk [a [Ha Hv]]]]]|(o' & Ho' & Hk & Hv)]].
    + congruence.
    + left. split; [done|congruence].
    + right. left. split; [done|]. exists a. split; [done|congruence].
    + right. right. assert (o' = o) as -> by congruence. done.
  - rewrite Heq in Ho. simpl in Ho. congruence.
Qed.

(** The first pass over [freshWorld] copies the credentials. *)
Lemma Reconcile_remote_writes_witness :
  remote freshWorld !! credentialKey = None
  ∧ remote (snd (Reconcile exampleReconciler alphaRequest freshWorld)) !! credentialKey
    = Some (RSecret (newRemoteSecret credentials))
  ∧ ((credentialKey = remoteNamespaceKey
      ∧ RSecret (newRemoteSecret credentials) = RNamespace remoteNamespace)
     ∨ (credentialKey = credentialKey
        ∧ ∃ a, mgmt freshWorld !! credentialKey = Some (RSecret a)
               ∧ RSecret (newRemoteSecret credentials) = RSecret (newRemoteSecret a))
     ∨ (RSecret (newRemoteSecret credentials) ∈ manifestAt freshWorld calicoURL
        ∧ resourceKey (RSecret (newRemoteSecret credentials)) = credentialKey)).
Proof.
  assert (remote freshWorld !! credentialKey = None) as Hn by reflexivity.
  assert (remote (snd (Reconcile exampleReconciler alphaRequest freshWorld))
            !! credentialKey
          = Some (RSecret (newRemoteSecret credentials))) as Ho
    by (vm_compute; reflexivity).
  split; [exact Hn|]. split; [exact Ho|].
  exact (Reconcile_remote_writes exampleReconciler alphaRequest freshWorld _ _ Hn Ho).
Defined.

(** X4. A pass never deletes a Worker and never changes the metadata or
    the spec of one: a stored Worker is still stored afterwards, with the
    same metadata and the same spec (only its status may differ). *)
Theorem Reconcile_keeps_worker_spec r req w k a :
  mgmt w !! k = Some (RWorker a) →
  ∃ b, mgmt (snd (Reconcile r req w)) !! k = Some (RWorker b)
       ∧ wk_meta b = wk_meta a ∧ wk_Spec b = wk_Spec a.
Proof.
  intros Ha.
  destruct (Reconcile_step r req w) as [(worker & _ & HA & HB & _)| ->].
  - destruct (decide (fst (fst k) = KWorker)) as [Hk|Hk].
    + specialize (HB k Hk). rewrite Ha in HB. exact HB.
    + exists a. split; [|done].
      destruct (HA k Hk) as [->|(Hn & _)]; [done|congruence].
  - by exists a.
Qed.

(** The first pass over [freshWorld] writes the status of [alpha] and
    leaves the rest of it alone. *)
Lemma Reconcile_keeps_worker_spec_witness :
  mgmt freshWorld !! objectKey alpha = Some (RWorker alpha)
  ∧ ∃ b, mgmt (snd (Reconcile exampleReconciler alphaRequest freshWorld))
           !! objectKey alpha = Some (RWorker b)
         ∧ wk_meta b = wk_meta alpha ∧ wk_Spec b = wk_Spec alpha.
Proof.
  assert (mgmt freshWorld !! objectKey alpha = Some (RWorker alpha)) as Ha
    by (vm_compute; reflexivity).
  split; [exact Ha|].
  exact (Reconcile_keeps_worker_spec exampleReconciler alphaRequest freshWorld _ _ Ha).
Defined.

(** X6. Once nothing is left to do for a Worker (the six objects, the
    remote namespace and the remote secret exist, and the objects of the
    manifest are stored in the remote cluster as the manifest gives them),
    a pass for it changes nothing but Workers. It sends no create and no
    update; it does apply the manifest again when it gets that far, and
    that writes what is stored already: the remote store and every other
    entry of the management store are as before, and nothing is left to do
    afterwards either. *)
Theorem Reconcile_converged_idempotent r req w worker :
  mgmt w !! requestKey req = Some (RWorker worker) →
  settled r worker w →
  remote (snd (Reconcile r req w)) = remote w
  ∧ (∀ k, fst (fst k) ≠ KWorker →
          mgmt (snd (Reconcile r req w)) !! k = mgmt w !! k)
  ∧ Forall (λ c, isCreate c = false ∧ isUpdate c = false)
      (newCalls w (snd (Reconcile r req w)))
  ∧ settled r worker (snd (Reconcile r req w)).
Proof.
  intros Hw Hset.
  destruct (Reconcile_step r req w) as [(worker' & Hw' & HR)|Heq].
  - assert (worker' = worker) as -> by congruence.
    destruct HR as (_ & _ & _ & HD & HM).
    destruct (HD Hset) as (Hr & Hm & l & Hc & Hl).
    split_and!; try done.
    + by rewrite (newCalls_app _ _ _ Hc).
    + by eapply settled_same.
  - rewrite Heq. split_and!; try done.
    rewrite (newCalls_app _ _ [CGet Mgmt (requestKey req)]) by done.
    by repeat constructor.
Qed.

(** A second pass, over the world the first one left: it sends the Apply
    once more, and the remote store is as it was. *)
Lemma Reconcile_converged_idempotent_witness :
  mgmt settledWorld !! requestKey alphaRequest
  = Some (RWorker (reconciledWorker 1000%Z alpha))
  ∧ settled exampleReconciler (reconciledWorker 1000%Z alpha) settledWorld
  ∧ CApply calicoURL
    ∈ newCalls settledWorld
        (snd (Reconcile exampleReconciler alphaRequest settledWorld))
  ∧ remote (snd (Reconcile exampleReconciler alphaRequest settledWorld))
    = remote settledWorld
  ∧ (∀ k, fst (fst k) ≠ KWorker →
          mgmt (snd (Reconcile exampleReconciler alphaRequest settledWorld)) !! k
          = mgmt settledWorld !! k)
  ∧ Forall (λ c, isCreate c = false ∧ isUpdate c = false)
      (newCalls settledWorld
         (snd (Reconcile exampleReconciler alphaRequest settledWorld)))
  ∧ settled exampleReconciler (reconciledWorker 1000%Z alpha)
      (snd (Reconcile exampleReconciler alphaRequest settledWorld)).
Proof.
  assert (mgmt settledWorld !! requestKey alphaRequest
          = Some (RWorker (reconciledWorker 1000%Z alpha))) as Hw
    by (vm_compute; reflexivity).
  assert (settled exampleReconciler (reconciledWorker 1000%Z alpha) settledWorld)
    as Hset by (apply (bool_decide_unpack _); vm_compute; exact I).
  split; [exact Hw|]. split; [exact Hset|]. split.
  { apply (list_elem_of_lookup_2 _ 12%nat). vm_compute. reflexivity. }
  exact (Reconcile_converged_idempotent exampleReconciler alphaRequest settledWorld
           _ Hw Hset).
Defined.

(** ** A pass that returns nil *)

Lemma Outcome_success c k o w w' :
  Outcome c k o w true w' → is_Some (store c w' !! k).
Proof.
  inversion 1; subst.
  - rewrite store_logCall. by eexists.
  - rewrite store_setStore, lookup_insert_eq. by eexists.
Qed.

(** What each stage establishes when it succeeds, and no later stage undoes,
    holds after a loop that succeeded. *)
Lemma runReconcilers_post r worker fs : ∀ (P : nat → World → Prop),
  (∀ i f, fs !! i = Some f → ∀ w, Related r worker w (snd (f worker w))) →
  (∀ i f, fs !! i = Some f →
          ∀ w, succeeded (fst (f worker w)) = true → P i (snd (f worker w))) →
  (∀ i wa wb, P i wa → Related r worker wa wb → P i wb) →
  ∀ w, succeeded (fst (runReconcilers fs worker w)) = true →
       ∀ i, (i < length fs)%nat → P i (snd (runReconcilers fs worker w)).
Proof.
  induction fs as [|f fs IH]; intros P HR HP Hst w Hok i Hi;
    [simpl in Hi; lia|].
  simpl in Hok |- *. unfold_M.
  pose proof (HP 0%nat f eq_refl w) as HP0.
  destruct (f worker w) as [[e|[]] w1]; [done|].
  destruct i as [|i].
  - eapply Hst; [by apply HP0|].
    apply runReconcilers_Related. intros g [j Hj]%list_elem_of_lookup.
    exact (HR (S j) g Hj).
  - apply (IH (λ i, P (S i))); try done.
    + intros j g Hj. exact (HR (S j) g Hj).
    + intros j g Hj. exact (HP (S j) g Hj).
    + intros j. apply Hst.
    + simpl in Hi. lia.
Qed.

Lemma desired_length r worker : length (desired r worker) = 6%nat.
Proof.
  destruct (desired_eq r worker) as (t & cp & _ & _ & _ & _ & ->). done.
Qed.

Lemma runReconcilers_converged r worker w :
  succeeded (fst (runReconcilers (reconcilers r) worker w)) = true →
  converged r worker (snd (runReconcilers (reconcilers r) worker w)).
Proof.
  intros Hok.
  pose proof (runReconcilers_post r worker (reconcilers r)
    (λ i w', match desired r worker !! i with
             | Some o => is_Some (mgmt w' !! resourceKey o)
             | None => is_Some (remote w' !! remoteNamespaceKey)
                       ∧ is_Some (remote w' !! credentialKey)
             end)) as Hpost.
  cbv beta in Hpost.
  assert (∀ i, (i < 7)%nat →
    match desired r worker !! i with
    | Some o => is_Some (mgmt (snd (runReconcilers (reconcilers r) worker w))
                           !! resourceKey o)
    | None => is_Some (remote (snd (runReconcilers (reconcilers r) worker w))
                         !! remoteNamespaceKey)
              ∧ is_Some (remote (snd (runReconcilers (reconcilers r) worker w))
                           !! credentialKey)
    end) as Hall.
  { apply Hpost; try done.
    - intros i f Hi w0. apply reconcilers_Related.
      by eapply list_elem_of_lookup_2.
    - intros i f Hi w0 Hs.
      destruct (desired r worker !! i) as [o|] eqn:Ho.
      + pose proof (stage_Outcome r worker i f o w0 Hi Ho) as Hout.
        rewrite Hs in Hout. exact (Outcome_success _ _ _ _ _ Hout).
      + assert (i = 6%nat) as ->.
        { apply lookup_ge_None in Ho. rewrite desired_length in Ho.
          apply lookup_lt_Some in Hi. simpl in Hi. lia. }
        injection Hi as <-.
        destruct (reconcileExternal r worker w0) as [res w'] eqn:Hrun.
        destruct (reconcileExternal_summary _ _ _ _ _ Hrun)
          as (l & _ & _ & _ & _ & _ & _ & Hsucc & _).
        simpl in Hs |- *. by destruct (Hsucc Hs) as (? & ? & _).
    - intros i wa wb HP HR.
      destruct (desired r worker !! i) as [o|] eqn:Ho.
      + eapply Related_is_Some_mgmt; [exact HR| |exact HP].
        apply list_elem_of_lookup_2 in Ho.
        by destruct (desired_kind r worker o Ho).
      + destruct HP. split; by eapply Related_is_Some_remote. }
  split.
  - apply Forall_lookup. intros i o Ho.
    specialize (Hall i). rewrite Ho in Hall. apply Hall.
    apply lookup_lt_Some in Ho. rewrite desired_length in Ho. lia.
  - specialize (Hall 6%nat).
    rewrite (proj2 (lookup_ge_None (desired r worker) 6)) in Hall
      by (by rewrite desired_length).
    apply Hall. lia.
Qed.

Lemma Reconcile_fault r req w msg :
  nextFault w = Some msg →
  Reconcile r req w
  = ((emptyResult, Some (EApi msg)), logCall (CGet Mgmt (requestKey req)) w).
Proof.
  intros Hf. unfold Reconcile. rewrite client_Get_eq, Hf. done.
Qed.

Lemma Reconcile_nil_converged r req w worker :
  mgmt w !! requestKey req = Some (RWorker worker) →
  snd (fst (Reconcile r req w)) = None →
  converged r worker (snd (Reconcile r req w)).
Proof.
  intros Hw Hnil.
  destruct (nextFault w) as [msg|] eqn:Hf.
  { by rewrite (Reconcile_fault _ _ _ _ Hf) in Hnil. }
  rewrite (Reconcile_fetched r req w worker Hf Hw) in Hnil |- *.
  pose proof (runReconcilers_converged r worker
                (logCall (CGet Mgmt (requestKey req)) w)) as Hconv.
  destruct (runReconcilers _ _ _) as [[e|[]] w2]; [done|].
  specialize (Hconv eq_refl). simpl in Hconv.
  unfold deferredStatusUpdate in *.
  pose proof (Related_Status_Update r worker
                (setPhase WorkerRunning
                   (initCapacity (clock w2) (setPhase WorkerPending worker))) w2) as Hs.
  destruct (Status_Update _ w2) as [[e|[]] w3]; [done|].
  simpl in Hs |- *. by eapply converged_Related.
Qed.

Lemma desired_key_inj r worker o o' :
  o ∈ desired r worker → o' ∈ desired r worker →
  resourceKey o = resourceKey o' → o = o'.
Proof.
  intros [i Hi]%list_elem_of_lookup [j Hj]%list_elem_of_lookup Hk.
  destruct (desired_keys r worker i o Hi) as [_ Hki].
  destruct (desired_keys r worker j o' Hj) as [_ Hkj].
  rewrite Hk in Hki.
  assert (i = j) as ->; [|congruence].
  destruct (fst (fst (resourceKey o')));
    destruct i as [|[|[|[|[|[|i]]]]]]; simpl in Hki; try discriminate;
    destruct j as [|[|[|[|[|[|j]]]]]]; simpl in Hkj; try discriminate;
    reflexivity.
Qed.

(** The last stage of a loop that succeeded has succeeded, and the loop
    ends in the world it left. *)
Lemma runReconcilers_last fs f worker : ∀ w,
  succeeded (fst (runReconcilers (fs ++ [f]) worker w)) = true →
  ∃ w6, succeeded (fst (f worker w6)) = true
        ∧ snd (runReconcilers (fs ++ [f]) worker w) = snd (f worker w6).
Proof.
  induction fs as [|g fs IH]; intros w; simpl; unfold_M.
  - intros Hok. exists w. by destruct (f worker w) as [[e|[]] w1].
  - destruct (g worker w) as [[e|[]] w1]; [done|]. apply IH.
Qed.

Lemma Status_Update_remote wk w :
  remote (snd (Status_Update wk w)) = remote w
  ∧ manifests (snd (Status_Update wk w)) = manifests w.
Proof.
  rewrite Status_Update_eq. cbv zeta.
  destruct (nextFault w); [done|].
  by destruct (mgmt w !! objectKey wk) as [[]|].
Qed.

Lemma Reconcile_nil_applied r req w worker :
  mgmt w !! requestKey req = Some (RWorker worker) →
  snd (fst (Reconcile r req w)) = None →
  applied (snd (Reconcile r req w)).
Proof.
  intros Hw Hnil.
  destruct (nextFault w) as [msg|] eqn:Hf.
  { by rewrite (Reconcile_fault _ _ _ _ Hf) in Hnil. }
  rewrite (Reconcile_fetched r req w worker Hf Hw) in Hnil |- *.
  pose proof (runReconcilers_last (take 6 (reconcilers r)) (reconcileExternal r)
                worker (logCall (CGet Mgmt (requestKey req)) w)) as Hlast.
  change (take 6 (reconcilers r) ++ [reconcileExternal r])
    with (reconcilers r) in Hlast.
  destruct (runReconcilers _ _ _) as [[e|[]] w2]; [done|].
  destruct (Hlast eq_refl) as (w6 & Hs & Hw2). simpl in Hw2.
  destruct (reconcileExternal r worker w6) as [res w2'] eqn:Hrun.
  simpl in Hs, Hw2. subst w2'.
  destruct (reconcileExternal_summary _ _ _ _ _ Hrun)
    as (l & _ & _ & _ & _ & _ & _ & Hsucc & _).
  destruct (Hsucc Hs) as (_ & _ & Happ & _).
  unfold deferredStatusUpdate in *.
  destruct (Status_Update_remote
              (setPhase WorkerRunning
                 (initCapacity (clock w2) (setPhase WorkerPending worker))) w2)
    as [Hr Hm].
  destruct (Status_Update _ w2) as [[e|[]] w3]; [done|].
  simpl in *. unfold applied, manifestAt in *. by rewrite Hm, Hr.
Qed.

Lemma Reconcile_nil_settled r req w worker :
  mgmt w !! requestKey req = Some (RWorker worker) →
  snd (fst (Reconcile r req w)) = None →
  settled r worker (snd (Reconcile r req w)).
Proof.
  intros Hw Hnil. split;
    [by apply Reconcile_nil_converged|by eapply Reconcile_nil_applied].
Qed.

(** X5. When a pass over a stored Worker returns nil, then under the key of
    each of the six objects built for the Worker the management plane
    holds the object that was stored there before the pass, as it was, or,
    when there was none, the built object. The remote cluster holds an
    object under the key of the namespace capz-system and one under the
    key of the credential secret: a pass does not say that these are the
    ones it would have created. And the manifest is stored in the remote
    cluster: applying it once more would change nothing. *)
Theorem Reconcile_success_converged r req w worker :
  mgmt w !! requestKey req = Some (RWorker worker) →
  snd (fst (Reconcile r req w)) = None →
  Forall (λ o, mgmt (snd (Reconcile r req w)) !! resourceKey o
               = Some (default o (mgmt w !! resourceKey o)))
    (desired r worker)
  ∧ is_Some (remote (snd (Reconcile r req w)) !! remoteNamespaceKey)
  ∧ is_Some (remote (snd (Reconcile r req w)) !! credentialKey)
  ∧ applyObjects (manifestAt w calicoURL) (remote (snd (Reconcile r req w)))
    = remote (snd (Reconcile r req w)).
Proof.
  intros Hw Hnil.
  destruct (Reconcile_nil_settled r req w worker Hw Hnil)
    as [(Hd & Hn & Hs) Happ].
  destruct (Reconcile_step r req w) as [(wk & Hwk & HA & _ & _ & _ & HM)|Heq].
  - split_and!; try done.
    + apply Forall_forall. intros o Ho.
      destruct (desired_kind r worker o Ho) as (Hkw & _).
      destruct (HA (resourceKey o) Hkw) as [E|(Hnone & o' & Ho' & Hk & Hst)].
      * eapply Forall_forall in Hd; [|exact Ho]. destruct Hd as [x Hx].
        rewrite Hx. rewrite E in Hx. by rewrite Hx.
      * rewrite Hst, Hnone. simpl. f_equal.
        assert (wk = worker) as -> by congruence.
        symmetry. by eapply desired_key_inj.
    + unfold applied, manifestAt in *. by rewrite <- HM.
  - rewrite Heq in *. split_and!; try done.
    apply Forall_forall. intros o Ho.
    eapply Forall_forall in Hd; [|exact Ho]. destruct Hd as [x Hx].
    simpl in *. by rewrite Hx.
Qed.

(** The pass over [driftedWorld]: it returns nil, and the Cluster stored
    afterwards is the emptied one that was found, not the built one. *)
Lemma Reconcile_success_converged_witness :
  mgmt driftedWorld !! requestKey alphaRequest = Some (RWorker alpha)
  ∧ snd (fst (Reconcile exampleReconciler alphaRequest driftedWorld)) = None
  ∧ mgmt (snd (Reconcile exampleReconciler alphaRequest driftedWorld))
      !! (KCluster, "default", "alpha") = Some (RCluster driftedCluster)
  ∧ Forall (λ o, mgmt (snd (Reconcile exampleReconciler alphaRequest
                              driftedWorld)) !! resourceKey o
                 = Some (default o (mgmt driftedWorld !! resourceKey o)))
      (desired exampleReconciler alpha)
  ∧ is_Some (remote (snd (Reconcile exampleReconciler alphaRequest driftedWorld))
               !! remoteNamespaceKey)
  ∧ is_Some (remote (snd (Reconcile exampleReconciler alphaRequest driftedWorld))
               !! credentialKey)
  ∧ applyObjects (manifestAt driftedWorld calicoURL)
      (remote (snd (Reconcile exampleReconciler alphaRequest driftedWorld)))
    = remote (snd (Reconcile exampleReconciler alphaRequest driftedWorld)).
Proof.
  assert (mgmt driftedWorld !! requestKey alphaRequest = Some (RWorker alpha)) as Hw
    by (vm_compute; reflexivity).
  assert (snd (fst (Reconcile exampleReconciler alphaRequest driftedWorld)) = None)
    as Hnil by (vm_compute; reflexivity).
  split; [exact Hw|]. split; [exact Hnil|].
  split; [vm_compute; reflexivity|].
  exact (Reconcile_success_converged exampleReconciler alphaRequest driftedWorld
           alpha Hw Hnil).
Defined.

(** ** Keys of the stored objects *)

Lemma wellKeyed_step r worker wa wb :
  Related r worker wa wb →
  wellKeyed (mgmt wa) → wellKeyed (remote wa) →
  wellKeyed (mgmt wb) ∧ wellKeyed (remote wb).
Proof.
  intros (HA & HB & HC & _) Hm Hr. split; intros k o Ho.
  - destruct (decide (fst (fst k) = KWorker)) as [Hk|Hk].
    + specialize (HB k Hk). unfold workerKept in HB.
      destruct (mgmt wa !! k) as [old|] eqn:Hold; [|congruence].
      pose proof (Hm k old Hold) as Hkey. simpl in Hkey.
      destruct old as [a|?|?|?|?|?|?|?|?|?];
        try (rewrite HB in Ho; injection Ho as <-; exact Hkey).
      destruct HB as (b & Hb & Hmeta & _). rewrite Hb in Ho.
      injection Ho as <-. simpl in *. unfold objectKey in *. simpl in *.
      by rewrite Hmeta.
    + destruct (HA k Hk) as [E|(_ & o' & _ & -> & Ho')].
      * rewrite E in Ho. exact (Hm k o Ho).
      * congruence.
  - destruct (HC k) as [E|[[_ [[Hk Hv]|[Hk [a [_ Hv]]]]]|(o' & _ & Hk & Hv)]].
    + rewrite E in Ho. exact (Hr k o Ho).
    + rewrite Hv in Ho. injection Ho as <-. by rewrite Hk.
    + rewrite Hv in Ho. injection Ho as <-. by rewrite Hk.
    + rewrite Hv in Ho. by injection Ho as <-.
Qed.

(** ** The kubeconfig secret *)

Lemma usesKubeconfig_same worker w w' c :
  mgmt w' !! kubeconfigKey worker = mgmt w !! kubeconfigKey worker →
  usesKubeconfig worker w' c → usesKubeconfig worker w c.
Proof. intros E [? Hc]. split; [done|]. intros data Hd. rewrite <- E. eauto. Qed.

Lemma Observed_refl worker w : Observed worker w w.
Proof.
  split_and!; try done. exists []. by rewrite app_nil_r.
Qed.

Lemma Observed_trans worker wa wb wc :
  Observed worker wa wb → Observed worker wb wc → Observed worker wa wc.
Proof.
  intros (Hm1 & (l1 & Hc1 & Hl1) & Hr1) (Hm2 & (l2 & Hc2 & Hl2) & Hr2).
  assert (mgmt wb !! kubeconfigKey worker = mgmt wa !! kubeconfigKey worker) as Hk
    by (apply Hm1; by right).
  split_and!.
  - intros k Hk'. by rewrite Hm2, Hm1.
  - exists (l1 ++ l2). split; [by rewrite Hc2, Hc1, app_assoc|].
    apply Forall_app. split; [done|].
    eapply Forall_impl; [exact Hl2|]. intros c. by apply usesKubeconfig_same.
  - intros Hno. rewrite Hr2, Hr1; try done.
    intros ks. rewrite Hk. apply Hno.
Qed.

Lemma Observed_logCall worker c w :
  isStatusUpdate c = false → (∀ data, c ≠ CNewClient data) →
  Observed worker w (logCall c w).
Proof.
  intros Hs Hc. split_and!; try done.
  exists [c]. split; [done|]. constructor; [|done].
  split; [done|]. intros data ->. by destruct (Hc data).
Qed.

Lemma Observed_Outcome r worker o w ok w' :
  o ∈ desired r worker →
  Outcome Mgmt (resourceKey o) o w ok w' →
  Observed worker w w'.
Proof.
  intros Ho Hout. destruct (desired_kind r worker o Ho) as (Hkw & Hks & _).
  assert (∀ c, c = CGet Mgmt (resourceKey o) ∨ c = CCreate Mgmt o →
               usesKubeconfig worker w c) as Hcall.
  { intros c [-> | ->]; (split; [done|]); by intros data. }
  destruct Hout as [|live Hlive|Hnone|Hnone].
  - apply Observed_logCall; [done|by intros data].
  - apply Observed_logCall; [done|by intros data].
  - split_and!; try done.
    exists [CGet Mgmt (resourceKey o); CCreate Mgmt o].
    split; [simpl; by rewrite <- app_assoc|].
    apply Forall_cons_2; [apply Hcall; by left|].
    apply Forall_cons_2; [apply Hcall; by right|done].
  - split_and!; try done.
    + intros k Hk. simpl. apply lookup_insert_ne. intros <-.
      destruct Hk; congruence.
    + exists [CGet Mgmt (resourceKey o); CCreate Mgmt o].
      split; [simpl; by rewrite <- app_assoc|].
      apply Forall_cons_2; [apply Hcall; by left|].
      apply Forall_cons_2; [apply Hcall; by right|done].
Qed.

(** Without a kubeconfig the phase ends after its second [Get] at the
    latest. *)
Lemma reconcileExternal_no_kubeconfig r worker w :
  noKubeconfig worker w →
  succeeded (fst (reconcileExternal r worker w)) = false
  ∧ remote (snd (reconcileExternal r worker w)) = remote w.
Proof.
  intros Hno. unfold reconcileExternal. unfold_M.
  rewrite client_Get_eq.
  destruct (nextFault w); [done|].
  destruct (store Mgmt w !! _) as [[]|]; simpl; try done.
  rewrite client_Get_eq.
  destruct (nextFault (logCall _ w)); [done|].
  rewrite store_logCall.
  change (store Mgmt w) with (mgmt w).
  change (kindOf Secret, Namespace (wk_meta worker),
          Sprintf_s (Name (wk_meta worker)) "-kubeconfig")
    with (kubeconfigKey worker).
  destruct (mgmt w !! kubeconfigKey worker) as [[| | | | | | |ks| |]|] eqn:Hks;
    simpl; try done.
  by rewrite (Hno ks Hks).
Qed.

Lemma Observed_reconcileExternal r worker w :
  Observed worker w (snd (reconcileExternal r worker w)).
Proof.
  destruct (reconcileExternal_effect r worker w) as (l' & Hc' & _ & Hl' & _ & _).
  pose proof (λ H, proj2 (reconcileExternal_no_kubeconfig r worker w H)) as Hrem.
  revert Hc' Hrem.
  destruct (reconcileExternal r worker w) as [res w'] eqn:Hrun. intros Hc' Hrem.
  destruct (reconcileExternal_summary _ _ _ _ _ Hrun)
    as (l & Hc & Hm & _ & _ & _ & Hnew & _). simpl in *.
  assert (l' = l) as -> by (apply (app_inv_head (calls w)); congruence).
  split_and!.
  - intros k _. by rewrite Hm.
  - exists l. split; [done|].
    apply Forall_forall. intros c Hin. split.
    + eapply Forall_forall in Hl'; [|exact Hin].
      destruct Hl' as (Hst & _). by destruct c.
    + eapply Forall_forall in Hnew; [|exact Hin]. exact Hnew.
  - exact Hrem.
Qed.

Lemma reconcilers_Observed r worker f w :
  f ∈ reconcilers r → Observed worker w (snd (f worker w)).
Proof.
  intros [i Hi]%list_elem_of_lookup.
  destruct (decide (i = 6)) as [->|Hne].
  - injection Hi as <-. apply Observed_reconcileExternal.
  - destruct (desired_eq r worker) as (t & cp & _ & _ & _ & _ & Hd).
    assert (∃ o, desired r worker !! i = Some o) as [o Ho].
    { rewrite Hd. destruct i as [|[|[|[|[|[|[|i]]]]]]]; simpl; eauto; done. }
    eapply Observed_Outcome; [by eapply list_elem_of_lookup_2|].
    by eapply stage_Outcome.
Qed.

Lemma runReconcilers_Observed worker fs :
  (∀ f, f ∈ fs → ∀ w, Observed worker w (snd (f worker w))) →
  ∀ w, Observed worker w (snd (runReconcilers fs worker w)).
Proof.
  induction fs as [|f fs IH]; intros Hfs w; [apply Observed_refl|].
  simpl. unfold_M.
  pose proof (Hfs f ltac:(left) w) as Hf.
  destruct (f worker w) as [[e|[]] w1]; [done|].
  eapply Observed_trans; [exact Hf|]. apply IH.
  intros g Hg. apply Hfs. by right.
Qed.

(** The loop succeeds only with a kubeconfig. *)
Lemma runReconcilers_needs_kubeconfig r worker w :
  succeeded (fst (runReconcilers (reconcilers r) worker w)) = true →
  ∃ ks, mgmt w !! kubeconfigKey worker = Some (RSecret ks)
        ∧ is_Some (sec_Data ks !! KubeconfigDataName).
Proof.
  intros Hok.
  pose proof (runReconcilers_post r worker (reconcilers r)
    (λ i w', i = 6%nat →
       ∃ ks, mgmt w' !! kubeconfigKey worker = Some (RSecret ks)
             ∧ is_Some (sec_Data ks !! KubeconfigDataName))) as Hpost.
  cbv beta in Hpost.
  rewrite <- (Related_secret r worker w
                (snd (runReconcilers (reconcilers r) worker w))
                (kubeconfigKey worker)); [|  |done].
  - apply (Hpost) with (i := 6%nat); try done.
    + intros i f Hi w0. apply reconcilers_Related.
      by eapply list_elem_of_lookup_2.
    + intros i f Hi w0 Hs ->. injection Hi as <-.
      destruct (reconcileExternal r worker w0) as [res w'] eqn:Hrun.
      destruct (reconcileExternal_summary _ _ _ _ _ Hrun)
        as (l & _ & Hm & _ & _ & _ & _ & Hsucc & _).
      simpl in Hs |- *. destruct (Hsucc Hs) as (_ & _ & _ & a & ks & _ & Hks & Hd).
      exists ks. by rewrite Hm.
    + intros i wa wb HP HR Hi. destruct (HP Hi) as (ks & Hks & Hd).
      exists ks. split; [|done].
      by rewrite (Related_secret r worker wa wb (kubeconfigKey worker) HR).
    + simpl. lia.
  - apply runReconcilers_Related. intros f Hf w0. by apply reconcilers_Related.
Qed.

(** X8. Until the kubeconfig secret of the new cluster exists in the
    Worker's namespace and carries the key "value", every pass over the
    Worker returns an error, builds no remote client, leaves the remote
    cluster as it is, and writes no status: the stored Worker stays as it
    was. *)
Theorem Reconcile_waits_for_kubeconfig r req w worker :
  mgmt w !! requestKey req = Some (RWorker worker) →
  (∀ ks, mgmt w !! kubeconfigKey worker = Some (RSecret ks) →
         sec_Data ks !! KubeconfigDataName = None) →
  is_Some (snd (fst (Reconcile r req w)))
  ∧ remote (snd (Reconcile r req w)) = remote w
  ∧ Forall (λ c, isStatusUpdate c = false ∧ ∀ data, c ≠ CNewClient data)
      (newCalls w (snd (Reconcile r req w)))
  ∧ mgmt (snd (Reconcile r req w)) !! requestKey req = Some (RWorker worker).
Proof.
  intros Hw Hno.
  destruct (nextFault w) as [msg|] eqn:Hf.
  { rewrite (Reconcile_fault _ _ _ _ Hf). simpl. split_and!; try done.
    rewrite (newCalls_app _ _ [CGet Mgmt (requestKey req)]) by done.
    apply Forall_cons_2; [done|constructor]. }
  rewrite (Reconcile_fetched r req w worker Hf Hw).
  set (w1 := logCall (CGet Mgmt (requestKey req)) w).
  pose proof (runReconcilers_needs_kubeconfig r worker w1) as Hneed.
  pose proof (runReconcilers_Observed worker (reconcilers r)
                (λ f Hin w0, reconcilers_Observed r worker f w0 Hin) w1)
    as (Hm & (l & Hc & Hl) & Hr).
  destruct (runReconcilers (reconcilers r) worker w1) as [[e|[]] w2].
  - simpl in *. split_and!.
    + by eexists.
    + by apply Hr.
    + rewrite (newCalls_app _ _ (CGet Mgmt (requestKey req) :: l))
        by (rewrite Hc; simpl; by rewrite <- app_assoc).
      apply Forall_cons_2; [done|].
      eapply Forall_impl; [exact Hl|].
      intros c [Hs Hd]. split; [done|]. intros data ->.
      destruct (Hd data eq_refl) as (ks & Hks & Hdata). simpl in Hks.
      by rewrite (Hno ks Hks) in Hdata.
    + rewrite Hm by (by left). done.
  - destruct (Hneed eq_refl) as (ks & Hks & [data Hdata]). simpl in Hks.
    by rewrite (Hno ks Hks) in Hdata.
Qed.

(** [waitingWorld] has the Worker and the credentials, but no kubeconfig. *)
Lemma Reconcile_waits_for_kubeconfig_witness :
  mgmt waitingWorld !! requestKey alphaRequest = Some (RWorker alpha)
  ∧ (∀ ks, mgmt waitingWorld !! kubeconfigKey alpha = Some (RSecret ks) →
           sec_Data ks !! KubeconfigDataName = None)
  ∧ is_Some (snd (fst (Reconcile exampleReconciler alphaRequest waitingWorld)))
  ∧ remote (snd (Reconcile exampleReconciler alphaRequest waitingWorld))
    = remote waitingWorld
  ∧ Forall (λ c, isStatusUpdate c = false ∧ ∀ data, c ≠ CNewClient data)
      (newCalls waitingWorld
         (snd (Reconcile exampleReconciler alphaRequest waitingWorld)))
  ∧ mgmt (snd (Reconcile exampleReconciler alphaRequest waitingWorld))
      !! requestKey alphaRequest
    = Some (RWorker alpha).
Proof.
  assert (mgmt waitingWorld !! requestKey alphaRequest = Some (RWorker alpha)) as Hw
    by (vm_compute; reflexivity).
  assert (∀ ks, mgmt waitingWorld !! kubeconfigKey alpha = Some (RSecret ks) →
                sec_Data ks !! KubeconfigDataName = None) as Hno
    by (intros ks Hks; vm_compute in Hks; discriminate).
  split; [exact Hw|]. split; [exact Hno|].
  exact (Reconcile_waits_for_kubeconfig exampleReconciler alphaRequest waitingWorld
           alpha Hw Hno).
Defined.

(** X9. Whenever a pass builds a client for the remote cluster, it builds
    it from the bytes stored under the key "value" of the secret
    <name>-kubeconfig in the namespace of the Worker it fetched, as that
    secret was when the pass began. *)
Theorem remote_client_from_stored_kubeconfig r req w data :
  CNewClient data ∈ newCalls w (snd (Reconcile r req w)) →
  ∃ worker ks,
    mgmt w !! requestKey req = Some (RWorker worker)
    ∧ mgmt w !! (KSecret, Namespace (wk_meta worker),
                 Name (wk_meta worker) +:+ "-kubeconfig") = Some (RSecret ks)
    ∧ sec_Data ks !! "value" = Some data.
Proof.
  intros Hin.
  destruct (Reconcile_not_fetched r req w) as [(worker & Hf & Hw)|Heq].
  2:{ rewrite Heq, (newCalls_app _ _ [CGet Mgmt (requestKey req)]) in Hin by done.
      apply list_elem_of_singleton in Hin. discriminate. }
  exists worker.
  rewrite (Reconcile_fetched r req w worker Hf Hw) in Hin.
  set (w1 := logCall (CGet Mgmt (requestKey req)) w) in *.
  pose proof (runReconcilers_Observed worker (reconcilers r)
                (λ f Hin w0, reconcilers_Observed r worker f w0 Hin) w1)
    as (_ & (l & Hc & Hl) & _).
  assert (CNewClient data ∈ l) as Hl'.
  { destruct (runReconcilers (reconcilers r) worker w1) as [[e|[]] w2]; simpl in *.
    - rewrite (newCalls_app _ _ (CGet Mgmt (requestKey req) :: l)) in Hin
        by (rewrite Hc; simpl; by rewrite <- app_assoc).
      apply elem_of_cons in Hin as [?|?]; [discriminate|done].
    - pose proof (deferredStatusUpdate_calls
                    (setPhase WorkerRunning
                       (initCapacity (clock w2) (setPhase WorkerPending worker)))
                    None w2) as Hd.
      destruct (deferredStatusUpdate _ None w2) as [reterr w3]. simpl in *.
      rewrite (newCalls_app _ _ (CGet Mgmt (requestKey req) :: l ++ [CStatusUpdate
                 (setPhase WorkerRunning
                    (initCapacity (clock w2) (setPhase WorkerPending worker)))]))
        in Hin by (rewrite Hd, Hc; simpl; by rewrite <- !app_assoc).
      apply elem_of_cons in Hin as [?|Hin]; [discriminate|].
      apply elem_of_app in Hin as [?|Hin]; [done|].
      apply list_elem_of_singleton in Hin. discriminate. }
  eapply Forall_forall in Hl; [|exact Hl'].
  destruct Hl as [_ Hd]. destruct (Hd data eq_refl) as (ks & Hks & Hdata).
  exists ks. by split_and!.
Qed.

(** The first pass over [freshWorld] builds its client from the three bytes
    of [alphaKubeconfig]. *)
Lemma remote_client_from_stored_kubeconfig_witness :
  CNewClient [Byte.x6b; Byte.x38; Byte.x73]
  ∈ newCalls freshWorld (snd (Reconcile exampleReconciler alphaRequest freshWorld))
  ∧ ∃ worker ks,
      mgmt freshWorld !! requestKey alphaRequest = Some (RWorker worker)
      ∧ mgmt freshWorld !! (KSecret, Namespace (wk_meta worker),
                            Name (wk_meta worker) +:+ "-kubeconfig")
        = Some (RSecret ks)
      ∧ sec_Data ks !! "value" = Some [Byte.x6b; Byte.x38; Byte.x73].
Proof.
  assert (CNewClient [Byte.x6b; Byte.x38; Byte.x73]
          ∈ newCalls freshWorld
              (snd (Reconcile exampleReconciler alphaRequest freshWorld))) as Hin.
  { apply (list_elem_of_lookup_2 _ 15%nat). vm_compute. reflexivity. }
  split; [exact Hin|].
  exact (remote_client_from_stored_kubeconfig exampleReconciler alphaRequest
           freshWorld _ Hin).
Defined.

(** ** The calls of a pass *)

Lemma Reconcile_calls r req w worker :
  nextFault w = None →
  mgmt w !! requestKey req = Some (RWorker worker) →
  ∃ l tl,
    newCalls w (snd (Reconcile r req w)) = CGet Mgmt (requestKey req) :: l ++ tl
    ∧ Forall (usesKubeconfig worker w) l
    ∧ (tl = [] ∨ ∃ now, tl = [CStatusUpdate (reconciledWorker now worker)]).
Proof.
  intros Hf Hw. rewrite (Reconcile_fetched r req w worker Hf Hw).
  set (w1 := logCall (CGet Mgmt (requestKey req)) w) in *.
  pose proof (runReconcilers_Observed worker (reconcilers r)
                (λ f Hin w0, reconcilers_Observed r worker f w0 Hin) w1)
    as (_ & (l & Hc & Hl) & _).
  exists l.
  destruct (runReconcilers (reconcilers r) worker w1) as [[e|[]] w2]; simpl in *.
  - exists []. split_and!; [|done|by left].
    apply newCalls_app. rewrite Hc, app_nil_r. simpl. by rewrite <- app_assoc.
  - exists [CStatusUpdate (reconciledWorker (clock w2) worker)].
    split_and!; [|done|right; by eexists].
    pose proof (deferredStatusUpdate_calls
                  (reconciledWorker (clock w2) worker) None w2) as Hd.
    unfold reconciledWorker in *.
    destruct (deferredStatusUpdate _ None w2) as [reterr w3]. simpl in *.
    apply newCalls_app. rewrite Hd, Hc. simpl. by rewrite <- !app_assoc.
Qed.

(** X10. Every status update a pass sends carries the phase Running and an
    available capacity that is set, for the Worker the pass fetched: the
    phase Pending, which [Reconcile] assigns first, and a nil capacity are
    never written. *)
Theorem status_update_writes_running r req w wk :
  CStatusUpdate wk ∈ newCalls w (snd (Reconcile r req w)) →
  st_Phase (wk_Status wk) = "Running"
  ∧ is_Some (st_AvailableCapacity (wk_Status wk))
  ∧ ∃ worker, mgmt w !! requestKey req = Some (RWorker worker)
              ∧ wk_meta wk = wk_meta worker ∧ wk_Spec wk = wk_Spec worker.
Proof.
  intros Hin.
  destruct (Reconcile_not_fetched r req w) as [(worker & Hf & Hw)|Heq].
  2:{ rewrite Heq, (newCalls_app _ _ [CGet Mgmt (requestKey req)]) in Hin by done.
      apply list_elem_of_singleton in Hin. discriminate. }
  destruct (Reconcile_calls r req w worker Hf Hw) as (l & tl & Hc & Hl & Htl).
  rewrite Hc in Hin.
  apply elem_of_cons in Hin as [?|Hin]; [discriminate|].
  apply elem_of_app in Hin as [Hin|Hin].
  { eapply Forall_forall in Hl; [|exact Hin]. by destruct Hl. }
  destruct Htl as [->|[now ->]]; [by apply elem_of_nil in Hin|].
  apply list_elem_of_singleton in Hin. injection Hin as ->.
  split_and!; [done| |].
  - unfold reconciledWorker, initCapacity. simpl.
    destruct (st_AvailableCapacity (wk_Status worker)) eqn:Hcap; simpl;
      [rewrite Hcap|]; by eexists.
  - exists worker. split; [done|].
    unfold reconciledWorker, initCapacity. simpl.
    by destruct (st_AvailableCapacity (wk_Status worker)).
Qed.

(** The status update of the first pass over [freshWorld]. *)
Lemma status_update_writes_running_witness :
  CStatusUpdate (reconciledWorker 1000%Z alpha)
  ∈ newCalls freshWorld (snd (Reconcile exampleReconciler alphaRequest freshWorld))
  ∧ st_Phase (wk_Status (reconciledWorker 1000%Z alpha)) = "Running"
  ∧ is_Some (st_AvailableCapacity (wk_Status (reconciledWorker 1000%Z alpha)))
  ∧ ∃ worker, mgmt freshWorld !! requestKey alphaRequest = Some (RWorker worker)
              ∧ wk_meta (reconciledWorker 1000%Z alpha) = wk_meta worker
              ∧ wk_Spec (reconciledWorker 1000%Z alpha) = wk_Spec worker.
Proof.
  assert (CStatusUpdate (reconciledWorker 1000%Z alpha)
          ∈ newCalls freshWorld
              (snd (Reconcile exampleReconciler alphaRequest freshWorld))) as Hin.
  { apply (list_elem_of_lookup_2 _ 21%nat). vm_compute. reflexivity. }
  split; [exact Hin|].
  exact (status_update_writes_running exampleReconciler alphaRequest freshWorld _ Hin).
Defined.

(** X11. The remote bootstrap phase sends the create of a secret to the
    remote cluster only when the namespace capz-system exists there: the
    namespace is ensured first, and the phase ends when that fails. *)
Theorem remote_secret_after_namespace r worker w s :
  CCreate Remote (RSecret s) ∈ newCalls w (snd (reconcileExternal r worker w)) →
  is_Some (remote (snd (reconcileExternal r worker w)) !! remoteNamespaceKey).
Proof.
  destruct (reconcileExternal r worker w) as [res w'] eqn:Hrun.
  destruct (reconcileExternal_summary _ _ _ _ _ Hrun)
    as (l & Hc & _ & _ & _ & _ & _ & _ & [Hno|Hns]); simpl; [|done].
  rewrite (newCalls_app _ _ _ Hc). intros Hin.
  eapply Forall_forall in Hno; [|exact Hin]. by destruct (Hno s).
Qed.

(** The phase in [freshWorld]: the namespace is created, then the secret. *)
Lemma remote_secret_after_namespace_witness :
  CCreate Remote (RSecret (newRemoteSecret credentials))
  ∈ newCalls freshWorld (snd (reconcileExternal exampleReconciler alpha freshWorld))
  ∧ is_Some (remote (snd (reconcileExternal exampleReconciler alpha freshWorld))
               !! remoteNamespaceKey).
Proof.
  assert (CCreate Remote (RSecret (newRemoteSecret credentials))
          ∈ newCalls freshWorld
              (snd (reconcileExternal exampleReconciler alpha freshWorld))) as Hin.
  { apply (list_elem_of_lookup_2 _ 6%nat). vm_compute. reflexivity. }
  split; [exact Hin|].
  exact (remote_secret_after_namespace exampleReconciler alpha freshWorld _ Hin).
Defined.

(** ** The builders, together *)

(** X12. The builders read the settings through five names only, and an
    absent name is read as the empty string: settings maps that agree on
    the five values, read so, give the same cloud provider configuration,
    the same KubeadmControlPlane and the same KubeadmConfigTemplate. No
    builder fails for a missing or an empty credential. *)
Theorem builders_read_five_settings cluster location s1 s2 :
  Forall (λ k, default "" (s1 !! k) = default "" (s2 !! k))
    ["AZURE_ENVIRONMENT"; "AZURE_TENANT_ID"; "AZURE_SUBSCRIPTION_ID";
     "AZURE_CLIENT_ID"; "AZURE_CLIENT_SECRET"] →
  getCloudProviderConfig cluster location s1
  = getCloudProviderConfig cluster location s2
  ∧ getKubeadmControlPlane cluster location s1
    = getKubeadmControlPlane cluster location s2
  ∧ getKubeadmConfigTemplate cluster location s1
    = getKubeadmConfigTemplate cluster location s2
  ∧ snd (getCloudProviderConfig cluster location s1) = None.
Proof.
  intros H.
  assert (getCloudProviderConfig cluster location s1
          = getCloudProviderConfig cluster location s2) as Hcfg.
  { unfold getCloudProviderConfig, mapIndex, auth_EnvironmentName, auth_TenantID,
      auth_SubscriptionID, auth_ClientID, auth_ClientSecret.
    apply Forall_cons in H as [-> H]. apply Forall_cons in H as [-> H].
    apply Forall_cons in H as [-> H]. apply Forall_cons in H as [-> H].
    apply Forall_cons in H as [-> H]. done. }
  split_and!; try done.
  - unfold getKubeadmControlPlane. by rewrite Hcfg.
  - unfold getKubeadmConfigTemplate. by rewrite Hcfg.
Qed.

(** [noisySettings] adds a proxy and an empty client id to the settings of
    [exampleReconciler], which has no client id. *)
Lemma builders_read_five_settings_witness :
  Forall (λ k, default "" (AzureSettings exampleReconciler !! k)
               = default "" (noisySettings !! k))
    ["AZURE_ENVIRONMENT"; "AZURE_TENANT_ID"; "AZURE_SUBSCRIPTION_ID";
     "AZURE_CLIENT_ID"; "AZURE_CLIENT_SECRET"]
  ∧ AzureSettings exampleReconciler ≠ noisySettings
  ∧ getCloudProviderConfig "alpha" "westus2" (AzureSettings exampleReconciler)
    = getCloudProviderConfig "alpha" "westus2" noisySettings
  ∧ getKubeadmControlPlane "alpha" "westus2" (AzureSettings exampleReconciler)
    = getKubeadmControlPlane "alpha" "westus2" noisySettings
  ∧ getKubeadmConfigTemplate "alpha" "westus2" (AzureSettings exampleReconciler)
    = getKubeadmConfigTemplate "alpha" "westus2" noisySettings
  ∧ snd (getCloudProviderConfig "alpha" "westus2" (AzureSettings exampleReconciler))
    = None.
Proof.
  assert (Forall (λ k, default "" (AzureSettings exampleReconciler !! k)
                       = default "" (noisySettings !! k))
            ["AZURE_ENVIRONMENT"; "AZURE_TENANT_ID"; "AZURE_SUBSCRIPTION_ID";
             "AZURE_CLIENT_ID"; "AZURE_CLIENT_SECRET"]) as H
    by (repeat (apply Forall_cons_2; [vm_compute; reflexivity|]); constructor).
  split; [exact H|]. split.
  { intros E. apply (f_equal (λ m, m !! "HTTP_PROXY")) in E.
    vm_compute in E. discriminate. }
  exact (builders_read_five_settings "alpha" "westus2" _ _ H).
Defined.

(** X13. The references between the six objects of a stack resolve: every
    object reference carried by an object built for a Worker names, by API
    version, kind and name, another of the six objects built for the same
    Worker, in the same namespace. *)
Theorem stack_references_resolve r worker o ref :
  o ∈ desired r worker →
  ref ∈ references o →
  ∃ o', o' ∈ desired r worker
        ∧ typeMeta (fst (fst (resourceKey o')))
          = Some (ref_APIVersion ref, ref_Kind ref)
        ∧ resourceKey o'
          = (fst (fst (resourceKey o')), snd (fst (resourceKey o)), ref_Name ref).
Proof.
  destruct (desired_eq r worker) as (t & cp & Ht & Htn & Hcp & Hcpn & ->).
  pose proof Hcp as Hcp'. unfold getKubeadmControlPlane in Hcp'.
  destruct (getCloudProviderConfig _ _ _) as [data [e|]]; [done|].
  injection Hcp' as <-.
  pose proof Ht as Ht'. unfold getKubeadmConfigTemplate in Ht'.
  rewrite (surjective_pairing (getCloudProviderConfig _ _ _)) in Ht'.
  rewrite getCloudProviderConfig_ok in Ht'. injection Ht' as <-.
  intros Ho Href.
  repeat (apply elem_of_cons in Ho as [->|Ho]);
    try (by apply elem_of_nil in Ho);
    simpl in Href;
    repeat (apply elem_of_cons in Href as [->|Href]);
    try (by apply elem_of_nil in Href);
    first
      [ eexists; split; [apply (list_elem_of_lookup_2 _ 0%nat); reflexivity|];
        split; reflexivity
      | eexists; split; [apply (list_elem_of_lookup_2 _ 1%nat); reflexivity|];
        split; reflexivity
      | eexists; split; [apply (list_elem_of_lookup_2 _ 2%nat); reflexivity|];
        split; reflexivity
      | eexists; split; [apply (list_elem_of_lookup_2 _ 3%nat); reflexivity|];
        split; reflexivity
      | eexists; split; [apply (list_elem_of_lookup_2 _ 4%nat); reflexivity|];
        split; reflexivity
      | eexists; split; [apply (list_elem_of_lookup_2 _ 5%nat); reflexivity|];
        split; reflexivity ].
Qed.

(** The MachineDeployment built for [alpha] refers to the
    KubeadmConfigTemplate built for [alpha]. *)
Lemma stack_references_resolve_witness :
  RMachineDeployment (setNamespace "default" (getMachineDeployment alpha))
  ∈ desired exampleReconciler alpha
  ∧ {| ref_APIVersion := "bootstrap.cluster.x-k8s.io/v1alpha3";
       ref_Kind := "KubeadmConfigTemplate"; ref_Name := "alpha" |}
    ∈ references (RMachineDeployment
                    (setNamespace "default" (getMachineDeployment alpha)))
  ∧ ∃ o', o' ∈ desired exampleReconciler alpha
          ∧ typeMeta (fst (fst (resourceKey o')))
            = Some ("bootstrap.cluster.x-k8s.io/v1alpha3", "KubeadmConfigTemplate")
          ∧ resourceKey o'
            = (fst (fst (resourceKey o')), "default", "alpha").
Proof.
  assert (RMachineDeployment (setNamespace "default" (getMachineDeployment alpha))
          ∈ desired exampleReconciler alpha) as Ho.
  { apply (list_elem_of_lookup_2 _ 4%nat). vm_compute. reflexivity. }
  assert ({| ref_APIVersion := "bootstrap.cluster.x-k8s.io/v1alpha3";
             ref_Kind := "KubeadmConfigTemplate"; ref_Name := "alpha" |}
          ∈ references (RMachineDeployment
                          (setNamespace "default" (getMachineDeployment alpha))))
    as Href.
  { apply (list_elem_of_lookup_2 _ 0%nat). reflexivity. }
  split; [exact Ho|]. split; [exact Href|].
  exact (stack_references_resolve exampleReconciler alpha _ _ Ho Href).
Defined.

(** ** The owner of the AzureCluster *)

(** Without a registered Worker type the closure of the sixth stage fails,
    whether the AzureCluster exists or not. *)
Lemma reconcileAzureCluster_unregistered r worker w :
  r_Scheme r !! KWorker = None →
  succeeded (fst (reconcileAzureCluster r worker w)) = false.
Proof.
  intros Hnone. unfold reconcileAzureCluster, CreateOrUpdate. unfold_M. simpl.
  rewrite client_Get_eq.
  destruct (nextFault w); [done|].
  assert (∀ m : Mem AzureCluster,
            p_want m = 1%nat → is_Some (heap m !! 1%nat) →
            ∀ k, mutate (bindOwner r worker) k 0 m
                 = inl (EMsg "no kind is registered for the type of the owner"))
    as Hmut.
  { intros m Hp [o Ho] k. unfold mutate, bindOwner, load. rewrite Hp, Ho.
    unfold SetControllerReference.
    change (kindOf Worker) with KWorker. by rewrite Hnone. }
  destruct (store Mgmt w !! _) as [r0|]; simpl.
  - destruct r0; simpl; try done.
    rewrite Hmut; [done|done|by eexists].
  - rewrite Hmut; [done|done|by eexists].
Qed.

Lemma runReconcilers_needs_owner r worker w :
  r_Scheme r !! KWorker = None →
  succeeded (fst (runReconcilers (reconcilers r) worker w)) = false.
Proof.
  intros Hnone.
  destruct (succeeded (fst (runReconcilers (reconcilers r) worker w))) eqn:Hok;
    [|done].
  exfalso.
  apply (runReconcilers_post r worker (reconcilers r) (λ i _, i ≠ 5%nat))
    with (w := w) (i := 5%nat); try done.
  - intros i f Hi w0. apply reconcilers_Related.
    by eapply list_elem_of_lookup_2.
  - intros i f Hi w0 Hs ->. injection Hi as <-.
    by rewrite reconcileAzureCluster_unregistered in Hs.
  - simpl. lia.
Qed.

(** A pass whose stages fail. *)
Lemma Reconcile_stage_failure r req w worker :
  mgmt w !! requestKey req = Some (RWorker worker) →
  succeeded (fst (runReconcilers (reconcilers r) worker
                    (logCall (CGet Mgmt (requestKey req)) w))) = false →
  is_Some (snd (fst (Reconcile r req w)))
  ∧ Forall (λ c, isStatusUpdate c = false) (newCalls w (snd (Reconcile r req w)))
  ∧ mgmt (snd (Reconcile r req w)) !! requestKey req = Some (RWorker worker).
Proof.
  intros Hw Hfail.
  destruct (nextFault w) as [msg|] eqn:Hf.
  { rewrite (Reconcile_fault _ _ _ _ Hf). simpl. split_and!; try done.
    rewrite (newCalls_app _ _ [CGet Mgmt (requestKey req)]) by done.
    by repeat constructor. }
  rewrite (Reconcile_fetched r req w worker Hf Hw).
  set (w1 := logCall (CGet Mgmt (requestKey req)) w) in *.
  pose proof (runReconcilers_Observed worker (reconcilers r)
                (λ f Hin w0, reconcilers_Observed r worker f w0 Hin) w1)
    as (Hm & (l & Hc & Hl) & _).
  destruct (runReconcilers (reconcilers r) worker w1) as [[e|[]] w2]; [|done].
  simpl in *. split_and!.
  - by eexists.
  - rewrite (newCalls_app _ _ (CGet Mgmt (requestKey req) :: l))
      by (rewrite Hc; simpl; by rewrite <- app_assoc).
    apply Forall_cons_2; [done|].
    eapply Forall_impl; [exact Hl|]. by intros c [? _].
  - rewrite Hm by (by left). done.
Qed.

(** X14. The owner reference of the AzureCluster must be computable even
    though it is never sent: with a scheme in which the Worker type is not
    registered, every pass over a stored Worker returns an error and
    writes no status, whatever is stored already. *)
Theorem Reconcile_needs_registered_owner r req w worker :
  mgmt w !! requestKey req = Some (RWorker worker) →
  r_Scheme r !! KWorker = None →
  is_Some (snd (fst (Reconcile r req w)))
  ∧ Forall (λ c, isStatusUpdate c = false) (newCalls w (snd (Reconcile r req w)))
  ∧ mgmt (snd (Reconcile r req w)) !! requestKey req = Some (RWorker worker).
Proof.
  intros Hw Hnone. apply Reconcile_stage_failure; [done|].
  by apply runReconcilers_needs_owner.
Qed.

(** [bareReconciler] in [freshWorld]. *)
Lemma Reconcile_needs_registered_owner_witness :
  mgmt freshWorld !! requestKey alphaRequest = Some (RWorker alpha)
  ∧ r_Scheme bareReconciler !! KWorker = None
  ∧ is_Some (snd (fst (Reconcile bareReconciler alphaRequest freshWorld)))
  ∧ Forall (λ c, isStatusUpdate c = false)
      (newCalls freshWorld (snd (Reconcile bareReconciler alphaRequest freshWorld)))
  ∧ mgmt (snd (Reconcile bareReconciler alphaRequest freshWorld))
      !! requestKey alphaRequest
    = Some (RWorker alpha).
Proof.
  assert (mgmt freshWorld !! requestKey alphaRequest = Some (RWorker alpha)) as Hw
    by (vm_compute; reflexivity).
  assert (r_Scheme bareReconciler !! KWorker = None) as Hnone by reflexivity.
  split; [exact Hw|]. split; [exact Hnone|].
  exact (Reconcile_needs_registered_owner bareReconciler alphaRequest freshWorld
           alpha Hw Hnone).
Defined.

(** ** A pass without faults *)

Lemma noFaults_nextFault w : noFaults w → nextFault w = None.
Proof.
  unfold noFaults, nextFault. destruct (script w) as [|[msg|] ?]; try done.
  by intros [? _]%Forall_cons.
Qed.

Lemma noFaults_logCall c w : noFaults w → noFaults (logCall c w).
Proof.
  unfold noFaults. simpl. destruct (script w); [done|].
  by intros [_ ?]%Forall_cons.
Qed.

Lemma noFaults_setStore p s w : noFaults w → noFaults (setStore p s w).
Proof. by destruct p. Qed.

Lemma Outcome_noFaults c k o w ok w' :
  Outcome c k o w ok w' → noFaults w → noFaults w'.
Proof.
  intros [] Hw; repeat first [apply noFaults_setStore | apply noFaults_logCall];
    done.
Qed.

Lemma wellKeyed_insert (s : gmap Key Resource) o :
  wellKeyed s → wellKeyed (<[resourceKey o := o]> s).
Proof. intros Hs. by apply map_Forall_insert_2. Qed.

(** With no fault, a well-keyed store and a closure that returns nil and
    leaves [*obj] alone, [CreateOrUpdate] succeeds: it finds the object or
    creates it. *)
Lemma CreateOrUpdate_live {T} `{Object T} c obj (f : MutateFn T) m o w :
  load obj m = inr o →
  keepsCell obj m f →
  (∀ m0, m0 = m ∨ (∃ live, m0 = storeAt obj live m) → ∃ m1, f m0 = inr m1) →
  (∀ r, fst (fst (resourceKey r)) = kindOf T →
        ∃ live : T, ofResource r = Some live ∧ objectKey live = resourceKey r) →
  noFaults w → wellKeyed (store c w) →
  ∃ res w', CreateOrUpdate c obj f m w = (inr res, w')
            ∧ Outcome c (objectKey o) (toResource o) w true w'.
Proof.
  intros Hload Hf Hok Hlaw Hnf Hwk.
  destruct (CreateOrUpdate c obj f m w) as [res w'] eqn:Hrun.
  pose proof (CreateOrUpdate_Outcome c obj f m o w res w' Hload Hf Hrun) as Hout.
  enough (succeeded res = true) as Hs.
  { destruct res as [e|res]; [done|]. exists res, w'. by split. }
  revert Hrun. clear Hout.
  unfold CreateOrUpdate. unfold_M. rewrite Hload.
  rewrite client_Get_eq. fold (objectKey o).
  rewrite (noFaults_nextFault w Hnf). simpl.
  destruct (store c w !! objectKey o) as [r|] eqn:Hget; simpl.
  - pose proof (Hwk _ _ Hget) as Hkey. simpl in Hkey.
    destruct (Hlaw r) as (live & -> & Hlive); [by rewrite Hkey|]. simpl.
    unfold mutate.
    destruct (Hok (storeAt obj live m)) as [m2 Hfm]; [right; by eexists|].
    rewrite Hfm.
    assert (heap m2 !! obj = Some live) as Hcell.
    { rewrite (Hf _ _ (sameShape_storeAt m obj live) Hfm). simpl.
      apply list_lookup_insert_eq. apply load_Some in Hload.
      by eapply lookup_lt_Some. }
    unfold load. rewrite Hcell.
    rewrite decide_True by congruence. simpl.
    rewrite Hcell. rewrite decide_True by done.
    by intros [= <- <-].
  - unfold mutate.
    destruct (Hok m) as [m1 Hfm]; [by left|]. rewrite Hfm.
    assert (heap m1 !! obj = Some o) as Hcell.
    { rewrite (Hf _ _ (sameShape_refl m) Hfm). by apply load_Some. }
    unfold load. rewrite Hcell. rewrite decide_True by done. simpl.
    rewrite Hcell, client_Create_eq. cbv zeta.
    rewrite !store_logCall, Hget.
    rewrite (noFaults_nextFault _ (noFaults_logCall _ w Hnf)).
    by intros [= <- <-].
Qed.

(** The shape all six stages share. *)
Lemma ensure_live {T} `{Object T} msg (f : MutateFn T) (t : T) w :
  keepsCell 0 (newMem t) f →
  (∀ m0, m0 = newMem t ∨ (∃ live, m0 = storeAt 0 live (newMem t)) →
         ∃ m1, f m0 = inr m1) →
  (∀ r, fst (fst (resourceKey r)) = kindOf T →
        ∃ live : T, ofResource r = Some live ∧ objectKey live = resourceKey r) →
  noFaults w → wellKeyed (mgmt w) →
  succeeded (fst ((wrapErr msg (CreateOrUpdate Mgmt (p_template (newMem t)) f (newMem t)) ;;
                   mret ()) w)) = true.
Proof.
  intros Hf Hok Hlaw Hnf Hwk. unfold_M.
  destruct (CreateOrUpdate_live Mgmt (p_template (newMem t)) f (newMem t) t w
              (newMem_load t) Hf Hok Hlaw Hnf Hwk) as (res & w' & -> & _).
  done.
Qed.

Lemma rebind_ok {T} (P : Mem T → Prop) : ∀ m0, P m0 → ∃ m1, rebind m0 = inr m1.
Proof. intros m0 _. by eexists. Qed.

Lemma bindOwner_ok r worker (t : AzureCluster) :
  is_Some (r_Scheme r !! KWorker) →
  OwnerReferences (azc_meta t) = [] →
  ∀ m0, m0 = newMem t ∨ (∃ live, m0 = storeAt 0 live (newMem t)) →
        ∃ m1, bindOwner r worker m0 = inr m1.
Proof.
  intros [gvk Hgvk] Hrefs m0 Hm0.
  assert (load (p_want m0) m0 = inr t) as Hload.
  { by destruct Hm0 as [->|[live ->]]. }
  unfold bindOwner. rewrite Hload. unfold SetControllerReference.
  change (kindOf Worker) with KWorker. rewrite Hgvk.
  change (GetObjectMeta t) with (azc_meta t). rewrite Hrefs. simpl.
  by eexists.
Qed.

Ltac solve_law :=
  intros [] Hk; unfold resourceKey, objectKey in Hk; simpl in Hk;
  try discriminate; eexists; split; reflexivity.

(** Each of the six management-plane stages succeeds when no call fails,
    the store is well keyed and the Worker type is registered. *)
Lemma stage_live r worker i f w :
  reconcilers r !! i = Some f → (i < 6)%nat →
  is_Some (r_Scheme r !! KWorker) →
  noFaults w → wellKeyed (mgmt w) →
  succeeded (fst (f worker w)) = true.
Proof.
  intros Hi Hlt Hscheme Hnf Hwk.
  destruct (desired_eq r worker) as (t & cp & Ht & Hnt & Hcp & Hncp & _).
  destruct i as [|[|[|[|[|[|i]]]]]]; simpl in Hi; [injection Hi as <-..|lia].
  - apply ensure_live;
      [apply rebind_keepsCell|apply rebind_ok|solve_law|done|done].
  - unfold reconcileKubeadmConfigTemplate. rewrite Ht.
    apply (ensure_live _ rebind);
      [apply rebind_keepsCell|apply rebind_ok|solve_law|done|done].
  - unfold reconcileKubeadmControlPlane. rewrite Hcp.
    apply (ensure_live _ rebind);
      [apply rebind_keepsCell|apply rebind_ok|solve_law|done|done].
  - apply ensure_live;
      [apply rebind_keepsCell|apply rebind_ok|solve_law|done|done].
  - apply ensure_live;
      [apply rebind_keepsCell|apply rebind_ok|solve_law|done|done].
  - apply ensure_live;
      [apply bindOwner_keepsCell|by apply bindOwner_ok|solve_law|done|done].
Qed.

Lemma Outcome_wellKeyed c k o w ok w' :
  Outcome c k o w ok w' → resourceKey o = k →
  wellKeyed (store c w) → wellKeyed (store c w').
Proof.
  intros [] <- Hw; rewrite ?store_setStore, ?store_logCall; try done.
  by apply wellKeyed_insert.
Qed.

Lemma noMutation_ok {T} (P : Mem T → Prop) :
  ∀ m0, P m0 → ∃ m1, noMutation m0 = inr m1.
Proof. intros m0 _. by eexists. Qed.

(** The remote bootstrap phase succeeds when no call fails, the remote
    store is well keyed and the two secrets it reads are there. *)
Lemma reconcileExternal_live r worker w a ks data :
  noFaults w → wellKeyed (remote w) →
  mgmt w !! credentialKey = Some (RSecret a) →
  mgmt w !! kubeconfigKey worker = Some (RSecret ks) →
  sec_Data ks !! KubeconfigDataName = Some data →
  succeeded (fst (reconcileExternal r worker w)) = true
  ∧ noFaults (snd (reconcileExternal r worker w)).
Proof.
  intros Hnf Hwk Hcred Hkc Hdata.
  unfold reconcileExternal. unfold_M.
  rewrite client_Get_eq, (noFaults_nextFault w Hnf).
  change (store Mgmt w) with (mgmt w).
  change (kindOf Secret, azureKey_Namespace, azureKey_Name) with credentialKey.
  rewrite Hcred. simpl.
  set (w1 := logCall (CGet Mgmt credentialKey) w).
  assert (noFaults w1) as Hnf1 by (by apply noFaults_logCall).
  rewrite client_Get_eq, (noFaults_nextFault w1 Hnf1).
  change (store Mgmt w1) with (mgmt w).
  change (kindOf Secret, Namespace (wk_meta worker),
          Sprintf_s (Name (wk_meta worker)) "-kubeconfig")
    with (kubeconfigKey worker).
  rewrite Hkc. simpl. rewrite Hdata.
  set (w2 := logCall (CGet Mgmt (kubeconfigKey worker)) w1).
  assert (noFaults w2) as Hnf2 by (by apply noFaults_logCall).
  unfold remote_NewClient, apiCall. unfold_M.
  rewrite (noFaults_nextFault w2 Hnf2).
  set (w3 := logCall (CNewClient data) w2).
  assert (noFaults w3) as Hnf3 by (by apply noFaults_logCall).
  destruct (CreateOrUpdate_live Remote 0 noMutation
              {| heap := [{| ns_meta := metaNamed azureKey_Namespace |}];
                 p_template := 0; p_want := 0 |}
              {| ns_meta := metaNamed azureKey_Namespace |} w3)
    as (res4 & w4 & Hrun4 & Hout4);
    [done|apply noMutation_keepsCell|apply noMutation_ok|solve_law|done|done|].
  rewrite Hrun4.
  pose proof (Outcome_noFaults _ _ _ _ _ _ Hout4 Hnf3) as Hnf4.
  pose proof (Outcome_wellKeyed _ _ _ _ _ _ Hout4 eq_refl Hwk) as Hwk4.
  destruct (CreateOrUpdate_live Remote (p_template (newMem (newRemoteSecret a)))
              rebind (newMem (newRemoteSecret a)) (newRemoteSecret a) w4)
    as (res5 & w5 & Hrun5 & Hout5);
    [done|apply rebind_keepsCell|apply rebind_ok|solve_law|done|done|].
  change (p_template (newMem (newRemoteSecret a))) with 0%nat in Hrun5.
  rewrite Hrun5.
  pose proof (Outcome_noFaults _ _ _ _ _ _ Hout5 Hnf4) as Hnf5.
  unfold remote_Apply, apiCall, applyManifest. unfold_M.
  rewrite (noFaults_nextFault w5 Hnf5). simpl.
  split; [done|]. by apply (noFaults_logCall (CApply calicoURL)).
Qed.

(** What holds before every stage of a pass without faults. *)
Lemma runReconcilers_live (Inv : World → Prop) fs worker :
  (∀ f, f ∈ fs → ∀ w, Inv w →
        succeeded (fst (f worker w)) = true ∧ Inv (snd (f worker w))) →
  ∀ w, Inv w →
       succeeded (fst (runReconcilers fs worker w)) = true
       ∧ Inv (snd (runReconcilers fs worker w)).
Proof.
  induction fs as [|f fs IH]; intros Hfs w Hw; [done|].
  simpl. unfold_M.
  destruct (Hfs f ltac:(left) w Hw) as [Hs Hinv].
  destruct (f worker w) as [[e|[]] w1]; [done|].
  apply IH; [|done]. intros g Hg. apply Hfs. by right.
Qed.

Lemma reconcilers_live r worker a ks data f w :
  f ∈ reconcilers r →
  is_Some (r_Scheme r !! KWorker) →
  sec_Data ks !! KubeconfigDataName = Some data →
  noFaults w ∧ wellKeyed (mgmt w) ∧ wellKeyed (remote w)
  ∧ mgmt w !! credentialKey = Some (RSecret a)
  ∧ mgmt w !! kubeconfigKey worker = Some (RSecret ks) →
  succeeded (fst (f worker w)) = true
  ∧ (noFaults (snd (f worker w)) ∧ wellKeyed (mgmt (snd (f worker w)))
     ∧ wellKeyed (remote (snd (f worker w)))
     ∧ mgmt (snd (f worker w)) !! credentialKey = Some (RSecret a)
     ∧ mgmt (snd (f worker w)) !! kubeconfigKey worker = Some (RSecret ks)).
Proof.
  intros Hin Hscheme Hdata (Hnf & Hwm & Hwr & Hcred & Hkc).
  pose proof (reconcilers_Related r worker f w Hin) as HR.
  destruct (wellKeyed_step _ _ _ _ HR Hwm Hwr) as [Hwm' Hwr'].
  rewrite (Related_secret _ _ _ _ credentialKey HR) by done.
  rewrite (Related_secret _ _ _ _ (kubeconfigKey worker) HR) by done.
  apply list_elem_of_lookup in Hin as [i Hi].
  destruct (decide (i = 6%nat)) as [->|Hne].
  - injection Hi as <-.
    destruct (reconcileExternal_live r worker w a ks data) as [Hs Hnf']; try done.
  - assert (i < 6)%nat as Hlt.
    { apply lookup_lt_Some in Hi. simpl in Hi. lia. }
    destruct (desired_eq r worker) as (t & cp & _ & _ & _ & _ & Hd).
    assert (∃ o, desired r worker !! i = Some o) as [o Ho].
    { apply lookup_lt_is_Some. rewrite desired_length. lia. }
    pose proof (stage_Outcome r worker i f o w Hi Ho) as Hout.
    split; [by eapply stage_live|].
    split_and!; try done. by eapply Outcome_noFaults.
Qed.

Lemma reconciledWorker_stored now worker :
  {| wk_meta := wk_meta worker; wk_Spec := wk_Spec worker;
     wk_Status := wk_Status (reconciledWorker now worker) |}
  = reconciledWorker now worker.
Proof.
  unfold reconciledWorker, initCapacity, setPhase. simpl.
  by destruct (st_AvailableCapacity (wk_Status worker)).
Qed.

Lemma Reconcile_live r req w worker a ks data :
  noFaults w → wellKeyed (mgmt w) → wellKeyed (remote w) →
  is_Some (r_Scheme r !! KWorker) →
  mgmt w !! requestKey req = Some (RWorker worker) →
  mgmt w !! credentialKey = Some (RSecret a) →
  mgmt w !! kubeconfigKey worker = Some (RSecret ks) →
  sec_Data ks !! KubeconfigDataName = Some data →
  fst (Reconcile r req w) = (emptyResult, None)
  ∧ mgmt (snd (Reconcile r req w)) !! requestKey req
    = Some (RWorker (reconciledWorker (clock w) worker)).
Proof.
  intros Hnf Hwm Hwr Hscheme Hw Hcred Hkc Hdata.
  pose proof (noFaults_nextFault w Hnf) as Hf.
  assert (objectKey worker = requestKey req) as Hkey by exact (Hwm _ _ Hw).
  destruct (Reconcile_pass r req w worker Hf Hw)
    as (res & w2 & l & Hrun & _ & _ & _ & Hwk & Hres).
  destruct (runReconcilers_live
              (λ w0, noFaults w0 ∧ wellKeyed (mgmt w0) ∧ wellKeyed (remote w0)
                     ∧ mgmt w0 !! credentialKey = Some (RSecret a)
                     ∧ mgmt w0 !! kubeconfigKey worker = Some (RSecret ks))
              (reconcilers r) worker
              (λ f Hin w0, reconcilers_live r worker a ks data f w0 Hin Hscheme Hdata)
              (logCall (CGet Mgmt (requestKey req)) w))
    as [Hs (Hnf2 & _)].
  { split_and!; try done. by apply noFaults_logCall. }
  rewrite Hrun in Hs, Hnf2. simpl in Hs, Hnf2.
  destruct res as [e|[]]; [done|]. destruct Hres as [_ ->].
  unfold deferredStatusUpdate. rewrite Status_Update_eq. cbv zeta.
  rewrite (noFaults_nextFault w2 Hnf2), reconciledWorker_key, Hkey.
  unfold requestKey in *. rewrite Hwk, Hw. simpl.
  split; [done|].
  rewrite lookup_insert_eq. do 2 f_equal.
  exact (reconciledWorker_stored (clock w) worker).
Qed.

(** X15. A pass meets no fault, the stores are well keyed, the Worker type
    is registered, and the Worker, the credential secret and a kubeconfig
    secret with the key "value" are stored: then the pass returns the empty
    result and nil, the stored Worker carries the status of
    [reconciledWorker] (phase Running, capacity set), the six objects exist
    in the management plane, and the remote cluster holds the namespace and
    the credential secret. This holds whatever part of the stack exists
    already. *)
Theorem Reconcile_succeeds r req w worker a ks data :
  noFaults w → wellKeyed (mgmt w) → wellKeyed (remote w) →
  is_Some (r_Scheme r !! KWorker) →
  mgmt w !! requestKey req = Some (RWorker worker) →
  mgmt w !! credentialKey = Some (RSecret a) →
  mgmt w !! kubeconfigKey worker = Some (RSecret ks) →
  sec_Data ks !! KubeconfigDataName = Some data →
  fst (Reconcile r req w) = (emptyResult, None)
  ∧ mgmt (snd (Reconcile r req w)) !! requestKey req
    = Some (RWorker (reconciledWorker (clock w) worker))
  ∧ converged r worker (snd (Reconcile r req w)).
Proof.
  intros Hnf Hwm Hwr Hscheme Hw Hcred Hkc Hdata.
  destruct (Reconcile_live r req w worker a ks data) as [Hres Hst]; try done.
  split_and!; try done.
  apply Reconcile_nil_converged; [done|]. by rewrite Hres.
Qed.

(** The pass over [driftedWorld], where one of the six objects exists. *)
Lemma Reconcile_succeeds_witness :
  noFaults driftedWorld
  ∧ wellKeyed (mgmt driftedWorld) ∧ wellKeyed (remote driftedWorld)
  ∧ is_Some (r_Scheme exampleReconciler !! KWorker)
  ∧ mgmt driftedWorld !! requestKey alphaRequest = Some (RWorker alpha)
  ∧ mgmt driftedWorld !! credentialKey = Some (RSecret credentials)
  ∧ mgmt driftedWorld !! kubeconfigKey alpha = Some (RSecret alphaKubeconfig)
  ∧ sec_Data alphaKubeconfig !! KubeconfigDataName
    = Some [Byte.x6b; Byte.x38; Byte.x73]
  ∧ fst (Reconcile exampleReconciler alphaRequest driftedWorld) = (emptyResult, None)
  ∧ mgmt (snd (Reconcile exampleReconciler alphaRequest driftedWorld))
      !! requestKey alphaRequest
    = Some (RWorker (reconciledWorker (clock driftedWorld) alpha))
  ∧ converged exampleReconciler alpha
      (snd (Reconcile exampleReconciler alphaRequest driftedWorld)).
Proof.
  assert (noFaults driftedWorld) as Hnf by constructor.
  assert (wellKeyed (mgmt driftedWorld)) as Hwm.
  { unfold driftedWorld, freshWorld, mgmt.
    repeat (apply map_Forall_insert_2; [reflexivity|]). apply map_Forall_empty. }
  assert (wellKeyed (remote driftedWorld)) as Hwr by apply map_Forall_empty.
  assert (is_Some (r_Scheme exampleReconciler !! KWorker)) as Hscheme
    by (vm_compute; eexists; reflexivity).
  assert (mgmt driftedWorld !! requestKey alphaRequest = Some (RWorker alpha)) as Hw
    by (vm_compute; reflexivity).
  assert (mgmt driftedWorld !! credentialKey = Some (RSecret credentials)) as Hcred
    by (vm_compute; reflexivity).
  assert (mgmt driftedWorld !! kubeconfigKey alpha = Some (RSecret alphaKubeconfig))
    as Hkc by (vm_compute; reflexivity).
  assert (sec_Data alphaKubeconfig !! KubeconfigDataName
          = Some [Byte.x6b; Byte.x38; Byte.x73]) as Hdata
    by (vm_compute; reflexivity).
  split_and!; try done.
  all: by destruct (Reconcile_succeeds exampleReconciler alphaRequest driftedWorld
                      alpha credentials alphaKubeconfig _
                      Hnf Hwm Hwr Hscheme Hw Hcred Hkc Hdata) as (? & ? & ?).
Defined.

(** ** Pass after pass *)

Lemma desired_ext r a b :
  wk_meta b = wk_meta a → wk_Spec b = wk_Spec a → desired r b = desired r a.
Proof.
  intros Hm Hs. unfold desired, getMachineDeployment. by rewrite Hm, Hs.
Qed.

(** X16. After a pass over a stored Worker has returned nil, the next pass
    for the same request sends no create and no update and leaves both
    stores as they are, Workers apart, whether or not its calls meet
    faults. It does apply the manifest again when it gets that far; that
    writes the objects of the manifest, which the first pass has stored
    already. *)
Theorem pass_after_success_writes_no_object r req w worker :
  mgmt w !! requestKey req = Some (RWorker worker) →
  snd (fst (Reconcile r req w)) = None →
  remote (snd (Reconcile r req (snd (Reconcile r req w))))
  = remote (snd (Reconcile r req w))
  ∧ (∀ k, fst (fst k) ≠ KWorker →
          mgmt (snd (Reconcile r req (snd (Reconcile r req w)))) !! k
          = mgmt (snd (Reconcile r req w)) !! k)
  ∧ Forall (λ c, isCreate c = false ∧ isUpdate c = false)
      (newCalls (snd (Reconcile r req w))
         (snd (Reconcile r req (snd (Reconcile r req w))))).
Proof.
  intros Hw Hnil.
  pose proof (Reconcile_nil_settled r req w worker Hw Hnil) as [Hconv Happ].
  assert (∃ b, mgmt (snd (Reconcile r req w)) !! requestKey req = Some (RWorker b)
               ∧ wk_meta b = wk_meta worker ∧ wk_Spec b = wk_Spec worker)
    as (b & Hb & Hmeta & Hspec).
  { destruct (Reconcile_step r req w) as [(wk & _ & _ & HB & _)|Heq].
    - specialize (HB (requestKey req) eq_refl). rewrite Hw in HB. exact HB.
    - rewrite Heq. by exists worker. }
  set (w1 := snd (Reconcile r req w)) in *.
  assert (settled r b w1) as Hset.
  { split; [|done]. unfold converged. by rewrite (desired_ext r worker b). }
  destruct (Reconcile_step r req w1) as [(b' & Hb' & _ & _ & _ & HD & _)|Heq].
  - assert (b' = b) as -> by congruence.
    destruct (HD Hset) as (Hr & Hm & l & Hc & Hl).
    split_and!; try done. by rewrite (newCalls_app _ _ _ Hc).
  - rewrite Heq. split_and!; try done.
    rewrite (newCalls_app _ _ [CGet Mgmt (requestKey req)]) by done.
    by repeat constructor.
Qed.

(** Two passes from [freshWorld]: the second sends the Apply once more. *)
Lemma pass_after_success_writes_no_object_witness :
  mgmt freshWorld !! requestKey alphaRequest = Some (RWorker alpha)
  ∧ snd (fst (Reconcile exampleReconciler alphaRequest freshWorld)) = None
  ∧ CApply calicoURL
    ∈ newCalls settledWorld
        (snd (Reconcile exampleReconciler alphaRequest settledWorld))
  ∧ remote (snd (Reconcile exampleReconciler alphaRequest settledWorld))
    = remote settledWorld
  ∧ (∀ k, fst (fst k) ≠ KWorker →
          mgmt (snd (Reconcile exampleReconciler alphaRequest settledWorld)) !! k
          = mgmt settledWorld !! k)
  ∧ Forall (λ c, isCreate c = false ∧ isUpdate c = false)
      (newCalls settledWorld
         (snd (Reconcile exampleReconciler alphaRequest settledWorld))).
Proof.
  assert (mgmt freshWorld !! requestKey alphaRequest = Some (RWorker alpha)) as Hw
    by (vm_compute; reflexivity).
  assert (snd (fst (Reconcile exampleReconciler alphaRequest freshWorld)) = None)
    as Hnil by (vm_compute; reflexivity).
  split; [exact Hw|]. split; [exact Hnil|]. split.
  { apply (list_elem_of_lookup_2 _ 12%nat). vm_compute. reflexivity. }
  exact (pass_after_success_writes_no_object exampleReconciler alphaRequest
           freshWorld alpha Hw Hnil).
Defined.

(** ** The cloud provider configuration and the Azure objects *)

(** X17. The cloud provider configuration written into the kubeadm files is
    the JSON of the struct of [cloudProviderConfig], and it names the
    resources as the Azure objects of the same stack do: its resource
    group and the resource group of its virtual network are the resource
    group of the AzureCluster, its virtual network is the one of the
    AzureCluster, and its location is that of the AzureCluster and of the
    AzureMachineTemplate. *)
Theorem cloud_config_matches_azure_objects cluster location settings :
  let cfg := cloudProviderConfig cluster location settings in
  let azc := azc_Spec (getAzureCluster cluster location) in
  getCloudProviderConfig cluster location settings = json_Marshal cfg
  ∧ ResourceGroup cfg = azc_ResourceGroup azc
  ∧ VnetResourceGroup cfg = azc_ResourceGroup azc
  ∧ VnetName cfg = vnet_Name (Vnet (azc_NetworkSpec azc))
  ∧ Location cfg = azc_Location azc
  ∧ Location cfg
    = ams_Location (amr_Spec (amt_Template
                                (amt_Spec (getMachineTemplate cluster location)))).
Proof. by split_and!. Qed.
